(** * EcoFinds marketplace backend: request handlers over a relational store

    A shallow embedding of the Flask route handlers of [backend/app/routes]
    ([auth_routes.py], [product_routes.py], [cart_routes.py],
    [purchase_routes.py], [wishlist_routes.py]).  A handler is a function from
    the request and the store before the call to the store after it and the
    HTTP response.  The store changes only where the source commits; every
    early [return] and every rolled-back commit leaves it as it was. *)

From Stdlib Require Import ZArith List String Ascii Bool Lia.
From Stdlib Require Import Permutation Sorted.
Import ListNotations.

Open Scope string_scope.
Open Scope list_scope.
Open Scope Z_scope.

(** ** Python strings (ASCII) *)

Module PyStr.

(** [str.isspace] on one ASCII character: TAB..CR, FS..US and the space. *)
Definition is_space (c : ascii) : bool :=
  let n := Z.of_nat (nat_of_ascii c) in
  ((9 <=? n) && (n <=? 13)) || ((28 <=? n) && (n <=? 31)) || (n =? 32).

Fixpoint lstrip_chars (l : list ascii) : list ascii :=
  match l with
  | [] => []
  | c :: l' => if is_space c then lstrip_chars l' else l
  end.

(** [s.strip()] *)
Definition strip (s : string) : string :=
  string_of_list_ascii
    (rev (lstrip_chars (rev (lstrip_chars (list_ascii_of_string s))))).

(** [c.lower()] on one ASCII character. *)
Definition lower_char (c : ascii) : ascii :=
  let n := nat_of_ascii c in
  if ((65 <=? n) && (n <=? 90))%nat then ascii_of_nat (n + 32) else c.

(** [s.lower()] *)
Fixpoint lower (s : string) : string :=
  match s with
  | EmptyString => EmptyString
  | String c s' => String (lower_char c) (lower s')
  end.

(** [sub in s] *)
Fixpoint contains (sub s : string) : bool :=
  prefix sub s ||
  match s with
  | EmptyString => false
  | String _ s' => contains sub s'
  end.

(** [s.startswith(p)] is [String.prefix p s]. *)

(** SQL [LIKE]: [%] stands for any run of characters, [_] for any one
    character, every other pattern character for itself. *)
Fixpoint like_chars (p v : list ascii) : bool :=
  match p with
  | [] => match v with [] => true | _ :: _ => false end
  | c :: p' =>
      if Ascii.eqb c "%" then
        (fix any_run (w : list ascii) : bool :=
           like_chars p' w ||
           match w with [] => false | _ :: w' => any_run w' end) v
      else if Ascii.eqb c "_" then
        match v with [] => false | _ :: v' => like_chars p' v' end
      else
        match v with [] => false | d :: v' => Ascii.eqb c d && like_chars p' v' end
  end.

(** SQLAlchemy's [column.ilike(pattern)]: [lower(column) LIKE lower(pattern)]. *)
Definition ilike (column pattern : string) : bool :=
  like_chars (list_ascii_of_string (lower pattern))
             (list_ascii_of_string (lower column)).

End PyStr.

(** ** The Python runtime the handlers rely on

    The numeric type of [Product.price] and of JSON numbers with a fraction,
    the conversions [int(...)], [float(...)], [str(...)], [round(..., 2)] and
    the password hash are builtins or collaborators outside the repository.
    The handlers are stated over any implementation of them. *)

Inductive pyexc := ValueError | TypeError | OverflowError | AttributeError.

Class Runtime := {
  number : Type;
  (** the conversion of an [int] operand in mixed arithmetic *)
  num_of_int : Z -> number;
  num_add : number -> number -> number;
  num_mul : number -> number -> number;
  (** [round(x, 2)] *)
  num_round2 : number -> number;
  (** [x <= 0] and [x > 0] *)
  num_le0 : number -> bool;
  num_gt0 : number -> bool;
  (** truth value of a number: [x != 0] *)
  num_truthy : number -> bool;
  (** [float(s)]; [None] stands for [ValueError] *)
  float_of_str : string -> option number;
  (** [int(x)] on a number with a fraction *)
  int_of_num : number -> Z + pyexc;
  (** [int(s)]; [None] stands for [ValueError] *)
  int_of_str : string -> option Z;
  (** [str(n)] *)
  str_of_int : Z -> string;
  (** [bcrypt.generate_password_hash] behind [User.set_password] *)
  password_hash_of : string -> string
}.

(** A small runtime to evaluate the handlers with: numbers are counted in
    hundredths, so that [round(x, 2)] changes nothing. *)
Module Demo.

Definition digit_of (c : ascii) : option Z :=
  let n := Z.of_nat (nat_of_ascii c) in
  if (48 <=? n) && (n <=? 57) then Some (n - 48) else None.

Fixpoint digits_value (acc : Z) (s : string) : option Z :=
  match s with
  | EmptyString => Some acc
  | String c s' =>
      match digit_of c with
      | Some d => digits_value (10 * acc + d) s'
      | None => None
      end
  end.

Definition parse_int (s : string) : option Z :=
  match s with
  | EmptyString => None
  | String "-" s' =>
      match s' with
      | EmptyString => None
      | _ => option_map Z.opp (digits_value 0 s')
      end
  | _ => digits_value 0 s
  end.

Fixpoint show_digits (fuel : nat) (n : Z) (acc : string) : string :=
  match fuel with
  | O => acc
  | S fuel' =>
      let acc' := String (ascii_of_nat (Z.to_nat (48 + n mod 10))) acc in
      if n / 10 =? 0 then acc' else show_digits fuel' (n / 10) acc'
  end.

Definition show_int (n : Z) : string :=
  if n <? 0 then String "-" (show_digits (Z.to_nat (- n)) (- n) "")
  else show_digits (S (Z.to_nat n)) n "".

Definition runtime : Runtime := {|
  number := Z;
  num_of_int := fun z => 100 * z;
  num_add := Z.add;
  num_mul := fun a b => Z.quot (a * b) 100;
  num_round2 := fun x => x;
  num_le0 := fun x => x <=? 0;
  num_gt0 := fun x => 0 <? x;
  num_truthy := fun x => negb (x =? 0);
  float_of_str := fun s => option_map (fun z => 100 * z) (parse_int s);
  int_of_num := fun x => inl (Z.quot x 100);
  int_of_str := parse_int;
  str_of_int := show_int;
  password_hash_of := fun p => String.append "hash:" p
|}.

End Demo.

(** The demo runtime with a not-a-number among its numbers, as Python's
    [float] has one: [float("nan")] gives it, whatever the case of the
    letters and the blanks around them; it compares neither [<= 0] nor
    [> 0]; arithmetic with it gives it again; it is true as a condition and
    [int] refuses it. *)
Module DemoNan.

Definition lift2 (f : Z -> Z -> Z) (a b : option Z) : option Z :=
  match a, b with
  | Some x, Some y => Some (f x y)
  | _, _ => None
  end.

Definition runtime : Runtime := {|
  number := option Z;
  num_of_int := fun z => Some (100 * z);
  num_add := lift2 Z.add;
  num_mul := lift2 (fun a b => Z.quot (a * b) 100);
  num_round2 := fun x => x;
  num_le0 := fun x => match x with Some z => z <=? 0 | None => false end;
  num_gt0 := fun x => match x with Some z => 0 <? z | None => false end;
  num_truthy :=
    fun x => match x with Some z => negb (z =? 0) | None => true end;
  float_of_str :=
    fun s =>
      if String.eqb (PyStr.lower (PyStr.strip s)) "nan" then Some None
      else option_map (fun z => Some (100 * z)) (Demo.parse_int s);
  int_of_num :=
    fun x => match x with Some z => inl (Z.quot z 100) | None => inr ValueError end;
  int_of_str := Demo.parse_int;
  str_of_int := Demo.show_int;
  password_hash_of := fun p => String.append "hash:" p
|}.

End DemoNan.

(** ** Data model *)

Set Warnings "-register-all".

Section DataModel.
Context {RT : Runtime}.

(** A JSON value as [request.get_json()] yields it.  JSON [null] is Python's
    [None]; a JSON object is a [dict], kept as the list of its entries. *)
Inductive json :=
| JNull
| JBool (b : bool)
| JInt (z : Z)
| JReal (x : number)
| JStr (s : string)
| JArr (l : list json)
| JObj (l : list (string * json)).

Definition dict := list (string * json).

(** Modelled from the spec: [app/models.py] is not part of the sources.  The
    records below carry the attributes the spec's data model lists and the
    handlers read or write. *)
Record User := {
  user_id : Z;
  email : string;
  username : string;
  password_hash : string;
  profile_image : json
}.

Record Product := {
  product_id : Z;
  title : string;
  description : string;
  category : string;
  price : number;
  seller_id : Z;
  image_filenames_list : list string;
  created_at : Z
}.

Record CartItem := {
  ci_user_id : Z;
  ci_product_id : Z;
  quantity : Z
}.

Record Purchase := {
  purchase_id : Z;
  pu_user_id : Z;
  total_amount : number;
  purchase_date : Z
}.

Record PurchaseItem := {
  pi_purchase_id : Z;
  pi_product_id : Z;
  pi_quantity : Z;
  price_at_purchase : number;
  product_title : string;
  product_image_filename : option string
}.

(** Modelled from the spec: the relational store.  Tables are lists of rows
    in insertion order; [wishlist_items] is the association table behind
    [User.wishlist].  Primary keys of users, products and purchases come from
    per-table counters and are not handed out twice. *)
Record State := {
  users : list User;
  products : list Product;
  cart_items : list CartItem;
  purchases : list Purchase;
  purchase_items : list PurchaseItem;
  wishlist_items : list (Z * Z);
  next_user_id : Z;
  next_product_id : Z;
  next_purchase_id : Z
}.

Definition empty_state : State := {|
  users := []; products := []; cart_items := []; purchases := [];
  purchase_items := []; wishlist_items := [];
  next_user_id := 1; next_product_id := 1; next_purchase_id := 1
|}.

(** What [create_access_token] and [create_refresh_token] are asked for. *)
Record Token := {
  tok_identity : string;
  tok_refresh : bool;
  tok_expires_seconds : Z
}.

(** Modelled from the spec: [Purchase.to_dict] serializes a purchase with
    its item snapshots. *)
Definition PurchaseDetail : Type := Purchase * list PurchaseItem.

Record Page := {
  pg_products : list Product;
  total_products : Z;
  current_page : Z;
  total_pages : Z;
  has_next : bool;
  has_prev : bool
}.

(** Response bodies.  Rows stand for their [to_dict()] serialization. *)
Inductive payload :=
| PMsg (msg : string)
| PAuth (access_token refresh_token : Token) (user : User)
| PAccess (access_token : Token)
| PUser (user : User)
| PCart (cart : list CartItem)
| PCartChange (msg : string) (item : option CartItem) (cart : list CartItem)
| PCartRemoved (msg : string) (cart : list CartItem)
| PCheckout (msg : string) (purchaseId : Z) (purchaseDetails : PurchaseDetail)
| PProduct (product : Product)
| PProducts (listing : list Product)
| PPage (page : Page)
| PPurchases (history : list PurchaseDetail)
| PWishlistChange (msg : string) (productId : Z)
| PUnhandled (e : pyexc).

Record Response := {
  status : Z;
  body : payload
}.

(** The error taxonomy of the API, by status code. *)
Inductive ErrorKind :=
| Validation | Unauthorized | Forbidden | NotFound | Conflict
| UnsupportedMedia | Internal.

Definition error_kind (code : Z) : option ErrorKind :=
  if code =? 400 then Some Validation
  else if code =? 401 then Some Unauthorized
  else if code =? 403 then Some Forbidden
  else if code =? 404 then Some NotFound
  else if code =? 409 then Some Conflict
  else if code =? 415 then Some UnsupportedMedia
  else if code =? 500 then Some Internal
  else None.

Definition fails_with (k : ErrorKind) (r : Response) : Prop :=
  error_kind (status r) = Some k.

Definition succeeds (r : Response) : Prop :=
  error_kind (status r) = None.

(** What every request brings besides its arguments: the identity the
    [jwt_required] decorator extracted from the bearer token ([None] when it
    rejects the token), whether the storage engine accepts the commit or flush
    of this request, and the clock. *)
Record Env := {
  jwt_identity : option string;
  commit_ok : bool;
  now : Z
}.

End DataModel.

(** ** Python values and table queries *)

Section Queries.
Context {RT : Runtime}.

(** [key in data] and [data[key]] *)
Fixpoint dict_lookup (key : string) (d : dict) : option json :=
  match d with
  | [] => None
  | (k, v) :: d' => if String.eqb k key then Some v else dict_lookup key d'
  end.

(** [data.get(key, default)] *)
Definition dict_get_default (key : string) (default : json) (d : dict) : json :=
  match dict_lookup key d with
  | Some v => v
  | None => default
  end.

(** [data.get(key)] *)
Definition dict_get (key : string) (d : dict) : json :=
  dict_get_default key JNull d.

(** The truth value of a Python object, as [not x] and [if x] test it. *)
Definition truthy (v : json) : bool :=
  match v with
  | JNull => false
  | JBool b => b
  | JInt z => negb (z =? 0)
  | JReal x => num_truthy x
  | JStr s => negb (String.eqb s "")
  | JArr l => match l with [] => false | _ :: _ => true end
  | JObj l => match l with [] => false | _ :: _ => true end
  end.

(** [not data] for the parsed request body of the cart and profile
    handlers, which are stated for a body that is a JSON object, or absent. *)
Definition body_missing (data : option dict) : bool :=
  match data with
  | None => true
  | Some [] => true
  | Some (_ :: _) => false
  end.

Definition body_dict (data : option dict) : dict :=
  match data with
  | Some d => d
  | None => []
  end.

(** [int(v)] *)
Definition py_int (v : json) : Z + pyexc :=
  match v with
  | JNull => inr TypeError
  | JBool b => inl (Z.b2z b)
  | JInt z => inl z
  | JReal x => int_of_num x
  | JStr s => match int_of_str s with Some z => inl z | None => inr ValueError end
  | JArr _ => inr TypeError
  | JObj _ => inr TypeError
  end.

(** [len(s)] *)
Definition py_len (s : string) : Z := Z.of_nat (String.length s).

(** The first row a predicate holds of, rewritten or removed in place. *)
Fixpoint update_first {A} (p : A -> bool) (f : A -> A) (l : list A) : list A :=
  match l with
  | [] => []
  | x :: l' => if p x then f x :: l' else x :: update_first p f l'
  end.

Fixpoint remove_first {A} (p : A -> bool) (l : list A) : list A :=
  match l with
  | [] => []
  | x :: l' => if p x then l' else x :: remove_first p l'
  end.

(** [User.query.get(uid)] *)
Definition get_user (s : State) (uid : Z) : option User :=
  find (fun u => user_id u =? uid) (users s).

(** [Product.query.get(pid)] *)
Definition get_product (s : State) (pid : Z) : option Product :=
  find (fun p => product_id p =? pid) (products s).

Definition cart_row_of (uid pid : Z) (c : CartItem) : bool :=
  (ci_user_id c =? uid) && (ci_product_id c =? pid).

(** [CartItem.query.filter_by(user_id=uid).all()] *)
Definition cart_of (s : State) (uid : Z) : list CartItem :=
  filter (fun c => ci_user_id c =? uid) (cart_items s).

(** [CartItem.query.filter_by(user_id=uid, product_id=pid).first()] *)
Definition cart_row (s : State) (uid pid : Z) : option CartItem :=
  find (cart_row_of uid pid) (cart_items s).

Definition wishlist_row_of (uid pid : Z) (w : Z * Z) : bool :=
  (fst w =? uid) && (snd w =? pid).

(** [product in user.wishlist], for a product of the catalog *)
Definition in_wishlist (s : State) (uid pid : Z) : bool :=
  existsb (wishlist_row_of uid pid) (wishlist_items s).

(** [user.wishlist]: the products the user's association rows lead to *)
Definition wishlist_of (s : State) (uid : Z) : list Product :=
  flat_map
    (fun w =>
       if fst w =? uid then
         match get_product s (snd w) with
         | Some p => [p]
         | None => []
         end
       else [])
    (wishlist_items s).

(** Writing one table of the store. *)
Definition with_users (s : State) (us : list User) (next : Z) : State := {|
  users := us; products := products s; cart_items := cart_items s;
  purchases := purchases s; purchase_items := purchase_items s;
  wishlist_items := wishlist_items s; next_user_id := next;
  next_product_id := next_product_id s; next_purchase_id := next_purchase_id s
|}.

Definition with_products (s : State) (ps : list Product) (next : Z) : State := {|
  users := users s; products := ps; cart_items := cart_items s;
  purchases := purchases s; purchase_items := purchase_items s;
  wishlist_items := wishlist_items s; next_user_id := next_user_id s;
  next_product_id := next; next_purchase_id := next_purchase_id s
|}.

Definition with_cart_items (s : State) (cs : list CartItem) : State := {|
  users := users s; products := products s; cart_items := cs;
  purchases := purchases s; purchase_items := purchase_items s;
  wishlist_items := wishlist_items s; next_user_id := next_user_id s;
  next_product_id := next_product_id s; next_purchase_id := next_purchase_id s
|}.

Definition with_wishlist_items (s : State) (ws : list (Z * Z)) : State := {|
  users := users s; products := products s; cart_items := cart_items s;
  purchases := purchases s; purchase_items := purchase_items s;
  wishlist_items := ws; next_user_id := next_user_id s;
  next_product_id := next_product_id s; next_purchase_id := next_purchase_id s
|}.

(** The writes of a checkout: a purchase, its items, and the cart rows left. *)
Definition with_purchase (s : State) (p : Purchase) (items : list PurchaseItem)
    (cs : list CartItem) : State := {|
  users := users s; products := products s; cart_items := cs;
  purchases := purchases s ++ [p]; purchase_items := purchase_items s ++ items;
  wishlist_items := wishlist_items s; next_user_id := next_user_id s;
  next_product_id := next_product_id s;
  next_purchase_id := purchase_id p + 1
|}.

Definition respond (code : Z) (b : payload) : Response :=
  {| status := code; body := b |}.

Definition message (code : Z) (m : string) : Response :=
  respond code (PMsg m).

(** An exception no handler catches: Flask answers 500 and the session is
    dropped with nothing committed. *)
Definition unhandled (e : pyexc) : Response :=
  respond 500 (PUnhandled e).

(** [@jwt_required()] followed by [int(get_jwt_identity())].  The decorator
    answers 401 by itself when the token is missing, invalid or expired. *)
Definition current_user_id (e : Env) : Response + Z :=
  match jwt_identity e with
  | None => inl (message 401 "Missing or invalid token")
  | Some current_user_id_str =>
      match int_of_str current_user_id_str with
      | None => inl (message 401 "Invalid user identity in token")
      | Some current_user_id_int => inr current_user_id_int
      end
  end.

End Queries.

(** ** cart_routes.py *)

Section CartRoutes.
Context {RT : Runtime}.

(** [GET /cart] *)
Definition get_cart_items (e : Env) (s : State) : State * Response :=
  match current_user_id e with
  | inl r => (s, r)
  | inr uid =>
      match get_user s uid with
      | None => (s, message 404 "Authenticated user not found")
      | Some _ => (s, respond 200 (PCart (cart_of s uid)))
      end
  end.

Definition add_quantity (n : Z) (c : CartItem) : CartItem :=
  {| ci_user_id := ci_user_id c; ci_product_id := ci_product_id c;
     quantity := quantity c + n |}.

Definition set_quantity (n : Z) (c : CartItem) : CartItem :=
  {| ci_user_id := ci_user_id c; ci_product_id := ci_product_id c;
     quantity := n |}.

(** The tail of [add_to_cart], once [productId] and [quantity] are integers
    and the quantity is at least 1. *)
Definition add_to_cart_row (e : Env) (uid pid qty : Z) (s : State)
    : State * Response :=
  match get_product s pid with
  | None => (s, message 404 "Product not found")
  | Some product =>
      if seller_id product =? uid then
        (s, message 403 "You cannot add your own product to the cart")
      else
        let '(rows, cart_item) :=
          match cart_row s uid pid with
          | Some found =>
              (update_first (cart_row_of uid pid) (add_quantity qty) (cart_items s),
               add_quantity qty found)
          | None =>
              let fresh :=
                {| ci_user_id := uid; ci_product_id := pid; quantity := qty |} in
              (cart_items s ++ [fresh], fresh)
          end in
        if commit_ok e then
          let s' := with_cart_items s rows in
          (s', respond (if quantity cart_item >? qty then 200 else 201)
                 (PCartChange "Item added/updated in cart" (Some cart_item)
                    (cart_of s' uid)))
        else
          (s, message 500 "Failed to add item to cart due to a server error")
  end.

(** [POST /cart] *)
Definition add_to_cart (e : Env) (data : option dict) (s : State)
    : State * Response :=
  match current_user_id e with
  | inl r => (s, r)
  | inr uid =>
      match get_user s uid with
      | None => (s, message 404 "Authenticated user not found")
      | Some _ =>
          if body_missing data then
            (s, message 400 "Request body is missing or not JSON")
          else
            let product_id := dict_get "productId" (body_dict data) in
            let quantity_req :=
              dict_get_default "quantity" (JInt 1) (body_dict data) in
            match product_id with
            | JNull => (s, message 400 "productId is required")
            | _ =>
                match py_int product_id with
                | inr OverflowError => (s, unhandled OverflowError)
                | inr _ =>
                    (s, message 400
                          "Invalid productId or quantity format. Must be integers.")
                | inl pid =>
                    match py_int quantity_req with
                    | inr OverflowError => (s, unhandled OverflowError)
                    | inr _ =>
                        (s, message 400
                              "Invalid productId or quantity format. Must be integers.")
                    | inl qty =>
                        if qty <? 1 then
                          (s, message 400 "Quantity must be at least 1")
                        else add_to_cart_row e uid pid qty s
                    end
                end
            end
      end
  end.

(** [PUT /cart/item/<product_id_in_cart>] *)
Definition update_cart_item_quantity (e : Env) (product_id_in_cart : Z)
    (data : option dict) (s : State) : State * Response :=
  match current_user_id e with
  | inl r => (s, r)
  | inr uid =>
      match get_user s uid with
      | None => (s, message 404 "Authenticated user not found")
      | Some _ =>
          if body_missing data then
            (s, message 400 "Quantity is required in request body")
          else
            match dict_lookup "quantity" (body_dict data) with
            | None => (s, message 400 "Quantity is required in request body")
            | Some quantity_req =>
                match py_int quantity_req with
                | inr OverflowError => (s, unhandled OverflowError)
                | inr _ =>
                    (s, message 400 "Invalid quantity format. Must be an integer.")
                | inl qty =>
                    match cart_row s uid product_id_in_cart with
                    | None => (s, message 404 "Product not found in cart")
                    | Some found =>
                        let rows :=
                          if qty <? 1 then
                            remove_first (cart_row_of uid product_id_in_cart)
                              (cart_items s)
                          else
                            update_first (cart_row_of uid product_id_in_cart)
                              (set_quantity qty) (cart_items s) in
                        let msg :=
                          if qty <? 1 then
                            "Item removed from cart as quantity was less than 1."
                          else "Cart item quantity updated." in
                        if commit_ok e then
                          let s' := with_cart_items s rows in
                          (s', respond 200
                                 (PCartChange msg
                                    (if qty >=? 1 then Some (set_quantity qty found)
                                     else None)
                                    (cart_of s' uid)))
                        else
                          (s, message 500
                                "Failed to update cart item due to a server error")
                    end
                end
            end
      end
  end.

(** [DELETE /cart/item/<product_id_in_cart>] *)
Definition remove_from_cart (e : Env) (product_id_in_cart : Z) (s : State)
    : State * Response :=
  match current_user_id e with
  | inl r => (s, r)
  | inr uid =>
      match get_user s uid with
      | None => (s, message 404 "Authenticated user not found")
      | Some _ =>
          match cart_row s uid product_id_in_cart with
          | None => (s, message 404 "Product not found in cart")
          | Some _ =>
              if commit_ok e then
                let s' :=
                  with_cart_items s
                    (remove_first (cart_row_of uid product_id_in_cart)
                       (cart_items s)) in
                (s', respond 200
                       (PCartRemoved "Product removed from cart" (cart_of s' uid)))
              else
                (s, message 500
                      "Failed to remove item from cart due to a server error")
          end
      end
  end.

(** One entry of [purchase_items_data_for_db]. *)
Definition snapshot (purchase : Z) (item : CartItem) (product : Product)
    : PurchaseItem := {|
  pi_purchase_id := purchase;
  pi_product_id := product_id product;
  pi_quantity := quantity item;
  price_at_purchase := price product;
  product_title := title product;
  product_image_filename := hd_error (image_filenames_list product)
|}.

(** The loop of [checkout] over the cart rows: it stops at the first row
    whose product is gone and gives that row's product id; otherwise it gives
    the running total and the collected snapshots.  The purchase id is
    filled in when the rows are written. *)
Fixpoint checkout_rows (s : State) (purchase : Z) (items : list CartItem)
    (total_amount : number) (collected : list PurchaseItem)
    : Z + number * list PurchaseItem :=
  match items with
  | [] => inr (total_amount, collected)
  | item :: rest =>
      match get_product s (ci_product_id item) with
      | None => inl (ci_product_id item)
      | Some product =>
          let item_total := num_mul (price product) (num_of_int (quantity item)) in
          checkout_rows s purchase rest (num_add total_amount item_total)
            (collected ++ [snapshot purchase item product])
      end
  end.

(** [POST /cart/checkout] *)
Definition checkout (e : Env) (s : State) : State * Response :=
  match current_user_id e with
  | inl r => (s, r)
  | inr uid =>
      match get_user s uid with
      | None => (s, message 404 "Authenticated user not found")
      | Some _ =>
          let cart_items_to_checkout := cart_of s uid in
          match cart_items_to_checkout with
          | [] => (s, message 400 "Cart is empty. Nothing to checkout.")
          | _ :: _ =>
              match checkout_rows s (next_purchase_id s) cart_items_to_checkout
                      (num_of_int 0) [] with
              | inl missing =>
                  (s, message 500
                        (String.append "Critical error: Product with ID "
                           (String.append (str_of_int missing)
                              " in cart not found. Checkout aborted.")))
              | inr (total_amount, purchase_items_data_for_db) =>
                  let new_purchase :=
                    {| purchase_id := next_purchase_id s;
                       pu_user_id := uid;
                       total_amount := num_round2 total_amount;
                       purchase_date := now e |} in
                  if commit_ok e then
                    let s' :=
                      with_purchase s new_purchase purchase_items_data_for_db
                        (filter (fun c => negb (ci_user_id c =? uid))
                           (cart_items s)) in
                    (s', respond 200
                           (PCheckout "Checkout successful!"
                              (purchase_id new_purchase)
                              (new_purchase, purchase_items_data_for_db)))
                  else
                    (s, message 500 "Checkout failed due to a server error")
              end
          end
      end
  end.

End CartRoutes.

(** ** auth_routes.py *)

Section AuthRoutes.
Context {RT : Runtime}.

Definition email_taken (s : State) (e : string) : bool :=
  existsb (fun u => String.eqb (email u) e) (users s).

Definition username_taken (s : State) (n : string) : bool :=
  existsb (fun u => String.eqb (username u) n) (users s).

Definition access_token_for (identity : string) : Token :=
  {| tok_identity := identity; tok_refresh := false;
     tok_expires_seconds := 3600 |}.

Definition refresh_token_for (identity : string) : Token :=
  {| tok_identity := identity; tok_refresh := true;
     tok_expires_seconds := 30 * 86400 |}.

(** [not data] for what [request.get_json()] returned: a JSON value of any
    kind, or [None]. *)
Definition json_missing (data : option json) : bool :=
  match data with
  | None => true
  | Some v => negb (truthy v)
  end.

(** [POST /register].  The body is read with [data.get], outside any [try]:
    on a body that is a non-empty list or text, a number other than 0 or
    [true], [data.get] raises [AttributeError]. *)
Definition register (e : Env) (data : option json) (s : State)
    : State * Response :=
  if json_missing data then
    (s, message 400 "Request body is missing or not JSON")
  else
    match data with
    | Some (JObj d) =>
        let email_v := dict_get "email" d in
        let username_v := dict_get "username" d in
        let password_v := dict_get "password" d in
        let profile_image_url := dict_get "profileImage" d in
        if negb (truthy email_v) || negb (truthy username_v)
           || negb (truthy password_v) then
          (s, message 400 "Email, username, and password are required")
        else
          match email_v, username_v, password_v with
          | JStr em, JStr un, JStr pw =>
              if py_len pw <? 6 then
                (s, message 400 "Password must be at least 6 characters long")
              else if email_taken s em then
                (s, message 409 "Email already exists")
              else if username_taken s un then
                (s, message 409 "Username already exists")
              else
                let new_user :=
                  {| user_id := next_user_id s; email := em; username := un;
                     password_hash := password_hash_of pw;
                     profile_image := profile_image_url |} in
                if commit_ok e then
                  let user_identity := str_of_int (user_id new_user) in
                  (with_users s (users s ++ [new_user]) (next_user_id s + 1),
                   respond 201
                     (PAuth (access_token_for user_identity)
                        (refresh_token_for user_identity) new_user))
                else
                  (s, message 500 "Registration failed due to a server error")
          | _, _, _ =>
              (s, message 400
                    "Invalid data types for email, username, or password")
          end
    | _ => (s, unhandled AttributeError)
    end.

(** [GET /me] *)
Definition get_me (e : Env) (s : State) : State * Response :=
  match current_user_id e with
  | inl r => (s, r)
  | inr uid =>
      match get_user s uid with
      | None => (s, message 404 "User not found for token identity")
      | Some user => (s, respond 200 (PUser user))
      end
  end.

(** The [username] block of [update_profile]: the name to store, or the
    response of the early return. *)
Definition requested_username (s : State) (user : User) (d : dict)
    : Response + string :=
  match dict_lookup "username" d with
  | None => inr (username user)
  | Some (JStr new_username) =>
      if String.eqb (PyStr.strip new_username) "" then
        inl (message 400 "Username cannot be empty")
      else if negb (String.eqb new_username (username user))
              && username_taken s new_username then
        inl (message 409 "Username already taken")
      else inr (PyStr.strip new_username)
  | Some _ => inl (message 400 "Username cannot be empty")
  end.

(** The [profileImage] block of [update_profile]. *)
Definition requested_profile_image (user : User) (d : dict)
    : Response + json :=
  match dict_lookup "profileImage" d with
  | None => inr (profile_image user)
  | Some JNull => inr JNull
  | Some (JStr url) => inr (JStr url)
  | Some _ => inl (message 400 "Invalid profile image URL format")
  end.

Definition set_profile (name : string) (image : json) (u : User) : User :=
  {| user_id := user_id u; email := email u; username := name;
     password_hash := password_hash u; profile_image := image |}.

(** [PUT /profile] *)
Definition update_profile (e : Env) (data : option dict) (s : State)
    : State * Response :=
  match current_user_id e with
  | inl r => (s, r)
  | inr uid =>
      match get_user s uid with
      | None => (s, message 404 "User not found")
      | Some user =>
          if body_missing data then
            (s, message 400 "Request body is missing or not JSON")
          else
            match requested_username s user (body_dict data) with
            | inl r => (s, r)
            | inr name =>
                match requested_profile_image user (body_dict data) with
                | inl r => (s, r)
                | inr image =>
                    if commit_ok e then
                      (with_users s
                         (update_first (fun u => user_id u =? uid)
                            (set_profile name image) (users s))
                         (next_user_id s),
                       respond 200 (PUser (set_profile name image user)))
                    else
                      (s, message 500
                            "Profile update failed due to a server error")
                end
            end
      end
  end.

End AuthRoutes.

(** ** product_routes.py *)

Section ProductRoutes.
Context {RT : Runtime}.

(** A multipart request of the product endpoints.  [saved_filenames] is what
    [save_files_from_request] returned for the uploaded [images] (empty when
    none came); [kept_filenames] is [final_filenames_to_keep], the filenames
    the handler reads out of the [existingImages] form field.  Both concern
    the upload folder and touch the store only through the product's image
    list. *)
Record Multipart := {
  content_type : option string;
  form : list (string * string);
  kept_filenames : list string;
  saved_filenames : list string
}.

(** [request.form.get(key)] *)
Fixpoint form_get (key : string) (f : list (string * string)) : option string :=
  match f with
  | [] => None
  | (k, v) :: f' => if String.eqb k key then Some v else form_get key f'
  end.

(** [value is None or str(value).strip() == ""] *)
Definition field_missing (v : option string) : bool :=
  match v with
  | None => true
  | Some x => String.eqb (PyStr.strip x) ""
  end.

Definition missing_fields (required_fields : list (string * option string))
    : list string :=
  map fst (filter (fun kv => field_missing (snd kv)) required_fields).

Definition field_text (v : option string) : string :=
  match v with
  | Some x => x
  | None => ""
  end.

(** [POST /products] *)
Definition create_product (e : Env) (req : Multipart) (s : State)
    : State * Response :=
  match current_user_id e with
  | inl r => (s, r)
  | inr uid =>
      match get_user s uid with
      | None => (s, message 404 "Authenticated user not found")
      | Some _ =>
          match content_type req with
          | None => (s, unhandled TypeError)
          | Some ct =>
              if negb (PyStr.contains "multipart/form-data" ct) then
                (s, message 415 "Content-Type must be multipart/form-data")
              else
                let title_v := form_get "title" (form req) in
                let description_v := form_get "description" (form req) in
                let category_v := form_get "category" (form req) in
                let price_str := form_get "price" (form req) in
                match missing_fields
                        [("title", title_v); ("description", description_v);
                         ("category", category_v); ("price", price_str)] with
                | _ :: _ as missing =>
                  (s, message 400
                        (String.append "Missing required product fields: "
                           (String.concat ", " missing)))
                | [] =>
                  match float_of_str (field_text price_str) with
                  | None =>
                      (s, message 400
                            "Invalid price format. Price must be a number.")
                  | Some price_v =>
                      if num_le0 price_v then
                        (s, message 400 "Price must be a positive number")
                      else
                        let new_product :=
                          {| product_id := next_product_id s;
                             title := PyStr.strip (field_text title_v);
                             description := PyStr.strip (field_text description_v);
                             category := PyStr.strip (field_text category_v);
                             price := price_v;
                             seller_id := uid;
                             image_filenames_list := saved_filenames req;
                             created_at := now e |} in
                        if commit_ok e then
                          (with_products s (products s ++ [new_product])
                             (next_product_id s + 1),
                           respond 201 (PProduct new_product))
                        else
                          (s, message 500
                                "Failed to create product due to a server error")
                  end
                end
          end
      end
  end.

(** [if key in request.form: field = request.form.get(key, field).strip()] *)
Definition form_text (key : string) (f : list (string * string))
    (current : string) : string :=
  match form_get key f with
  | Some v => PyStr.strip v
  | None => current
  end.

(** The [price] block of [update_product]. *)
Definition requested_price (f : list (string * string)) (current : number)
    : Response + number :=
  match form_get "price" f with
  | None => inr current
  | Some v =>
      match float_of_str v with
      | None => inl (message 400 "Invalid price format")
      | Some price_v =>
          if num_le0 price_v then inl (message 400 "Price must be a positive number")
          else inr price_v
      end
  end.

(** [PUT /products/<product_id>] *)
Definition update_product (e : Env) (pid : Z) (req : Multipart) (s : State)
    : State * Response :=
  match current_user_id e with
  | inl r => (s, r)
  | inr uid =>
      match get_product s pid with
      | None => (s, message 404 "Product not found")
      | Some product =>
          if negb (seller_id product =? uid) then
            (s, message 403 "Not authorized to update this product")
          else
            match content_type req with
            | None => (s, unhandled TypeError)
            | Some ct =>
                if negb (PyStr.contains "multipart/form-data" ct) then
                  (s, message 415
                        "Content-Type must be multipart/form-data for product updates")
                else
                  match requested_price (form req) (price product) with
                  | inl r => (s, r)
                  | inr price_v =>
                      let updated :=
                        {| product_id := product_id product;
                           title := form_text "title" (form req) (title product);
                           description :=
                             form_text "description" (form req) (description product);
                           category :=
                             form_text "category" (form req) (category product);
                           price := price_v;
                           seller_id := seller_id product;
                           image_filenames_list :=
                             kept_filenames req ++ saved_filenames req;
                           created_at := created_at product |} in
                      if commit_ok e then
                        (with_products s
                           (update_first (fun p => product_id p =? pid)
                              (fun _ => updated) (products s))
                           (next_product_id s),
                         respond 200 (PProduct updated))
                      else
                        (s, message 500
                              "Failed to update product due to a server error")
                  end
            end
      end
  end.

(** [ORDER BY key DESC], keeping the table order among equal keys. *)
Fixpoint insert_desc {A} (key : A -> Z) (x : A) (l : list A) : list A :=
  match l with
  | [] => [x]
  | y :: l' => if key x <? key y then y :: insert_desc key x l' else x :: l
  end.

Definition order_by_desc {A} (key : A -> Z) (l : list A) : list A :=
  fold_right (insert_desc key) [] l.

(** [x] may stand before [y] in a listing by descending key. *)
Definition newest_first {A} (key : A -> Z) (x y : A) : Prop := key y <= key x.

(** Flask-SQLAlchemy's [query.paginate(page, per_page, error_out=False)]:
    a page below 1 becomes 1, a page size below 1 becomes 20. *)
Definition paginate (page per_page : Z) (rows : list Product) : Page :=
  let page := if page <? 1 then 1 else page in
  let per_page := if per_page <? 1 then 20 else per_page in
  let total := Z.of_nat (List.length rows) in
  let pages := if total =? 0 then 0 else (total + per_page - 1) / per_page in
  {| pg_products :=
       firstn (Z.to_nat per_page) (skipn (Z.to_nat ((page - 1) * per_page)) rows);
     total_products := total;
     current_page := page;
     total_pages := pages;
     has_next := page <? pages;
     has_prev := page >? 1 |}.

(** The query string of [GET /products]. *)
Record ListArgs := {
  arg_category : option string;
  arg_q : option string;
  arg_page : option string;
  arg_per_page : option string
}.

(** [request.args.get(key, default, type=int)] *)
Definition int_arg (v : option string) (default : Z) : Z :=
  match v with
  | None => default
  | Some x => match int_of_str x with Some n => n | None => default end
  end.

Definition category_matches (category_filter : option string) (p : Product)
    : bool :=
  match category_filter with
  | None => true
  | Some c =>
      if negb (String.eqb c "") && negb (String.eqb (PyStr.lower c) "all")
      then PyStr.ilike (category p) c
      else true
  end.

Definition search_matches (search_query : option string) (p : Product) : bool :=
  match search_query with
  | None => true
  | Some q =>
      if negb (String.eqb q "") then
        let search_term :=
          String.append "%" (String.append (PyStr.lower q) "%") in
        PyStr.ilike (title p) search_term || PyStr.ilike (description p) search_term
      else true
  end.

(** The rows [get_products] selects, before ordering and paging. *)
Definition matching_products (a : ListArgs) (s : State) : list Product :=
  filter (search_matches (arg_q a))
    (filter (category_matches (arg_category a)) (products s)).

(** [GET /products] *)
Definition get_products (a : ListArgs) (s : State) : State * Response :=
  let page := int_arg (arg_page a) 1 in
  let per_page := int_arg (arg_per_page a) 8 in
  (s, respond 200
        (PPage (paginate page per_page
                  (order_by_desc created_at (matching_products a s))))).

(** [GET /products/<product_id>] *)
Definition get_product_detail_route (pid : Z) (s : State) : State * Response :=
  match get_product s pid with
  | None => (s, message 404 "Product not found")
  | Some product => (s, respond 200 (PProduct product))
  end.

(** [DELETE /products/<product_id>].  The rows of other tables that name the
    product are left as they are. *)
Definition delete_product (e : Env) (pid : Z) (s : State) : State * Response :=
  match current_user_id e with
  | inl r => (s, r)
  | inr uid =>
      match get_product s pid with
      | None => (s, message 404 "Product not found")
      | Some product =>
          if negb (seller_id product =? uid) then
            (s, message 403 "Not authorized to delete this product")
          else if commit_ok e then
            (with_products s
               (filter (fun p => negb (product_id p =? pid)) (products s))
               (next_product_id s),
             message 200 "Product deleted successfully")
          else
            (s, message 500 "Failed to delete product due to a server error")
      end
  end.

(** [GET /my-listings] *)
Definition get_my_listings (e : Env) (s : State) : State * Response :=
  match current_user_id e with
  | inl r => (s, r)
  | inr uid =>
      (s, respond 200
            (PProducts
               (order_by_desc created_at
                  (filter (fun p => seller_id p =? uid) (products s)))))
  end.

End ProductRoutes.

(** ** purchase_routes.py *)

Section PurchaseRoutes.
Context {RT : Runtime}.

(** Modelled from the spec: a purchase with its own item snapshots. *)
Definition purchase_detail (s : State) (p : Purchase) : PurchaseDetail :=
  (p, filter (fun i => pi_purchase_id i =? purchase_id p) (purchase_items s)).

(** [GET /purchases] *)
Definition get_purchase_history (e : Env) (s : State) : State * Response :=
  match current_user_id e with
  | inl r => (s, r)
  | inr uid =>
      match get_user s uid with
      | None => (s, message 404 "Authenticated user not found")
      | Some _ =>
          let purchases_query :=
            order_by_desc purchase_date
              (filter (fun p => pu_user_id p =? uid) (purchases s)) in
          (s, respond 200 (PPurchases (map (purchase_detail s) purchases_query)))
      end
  end.

End PurchaseRoutes.

(** ** wishlist_routes.py *)

Section WishlistRoutes.
Context {RT : Runtime}.

(** [GET /wishlist] *)
Definition get_wishlist (e : Env) (s : State) : State * Response :=
  match current_user_id e with
  | inl r => (s, r)
  | inr uid =>
      match get_user s uid with
      | None => (s, message 404 "User not found")
      | Some _ => (s, respond 200 (PProducts (wishlist_of s uid)))
      end
  end.

(** [POST /wishlist/<product_id>] *)
Definition add_to_wishlist (e : Env) (pid : Z) (s : State) : State * Response :=
  match current_user_id e with
  | inl r => (s, r)
  | inr uid =>
      match get_user s uid with
      | None => (s, message 404 "User not found")
      | Some _ =>
          match get_product s pid with
          | None => (s, message 404 "Product not found")
          | Some product =>
              if in_wishlist s uid pid then
                (s, message 409 "Product already in wishlist")
              else if seller_id product =? uid then
                (s, message 403
                      "You cannot add your own product to your wishlist")
              else if commit_ok e then
                (with_wishlist_items s (wishlist_items s ++ [(uid, pid)]),
                 respond 201
                   (PWishlistChange "Product added to wishlist"
                      (product_id product)))
              else
                (s, message 500
                      "Could not add product to wishlist due to a server error")
          end
      end
  end.

(** [DELETE /wishlist/<product_id>] *)
Definition remove_from_wishlist (e : Env) (pid : Z) (s : State)
    : State * Response :=
  match current_user_id e with
  | inl r => (s, r)
  | inr uid =>
      match get_user s uid with
      | None => (s, message 404 "User not found")
      | Some _ =>
          match get_product s pid with
          | None =>
              (s, message 404 "Product not found, so it cannot be in wishlist")
          | Some product =>
              if negb (in_wishlist s uid pid) then
                (s, message 404 "Product not in wishlist")
              else if commit_ok e then
                (with_wishlist_items s
                   (remove_first (wishlist_row_of uid pid) (wishlist_items s)),
                 respond 200
                   (PWishlistChange "Product removed from wishlist"
                      (product_id product)))
              else
                (s, message 500
                      "Could not remove product from wishlist due to a server error")
          end
      end
  end.

End WishlistRoutes.

(** ** The API as a whole *)

Section Api.
Context {RT : Runtime}.

(** The requests that read or write the store.  ([login], [refresh] and
    [logout] only issue tokens.) *)
Inductive Request :=
| Register (data : option json)
| GetMe
| UpdateProfile (data : option dict)
| CreateProduct (req : Multipart)
| UpdateProduct (pid : Z) (req : Multipart)
| GetProducts (args : ListArgs)
| GetProductDetail (pid : Z)
| DeleteProduct (pid : Z)
| GetMyListings
| GetCart
| AddToCart (data : option dict)
| UpdateCartItem (pid : Z) (data : option dict)
| RemoveFromCart (pid : Z)
| Checkout
| GetPurchases
| GetWishlist
| AddToWishlist (pid : Z)
| RemoveFromWishlist (pid : Z).

Definition handle (e : Env) (r : Request) (s : State) : State * Response :=
  match r with
  | Register data => register e data s
  | GetMe => get_me e s
  | UpdateProfile data => update_profile e data s
  | CreateProduct req => create_product e req s
  | UpdateProduct pid req => update_product e pid req s
  | GetProducts args => get_products args s
  | GetProductDetail pid => get_product_detail_route pid s
  | DeleteProduct pid => delete_product e pid s
  | GetMyListings => get_my_listings e s
  | GetCart => get_cart_items e s
  | AddToCart data => add_to_cart e data s
  | UpdateCartItem pid data => update_cart_item_quantity e pid data s
  | RemoveFromCart pid => remove_from_cart e pid s
  | Checkout => checkout e s
  | GetPurchases => get_purchase_history e s
  | GetWishlist => get_wishlist e s
  | AddToWishlist pid => add_to_wishlist e pid s
  | RemoveFromWishlist pid => remove_from_wishlist e pid s
  end.

(** The stores the API can bring about, starting from the empty one. *)
Inductive reachable : State -> Prop :=
| reachable_empty : reachable empty_state
| reachable_step e r s : reachable s -> reachable (fst (handle e r s)).

(** The operations that act for the user of the token and look the user up
    first. *)
Definition looks_up_user (r : Request) : bool :=
  match r with
  | GetCart | AddToCart _ | UpdateCartItem _ _ | RemoveFromCart _ | Checkout
  | GetWishlist | AddToWishlist _ | RemoveFromWishlist _
  | GetPurchases | GetMe | UpdateProfile _ => true
  | _ => false
  end.

(** *** The invariants of the data model *)

(** The invariant of the data model: every stored price is above 0. *)
Definition price_positive (s : State) : Prop :=
  forall p, In p (products s) -> num_gt0 (price p) = true.

(** What the product handlers test of a price: that [price <= 0] is
    false. *)
Definition price_checked (s : State) : Prop :=
  forall p, In p (products s) -> num_le0 (price p) = false.

Definition quantity_positive (s : State) : Prop :=
  forall c, In c (cart_items s) -> 1 <= quantity c.

(** No cart row and no wishlist row of a user names a product that user
    sells. *)
Definition no_own_product (s : State) : Prop :=
  (forall c p, In c (cart_items s) ->
     get_product s (ci_product_id c) = Some p -> seller_id p <> ci_user_id c) /\
  (forall w p, In w (wishlist_items s) ->
     get_product s (snd w) = Some p -> seller_id p <> fst w).

(** The total of a cart as the spec words it: the sum over the cart rows of
    the product's price times the row's quantity. *)
Definition spec_line_total (s : State) (c : CartItem) : number :=
  match get_product s (ci_product_id c) with
  | Some p => num_mul (price p) (num_of_int (quantity c))
  | None => num_of_int 0
  end.

Definition spec_cart_total (s : State) (rows : list CartItem) : number :=
  fold_left (fun acc c => num_add acc (spec_line_total s c)) rows (num_of_int 0).

(** A purchase item is the snapshot of a cart row: it names the purchase and
    carries the id, title and price of the row's product as the catalog has
    them, and the row's quantity. *)
Definition snapshot_of (s : State) (purchase : Z) (c : CartItem)
    (i : PurchaseItem) : Prop :=
  exists p,
    get_product s (ci_product_id c) = Some p /\
    pi_purchase_id i = purchase /\
    pi_product_id i = ci_product_id c /\
    product_title i = title p /\
    pi_quantity i = quantity c /\
    price_at_purchase i = price p.

(** Product ids in use, in the catalog or in a cart or wishlist row, lie
    below the counter the next product takes its id from. *)
Definition ids_fresh (s : State) : Prop :=
  (forall p, In p (products s) -> product_id p < next_product_id s) /\
  (forall c, In c (cart_items s) -> ci_product_id c < next_product_id s) /\
  (forall w, In w (wishlist_items s) -> snd w < next_product_id s).

(** The writes a request can make to the store, each with what the handler
    has checked before making it. *)
Inductive Write (s : State) : State -> Prop :=
| write_nothing : Write s s
| write_users us next : Write s (with_users s us next)
| write_new_product p :
    num_le0 (price p) = false ->
    product_id p = next_product_id s ->
    Write s (with_products s (products s ++ [p]) (next_product_id s + 1))
| write_product pid old new :
    get_product s pid = Some old ->
    product_id new = product_id old ->
    seller_id new = seller_id old ->
    price new = price old \/ num_le0 (price new) = false ->
    Write s (with_products s
               (update_first (fun p => product_id p =? pid) (fun _ => new)
                  (products s))
               (next_product_id s))
| write_no_product pid :
    Write s (with_products s
               (filter (fun p => negb (product_id p =? pid)) (products s))
               (next_product_id s))
| write_more_quantity uid pid qty p :
    1 <= qty ->
    get_product s pid = Some p ->
    seller_id p <> uid ->
    Write s (with_cart_items s
               (update_first (cart_row_of uid pid) (add_quantity qty)
                  (cart_items s)))
| write_new_cart_row uid pid qty p :
    1 <= qty ->
    get_product s pid = Some p ->
    seller_id p <> uid ->
    Write s (with_cart_items s
               (cart_items s ++
                [{| ci_user_id := uid; ci_product_id := pid; quantity := qty |}]))
| write_quantity uid pid qty :
    1 <= qty ->
    Write s (with_cart_items s
               (update_first (cart_row_of uid pid) (set_quantity qty)
                  (cart_items s)))
| write_no_cart_row uid pid :
    Write s (with_cart_items s
               (remove_first (cart_row_of uid pid) (cart_items s)))
| write_purchase uid purchase items :
    Write s (with_purchase s purchase items
               (filter (fun c => negb (ci_user_id c =? uid)) (cart_items s)))
| write_wish uid pid p :
    get_product s pid = Some p ->
    seller_id p <> uid ->
    Write s (with_wishlist_items s (wishlist_items s ++ [(uid, pid)]))
| write_no_wish uid pid :
    Write s (with_wishlist_items s
               (remove_first (wishlist_row_of uid pid) (wishlist_items s))).

(** What the reachable stores keep, for no user to hold a product of their
    own: the property itself and the freshness of the next product id. *)
Definition holds_no_own (s : State) : Prop := no_own_product s /\ ids_fresh s.

(** Emails and usernames are unique across the users. *)
Definition users_unique (s : State) : Prop :=
  NoDup (map email (users s)) /\ NoDup (map username (users s)).

(** A required text field of a JSON body is there and of the right type
    when it is a non-empty string. *)
Definition nonempty_text (v : json) : bool :=
  match v with
  | JStr x => negb (String.eqb x "")
  | _ => false
  end.

(** At most one cart row per user and product. *)
Definition cart_key (c : CartItem) : Z * Z := (ci_user_id c, ci_product_id c).

Definition cart_unique (s : State) : Prop :=
  NoDup (map cart_key (cart_items s)).

End Api.

(** ** A sample store *)

Module Sample.

(** An amount in hundredths, as the demo runtime counts. *)
Definition hundredths (z : Z) : @number Demo.runtime := z.

Definition env_of (ident : string) : @Env := 
  {| jwt_identity := Some ident; commit_ok := true; now := 1700000000 |}.

Definition alice_env : Env := env_of "1".
Definition bob_env : Env := env_of "2".

Definition alice : @User Demo.runtime := {|
  user_id := 1; email := "alice@example.org"; username := "alice";
  password_hash := "hash:wonderland"; profile_image := JNull
|}.

Definition bob : @User Demo.runtime := {|
  user_id := 2; email := "bob@example.org"; username := "bob";
  password_hash := "hash:builder"; profile_image := JNull
|}.

Definition productA : @Product Demo.runtime := {|
  product_id := 1; title := "Lamp"; description := "Desk lamp";
  category := "Home"; price := hundredths 1000; seller_id := 1;
  image_filenames_list := ["a.png"]; created_at := 1690000000
|}.

Definition productB : @Product Demo.runtime := {|
  product_id := 2; title := "Mug"; description := "Blue mug";
  category := "Kitchen"; price := hundredths 550; seller_id := 1;
  image_filenames_list := []; created_at := 1690000100
|}.

(** Only alice is registered. *)
Definition one_user : @State Demo.runtime := {|
  users := [alice]; products := []; cart_items := []; purchases := [];
  purchase_items := []; wishlist_items := [];
  next_user_id := 2; next_product_id := 1; next_purchase_id := 1
|}.

(** Alice sells two products; bob holds two of the first and one of the
    second in his cart. *)
Definition shop : @State Demo.runtime := {|
  users := [alice; bob];
  products := [productA; productB];
  cart_items :=
    [ {| ci_user_id := 2; ci_product_id := 1; quantity := 2 |};
      {| ci_user_id := 2; ci_product_id := 2; quantity := 1 |} ];
  purchases := []; purchase_items := []; wishlist_items := [];
  next_user_id := 3; next_product_id := 3; next_purchase_id := 1
|}.

(** The shop after alice deleted the first product: bob's cart row for it is
    left without a product. *)
Definition orphaned : @State Demo.runtime := {|
  users := [alice; bob];
  products := [productB];
  cart_items :=
    [ {| ci_user_id := 2; ci_product_id := 1; quantity := 2 |};
      {| ci_user_id := 2; ci_product_id := 2; quantity := 1 |} ];
  purchases := []; purchase_items := []; wishlist_items := [];
  next_user_id := 3; next_product_id := 3; next_purchase_id := 1
|}.

(** The shop with the first product in bob's wishlist. *)
Definition wishing : @State Demo.runtime := {|
  users := [alice; bob];
  products := [productA; productB];
  cart_items := []; purchases := []; purchase_items := [];
  wishlist_items := [(2, 1)];
  next_user_id := 3; next_product_id := 3; next_purchase_id := 1
|}.

(** Ten products of alice, created one after the other. *)
Definition numbered (n : nat) : @Product Demo.runtime := {|
  product_id := Z.of_nat n; title := "Chair"; description := "Oak chair";
  category := "Home"; price := hundredths 4000; seller_id := 1;
  image_filenames_list := []; created_at := 1690000000 + Z.of_nat n
|}.

Definition catalog : @State Demo.runtime := {|
  users := [alice; bob];
  products := map numbered (seq 1 10);
  cart_items := []; purchases := []; purchase_items := []; wishlist_items := [];
  next_user_id := 3; next_product_id := 11; next_purchase_id := 1
|}.

Definition second_page : ListArgs := {|
  arg_category := Some "HOME"; arg_q := Some "chair";
  arg_page := Some "2"; arg_per_page := Some "8"
|}.

Definition alice_data : option (@json Demo.runtime) :=
  Some (JObj [("email", JStr "alice@example.org"); ("username", JStr "alice");
              ("password", JStr "wonderland")]).

End Sample.

(** ** Further properties of the store *)

Section MoreInvariants.
Context {RT : Runtime}.

(** At most one wishlist row per user and product. *)
Definition wishlist_unique (s : State) : Prop := NoDup (wishlist_items s).

(** Emails, user ids and product ids are unique. *)
Definition emails_unique (s : State) : Prop := NoDup (map email (users s)).

Definition user_ids_fresh (s : State) : Prop :=
  NoDup (map user_id (users s)) /\
  forall u, In u (users s) -> user_id u < next_user_id s.

Definition product_ids_fresh (s : State) : Prop :=
  NoDup (map product_id (products s)) /\
  forall p, In p (products s) -> product_id p < next_product_id s.

(** Purchase ids in use lie below the counter of the next purchase. *)
Definition purchase_ids_fresh (s : State) : Prop :=
  (forall p, In p (purchases s) -> purchase_id p < next_purchase_id s) /\
  (forall i, In i (purchase_items s) -> pi_purchase_id i < next_purchase_id s).

End MoreInvariants.

(** ** More sample requests *)

Module MoreSample.

(** Alice offers a vase for 12, with one uploaded picture. *)
Definition vase : Multipart := {|
  content_type := Some "multipart/form-data; boundary=----x";
  form := [("title", " Vase "); ("description", "Glass vase");
           ("category", "Home"); ("price", "12")];
  kept_filenames := [];
  saved_filenames := ["0f3c.png"]
|}.

(** A listing request for page 0 with a page size of -5. *)
Definition below_one : ListArgs := {|
  arg_category := None; arg_q := None;
  arg_page := Some "0"; arg_per_page := Some "-5"
|}.

(** The vase again, its price the text [nan]. *)
Definition nan_vase : Multipart := {|
  content_type := Some "multipart/form-data; boundary=----x";
  form := [("title", " Vase "); ("description", "Glass vase");
           ("category", "Home"); ("price", "nan")];
  kept_filenames := [];
  saved_filenames := []
|}.

(** Alice's registration, for the runtime with a not-a-number. *)
Definition nan_alice : option (@json DemoNan.runtime) :=
  Some (JObj [("email", JStr "alice@example.org"); ("username", JStr "alice");
              ("password", JStr "wonderland")]).

(** Alice renames the lamp and keeps its picture. *)
Definition rename_lamp : Multipart := {|
  content_type := Some "multipart/form-data; boundary=----x";
  form := [("title", " Big lamp ")];
  kept_filenames := ["a.png"];
  saved_filenames := []
|}.

End MoreSample.

(** ** Text without wildcards *)

Module Plain.

(** No character of the text is a [LIKE] wildcard. *)
Definition plain_char (c : ascii) : bool :=
  negb (Ascii.eqb c "%") && negb (Ascii.eqb c "_").

Fixpoint plain (s : string) : bool :=
  match s with
  | EmptyString => true
  | String c s' => plain_char c && plain s'
  end.

(** [w] occurs in [s] as a run of consecutive characters. *)
Definition occurs_in (w s : string) : Prop :=
  exists before after, s = String.append before (String.append w after).

End Plain.

(** ** The listing as the spec words it

    A case-insensitive category match and a case-insensitive substring match
    over title and description. *)

Section SpecListing.
Context {RT : Runtime}.

(** The two texts are the same, letter case aside. *)
Definition same_ignoring_case (a b : string) : Prop :=
  PyStr.lower a = PyStr.lower b.

(** [w] is a substring of [s], letter case aside. *)
Definition occurs_ignoring_case (w s : string) : Prop :=
  Plain.occurs_in (PyStr.lower w) (PyStr.lower s).

(** The category filter selects the product: there is no filter (none was
    sent, or an empty one, or the word "all"), or the product's category is
    the filter. *)
Definition category_selected (category_filter : option string) (p : Product)
    : Prop :=
  match category_filter with
  | None => True
  | Some c =>
      c = "" \/ same_ignoring_case c "all" \/ same_ignoring_case (category p) c
  end.

(** The search selects the product: there is no query, or the query occurs
    in the product's title or description. *)
Definition text_selected (search_query : option string) (p : Product) : Prop :=
  match search_query with
  | None => True
  | Some q =>
      q = "" \/ occurs_ignoring_case q (title p)
      \/ occurs_ignoring_case q (description p)
  end.

Definition selected (a : ListArgs) (p : Product) : Prop :=
  category_selected (arg_category a) p /\ text_selected (arg_q a) p.

(** Neither the category filter nor the query holds a [LIKE] wildcard. *)
Definition wildcard_free (a : ListArgs) : Prop :=
  (forall c, arg_category a = Some c -> Plain.plain c = true) /\
  (forall q, arg_q a = Some q -> Plain.plain q = true).

End SpecListing.

(** ** Uploaded images (product_routes.py) *)

(** What the product routes take from the configuration ([config.py] is not
    part of the sources) and from Werkzeug. *)
Record Platform := {
  (** [current_app.config['ALLOWED_EXTENSIONS']] *)
  allowed_extensions : list string;
  (** [current_app.config.get('FLASK_STATIC_UPLOADS_URL')] *)
  uploads_url : option string;
  (** [werkzeug.utils.secure_filename] *)
  secure_filename : string -> string
}.

(** The upload folder: whether [UPLOAD_FOLDER] is configured and exists, the
    names of the files in it, and the files [os.remove] succeeds on.  A file
    is known by its plain name, as the handlers produce it (a uuid name, a
    basename, a [secure_filename] result); a stored name with a directory
    part, which [os.path.join] would lead elsewhere, is not modelled. *)
Record Disk := {
  folder_ready : bool;
  disk_files : list string;
  can_remove : string -> bool
}.

(** One [FileStorage] of [request.files]: its filename ([""] when it has
    none), whether [save] succeeds, and the hex of the uuid drawn for it. *)
Record FileStorage := {
  fs_filename : string;
  fs_save_ok : bool;
  fs_uuid_hex : string
}.

Module Files.

(** [s.rsplit('.', 1)[1]] where ['.' in s]: the text after the last dot;
    [None] where there is no dot. *)
Fixpoint after_last_dot (s : string) : option string :=
  match s with
  | EmptyString => None
  | String c s' =>
      match after_last_dot s' with
      | Some ext => Some ext
      | None => if Ascii.eqb c "." then Some s' else None
      end
  end.

(** [os.path.basename]: the text after the last slash. *)
Fixpoint basename (s : string) : string :=
  match s with
  | EmptyString => EmptyString
  | String c s' =>
      if PyStr.contains "/" s' then basename s'
      else if Ascii.eqb c "/" then s'
      else s
  end.

(** [fn in names] *)
Definition listed (names : list string) (fn : string) : bool :=
  existsb (String.eqb fn) names.

(** [allowed_file(filename)] *)
Definition allowed_file (P : Platform) (filename : string) : bool :=
  match after_last_dot filename with
  | None => false
  | Some ext => listed (allowed_extensions P) (PyStr.lower ext)
  end.

(** The name one upload is saved under in [save_files_from_request], if it
    is saved. *)
Definition unique_filename (P : Platform) (file_storage : FileStorage)
    : option string :=
  if negb (String.eqb (fs_filename file_storage) "")
     && allowed_file P (fs_filename file_storage) then
    let original_filename := secure_filename P (fs_filename file_storage) in
    let ext :=
      match after_last_dot original_filename with
      | Some x => PyStr.lower x
      | None => ""
      end in
    if String.eqb ext "" then None
    else if fs_save_ok file_storage then
      Some (String.append (fs_uuid_hex file_storage) (String.append "." ext))
    else None
  else None.

(** [save_files_from_request(files_list_from_request)] *)
Definition save_files_from_request (P : Platform) (d : Disk)
    (files_list_from_request : list FileStorage) : list string :=
  if negb (folder_ready d) then []
  else
    flat_map
      (fun file_storage =>
         match unique_filename P file_storage with
         | Some name => [name]
         | None => []
         end)
      files_list_from_request.

(** [saved_filenames] as both product handlers compute it: nothing is saved
    when no file came. *)
Definition saved_uploads (P : Platform) (d : Disk)
    (uploaded_files : list FileStorage) : list string :=
  match uploaded_files with
  | [] => []
  | _ :: _ => save_files_from_request P d uploaded_files
  end.

(** The folder once the saved uploads are written. *)
Definition with_saved (d : Disk) (saved : list string) : Disk :=
  {| folder_ready := folder_ready d;
     disk_files := disk_files d ++ saved;
     can_remove := can_remove d |}.

(** The loops that delete image files: a name is removed when it is not
    empty, passes [local], the folder is there, and [os.remove] succeeds;
    an error is logged and the loop goes on. *)
Definition remove_files (local : string -> bool) (names : list string)
    (d : Disk) : Disk :=
  {| folder_ready := folder_ready d;
     disk_files :=
       filter
         (fun f =>
            negb (folder_ready d && listed names f
                  && negb (String.eqb f "") && local f && can_remove d f))
         (disk_files d);
     can_remove := can_remove d |}.

(** [s.startswith(('http://', 'https://'))] *)
Definition is_http (s : string) : bool :=
  prefix "http://" s || prefix "https://" s.

End Files.

Section Images.
Context {RT : Runtime}.
Variable P : Platform.
(** [json.loads]; [None] stands for [json.JSONDecodeError]. *)
Variable json_loads : string -> option json.

(** What one entry of [existingImages] adds to [final_filenames_to_keep]. *)
Definition kept_name (url : string) (url_or_filename : json) : list string :=
  match url_or_filename with
  | JStr x =>
      if PyStr.contains url x then [Files.basename x]
      else if negb (Files.is_http x) then [secure_filename P x]
      else []
  | _ => []
  end.

(** [final_filenames_to_keep] of [update_product].  Without a configured
    uploads URL the test on the first text entry raises, the handler logs
    it, and nothing has been kept by then. *)
Definition final_filenames_to_keep (existing_images_json_str : option string)
    : list string :=
  match existing_images_json_str with
  | None => []
  | Some text =>
      if String.eqb text "" then []
      else
        match json_loads text with
        | Some (JArr existing_image_urls_to_keep) =>
            match uploads_url P with
            | Some url => flat_map (kept_name url) existing_image_urls_to_keep
            | None => []
            end
        | _ => []
        end
  end.

(** The product an update gets to work on: [None] where [update_product]
    has returned before it handles the images. *)
Definition product_to_update (e : Env) (pid : Z) (ct : option string)
    (f : list (string * string)) (s : State) : option Product :=
  match current_user_id e with
  | inl _ => None
  | inr uid =>
      match get_product s pid with
      | None => None
      | Some product =>
          if negb (seller_id product =? uid) then None
          else
            match ct with
            | None => None
            | Some c =>
                if negb (PyStr.contains "multipart/form-data" c) then None
                else
                  match requested_price f (price product) with
                  | inl _ => None
                  | inr _ => Some product
                  end
            end
      end
  end.

(** The multipart request of an update, with the image names the handler
    works out of it. *)
Definition update_request (d : Disk) (ct : option string)
    (f : list (string * string)) (uploads : list FileStorage) : Multipart :=
  {| content_type := ct;
     form := f;
     kept_filenames := final_filenames_to_keep (form_get "existingImages" f);
     saved_filenames := Files.saved_uploads P d uploads |}.

(** [files_to_delete_from_storage] *)
Definition files_to_delete_from_storage (current_db_filenames
    all_final_filenames : list string) : list string :=
  filter (fun fn => negb (Files.listed all_final_filenames fn))
    current_db_filenames.

(** [PUT /products/<product_id>] with the upload folder: the uploads are
    saved and the files no longer listed are deleted before the commit. *)
Definition update_product_files (e : Env) (pid : Z) (ct : option string)
    (f : list (string * string)) (uploads : list FileStorage)
    (s : State) (d : Disk) : State * Disk * Response :=
  let req := update_request d ct f uploads in
  let d' :=
    match product_to_update e pid ct f s with
    | None => d
    | Some product =>
        Files.remove_files (fun _ => true)
          (files_to_delete_from_storage (image_filenames_list product)
             (kept_filenames req ++ saved_filenames req))
          (Files.with_saved d (saved_filenames req))
    end in
  (fst (update_product e pid req s), d', snd (update_product e pid req s)).

(** The product a delete gets to work on. *)
Definition product_to_delete (e : Env) (pid : Z) (s : State) : option Product :=
  match current_user_id e with
  | inl _ => None
  | inr uid =>
      match get_product s pid with
      | None => None
      | Some product =>
          if negb (seller_id product =? uid) then None else Some product
      end
  end.

(** [DELETE /products/<product_id>] with the upload folder: the local image
    files of the product are deleted before the commit. *)
Definition delete_product_files (e : Env) (pid : Z) (s : State) (d : Disk)
    : State * Disk * Response :=
  let d' :=
    match product_to_delete e pid s with
    | None => d
    | Some product =>
        Files.remove_files (fun fn => negb (Files.is_http fn))
          (image_filenames_list product) d
    end in
  (fst (delete_product e pid s), d', snd (delete_product e pid s)).

(** [POST /products] with the upload folder. *)
Definition create_request (d : Disk) (ct : option string)
    (f : list (string * string)) (uploads : list FileStorage) : Multipart :=
  {| content_type := ct; form := f; kept_filenames := [];
     saved_filenames := Files.saved_uploads P d uploads |}.

End Images.

(** ** A sample upload folder *)

Module FileSample.

(** Four image extensions are allowed; uploads are served under [/uploads];
    the names used below are left as they are by [secure_filename]. *)
Definition platform : Platform := {|
  allowed_extensions := ["png"; "jpg"; "jpeg"; "gif"];
  uploads_url := Some "/uploads";
  secure_filename := fun name => name
|}.

Definition disk : Disk := {|
  folder_ready := true;
  disk_files := ["a.png"; "b.png"; "z.png"];
  can_remove := fun _ => true
|}.

Definition photo : FileStorage := {|
  fs_filename := "Holiday.Photo.PNG"; fs_save_ok := true; fs_uuid_hex := "0f3c"
|}.

Definition notes : FileStorage := {|
  fs_filename := "notes.txt"; fs_save_ok := true; fs_uuid_hex := "77aa"
|}.

(** A [json.loads] that knows two texts. *)
Definition loads (text : string) : option (@json Demo.runtime) :=
  if String.eqb text "[1]" then Some (JArr [JStr "/uploads/a.png"])
  else if String.eqb text "[2]" then Some (JArr [JStr "z.png"])
  else None.

(** The lamp of the sample shop with two pictures. *)
Definition lamp : @Product Demo.runtime := {|
  product_id := 1; title := "Lamp"; description := "Desk lamp";
  category := "Home"; price := Sample.hundredths 1000; seller_id := 1;
  image_filenames_list := ["a.png"; "b.png"]; created_at := 1690000000
|}.

Definition gallery : @State Demo.runtime := {|
  users := [Sample.alice; Sample.bob];
  products := [lamp; Sample.productB];
  cart_items := []; purchases := []; purchase_items := []; wishlist_items := [];
  next_user_id := 3; next_product_id := 3; next_purchase_id := 1
|}.

Definition multipart : option string :=
  Some "multipart/form-data; boundary=----x".

End FileSample.

(** ** Proof tools *)

Ltac destruct_match :=
  match goal with
  | |- context [match ?x with _ => _ end] => destruct x eqn:?
  end.

Ltac destruct_match_in H :=
  match type of H with
  | context [match ?x with _ => _ end] => destruct x eqn:?
  end.

Section UnknownUser.
Context {RT : Runtime}.

Lemma current_user_id_of (e : Env) (ident : string) (uid : Z) :
  jwt_identity e = Some ident -> int_of_str ident = Some uid ->
  current_user_id e = inr uid.
Proof.
  intros Hj Hi. unfold current_user_id. now rewrite Hj, Hi.
Qed.

(** C10.  Every operation that acts for the user of the token (cart get, add,
    update and remove, checkout, wishlist get, add and remove, purchase
    history, the current user and the profile update), given a token whose
    identity reads as a user id no user has, fails with NotFound and leaves
    the store as it was. *)
Theorem unknown_user_not_found (e : Env) (r : Request) (s : State)
    (ident : string) (uid : Z) :
  looks_up_user r = true ->
  jwt_identity e = Some ident ->
  int_of_str ident = Some uid ->
  get_user s uid = None ->
  fst (handle e r s) = s /\ fails_with NotFound (snd (handle e r s)).
Proof.
  intros Hr Hj Hi Hu.
  pose proof (current_user_id_of e ident uid Hj Hi) as Hc.
  destruct r; simpl in Hr; try discriminate; simpl;
    [ unfold get_me | unfold update_profile | unfold get_cart_items
    | unfold add_to_cart | unfold update_cart_item_quantity
    | unfold remove_from_cart | unfold checkout | unfold get_purchase_history
    | unfold get_wishlist | unfold add_to_wishlist
    | unfold remove_from_wishlist ];
    rewrite Hc, Hu; split; reflexivity.
Qed.

End UnknownUser.

Lemma unknown_user_not_found_witness :
  looks_up_user (RT := Demo.runtime) Checkout = true /\
  fst (handle Sample.bob_env Checkout Sample.one_user) = Sample.one_user /\
  fails_with NotFound (snd (handle Sample.bob_env Checkout Sample.one_user)).
Proof.
  split; [reflexivity|].
  apply (unknown_user_not_found Sample.bob_env Checkout Sample.one_user "2" 2);
    reflexivity.
Defined.

Section Checkout.
Context {RT : Runtime}.

Lemma get_product_id (s : State) (pid : Z) (p : Product) :
  get_product s pid = Some p -> product_id p = pid.
Proof.
  unfold get_product. intros H. apply find_some in H. lia.
Qed.

Lemma checkout_rows_complete (s : State) (purchase : Z) (items : list CartItem) :
  (forall c, In c items -> get_product s (ci_product_id c) <> None) ->
  forall total collected,
  exists snapshots,
    checkout_rows s purchase items total collected =
      inr (fold_left (fun acc c => num_add acc (spec_line_total s c)) items total,
           collected ++ snapshots) /\
    Forall2 (snapshot_of s purchase) items snapshots.
Proof.
  induction items as [|item rest IH]; intros Hall total collected; simpl.
  - exists []. rewrite app_nil_r. split; [reflexivity | constructor].
  - unfold spec_line_total at 2.
    destruct (get_product s (ci_product_id item)) as [product|] eqn:Hp.
    + destruct (IH (fun c Hc => Hall c (or_intror Hc))
                  (num_add total (num_mul (price product) (num_of_int (quantity item))))
                  (collected ++ [snapshot purchase item product]))
        as (snapshots & Hrows & Hsnap).
      exists (snapshot purchase item product :: snapshots). split.
      * rewrite Hrows, <- app_assoc. reflexivity.
      * constructor; [|exact Hsnap].
        exists product. simpl. pose proof (get_product_id _ _ _ Hp).
        repeat split; congruence.
    + exfalso. apply (Hall item); [now left | exact Hp].
Qed.

Lemma checkout_rows_missing (s : State) (purchase : Z) (items : list CartItem) :
  (exists c, In c items /\ get_product s (ci_product_id c) = None) ->
  forall total collected,
  exists missing, checkout_rows s purchase items total collected = inl missing.
Proof.
  induction items as [|item rest IH]; intros (c & Hin & Hc) total collected.
  - destruct Hin.
  - simpl. destruct (get_product s (ci_product_id item)) eqn:Hp.
    + destruct Hin as [->|Hin]; [congruence|].
      apply IH. now exists c.
    + now exists (ci_product_id item).
Qed.

(** Whatever checkout answers other than 200, the store is the one before. *)
Lemma checkout_failure_keeps_store (e : Env) (s : State) :
  status (snd (checkout e s)) <> 200 -> fst (checkout e s) = s.
Proof.
  unfold checkout. repeat (destruct_match; simpl; try reflexivity).
  intros H. now elim H.
Qed.

(** C2.  Checkout fails with Validation when the user's cart is empty and
    with an Internal error when a cart row names a product that is gone; and
    whenever checkout fails, the purchases, the purchase items and the cart
    rows (the whole store) are what they were before the call. *)
Theorem checkout_failures (e : Env) (s : State) (uid : Z) (u : User) :
  current_user_id e = inr uid ->
  get_user s uid = Some u ->
  (cart_of s uid = [] ->
     fails_with Validation (snd (checkout e s)) /\ fst (checkout e s) = s) /\
  ((exists c, In c (cart_of s uid) /\ get_product s (ci_product_id c) = None) ->
     fails_with Internal (snd (checkout e s)) /\ fst (checkout e s) = s) /\
  (~ succeeds (snd (checkout e s)) ->
     purchases (fst (checkout e s)) = purchases s /\
     purchase_items (fst (checkout e s)) = purchase_items s /\
     cart_items (fst (checkout e s)) = cart_items s /\
     fst (checkout e s) = s).
Proof.
  intros Hc Hu. split; [|split].
  - intros Hempty. unfold checkout. rewrite Hc, Hu, Hempty. split; reflexivity.
  - intros Hmissing. unfold checkout. rewrite Hc, Hu.
    destruct (cart_of s uid) as [|c0 rest] eqn:Hcart.
    + destruct Hmissing as (c & [] & _).
    + destruct (checkout_rows_missing s (next_purchase_id s) (c0 :: rest)
                  Hmissing (num_of_int 0) []) as (missing & ->).
      split; reflexivity.
  - intros Hfail.
    assert (Hs : fst (checkout e s) = s).
    { apply checkout_failure_keeps_store. intros H200. apply Hfail.
      unfold succeeds. now rewrite H200. }
    rewrite Hs. auto.
Qed.

End Checkout.

Lemma checkout_failures_witness :
  current_user_id (RT := Demo.runtime) Sample.bob_env = inr 2 /\
  get_user Sample.orphaned 2 = Some Sample.bob /\
  (exists c, In c (cart_of Sample.orphaned 2) /\
             get_product Sample.orphaned (ci_product_id c) = None) /\
  fails_with Internal (snd (checkout Sample.bob_env Sample.orphaned)) /\
  fst (checkout Sample.bob_env Sample.orphaned) = Sample.orphaned.
Proof.
  assert (Hc : current_user_id (RT := Demo.runtime) Sample.bob_env = inr 2) by reflexivity.
  assert (Hu : get_user Sample.orphaned 2 = Some Sample.bob) by reflexivity.
  assert (Hm : exists c, In c (cart_of Sample.orphaned 2) /\
                 get_product Sample.orphaned (ci_product_id c) = None).
  { exists {| ci_user_id := 2; ci_product_id := 1; quantity := 2 |}.
    split; [now left | reflexivity]. }
  destruct (checkout_failures Sample.bob_env Sample.orphaned 2 Sample.bob Hc Hu)
    as (_ & Hmissing & _).
  exact (conj Hc (conj Hu (conj Hm (Hmissing Hm)))).
Defined.

Section CheckoutSuccess.
Context {RT : Runtime}.

Lemma filter_disjoint {A} (p : A -> bool) (l : list A) :
  filter p (filter (fun x => negb (p x)) l) = [].
Proof.
  induction l as [|x l IH]; simpl; [reflexivity|].
  destruct (p x) eqn:Hp; simpl; [exact IH|]. now rewrite Hp.
Qed.

(** C1.  For a user with a non-empty cart whose rows all name products of the
    catalog, checkout (when the store accepts the commit) adds exactly one
    purchase, of that user, whose total is the sum over the cart rows of price
    times quantity, rounded to two decimals; adds exactly one purchase item per
    cart row, in order, each the snapshot of its row (product id, title,
    quantity, price) under the new purchase; removes all and only the cart rows
    of that user; and answers 200 with the new purchase's id and detail. *)
Theorem checkout_creates_purchase (e : Env) (s : State) (uid : Z) (u : User) :
  current_user_id e = inr uid ->
  get_user s uid = Some u ->
  cart_of s uid <> [] ->
  (forall c, In c (cart_of s uid) -> get_product s (ci_product_id c) <> None) ->
  commit_ok e = true ->
  exists purchase snapshots,
    purchases (fst (checkout e s)) = purchases s ++ [purchase] /\
    pu_user_id purchase = uid /\
    total_amount purchase = num_round2 (spec_cart_total s (cart_of s uid)) /\
    purchase_items (fst (checkout e s)) = purchase_items s ++ snapshots /\
    Forall2 (snapshot_of s (purchase_id purchase)) (cart_of s uid) snapshots /\
    cart_of (fst (checkout e s)) uid = [] /\
    cart_items (fst (checkout e s)) =
      filter (fun c => negb (ci_user_id c =? uid)) (cart_items s) /\
    snd (checkout e s) =
      respond 200
        (PCheckout "Checkout successful!" (purchase_id purchase)
           (purchase, snapshots)).
Proof.
  intros Hc Hu Hcart Hall Hok.
  destruct (checkout_rows_complete s (next_purchase_id s) (cart_of s uid) Hall
              (num_of_int 0) []) as (snapshots & Hrows & Hsnap).
  simpl in Hrows.
  exists {| purchase_id := next_purchase_id s; pu_user_id := uid;
            total_amount := num_round2 (spec_cart_total s (cart_of s uid));
            purchase_date := now e |}, snapshots.
  unfold checkout. rewrite Hc, Hu.
  destruct (cart_of s uid) as [|c0 rest] eqn:Hrowsof; [now elim Hcart|].
  rewrite Hrows, Hok. unfold spec_cart_total. simpl.
  repeat split; try reflexivity; try assumption.
  unfold cart_of. simpl. apply filter_disjoint.
Qed.

End CheckoutSuccess.

Lemma checkout_creates_purchase_witness :
  current_user_id (RT := Demo.runtime) Sample.bob_env = inr 2 /\
  get_user Sample.shop 2 = Some Sample.bob /\
  cart_of Sample.shop 2 <> [] /\
  (forall c, In c (cart_of Sample.shop 2) ->
             get_product Sample.shop (ci_product_id c) <> None) /\
  commit_ok Sample.bob_env = true /\
  exists purchase snapshots,
    purchases (fst (checkout Sample.bob_env Sample.shop)) =
      purchases Sample.shop ++ [purchase] /\
    pu_user_id purchase = 2 /\
    total_amount purchase =
      num_round2 (spec_cart_total Sample.shop (cart_of Sample.shop 2)) /\
    purchase_items (fst (checkout Sample.bob_env Sample.shop)) =
      purchase_items Sample.shop ++ snapshots /\
    Forall2 (snapshot_of Sample.shop (purchase_id purchase))
      (cart_of Sample.shop 2) snapshots /\
    cart_of (fst (checkout Sample.bob_env Sample.shop)) 2 = [] /\
    cart_items (fst (checkout Sample.bob_env Sample.shop)) =
      filter (fun c => negb (ci_user_id c =? 2)) (cart_items Sample.shop) /\
    snd (checkout Sample.bob_env Sample.shop) =
      respond 200
        (PCheckout "Checkout successful!" (purchase_id purchase)
           (purchase, snapshots)).
Proof.
  assert (H1 : current_user_id (RT := Demo.runtime) Sample.bob_env = inr 2)
    by reflexivity.
  assert (H2 : get_user Sample.shop 2 = Some Sample.bob) by reflexivity.
  assert (H3 : cart_of Sample.shop 2 <> []) by discriminate.
  assert (H4 : forall c, In c (cart_of Sample.shop 2) ->
                 get_product Sample.shop (ci_product_id c) <> None).
  { intros c [<-|[<-|[]]]; discriminate. }
  assert (H5 : commit_ok Sample.bob_env = true) by reflexivity.
  repeat (split; [assumption|]).
  exact (checkout_creates_purchase Sample.bob_env Sample.shop 2 Sample.bob
           H1 H2 H3 H4 H5).
Defined.

(** The spec's example: a cart of two of a product priced 10.00 and one of a
    product priced 5.50 gives one purchase of 25.50, two snapshots with the
    prices at purchase, and an empty cart. *)
Example checkout_sample :
  let s' := fst (checkout Sample.bob_env Sample.shop) in
  map total_amount (purchases s') = [Sample.hundredths 2550] /\
  map (fun i => (pi_product_id i, pi_quantity i, price_at_purchase i))
    (purchase_items s') =
    [(1, 2, Sample.hundredths 1000); (2, 1, Sample.hundredths 550)] /\
  cart_items s' = [] /\
  status (snd (checkout Sample.bob_env Sample.shop)) = 200.
Proof. repeat split; reflexivity. Qed.

(** With the first product deleted in between, the same checkout fails and
    writes nothing. *)
Example checkout_orphaned_sample :
  status (snd (checkout Sample.bob_env Sample.orphaned)) = 500 /\
  fst (checkout Sample.bob_env Sample.orphaned) = Sample.orphaned.
Proof. split; reflexivity. Qed.

(** ** Rows rewritten or removed in place *)

Section Rows.
Context {A : Type} (p : A -> bool).

Lemma find_update_first (f : A -> A) (l : list A) (x : A) :
  find p l = Some x -> p (f x) = true ->
  find p (update_first p f l) = Some (f x).
Proof.
  induction l as [|y l IH]; simpl; [discriminate|].
  destruct (p y) eqn:Hy; intros Hfind Hfx.
  - injection Hfind as ->. simpl. now rewrite Hfx.
  - simpl. rewrite Hy. now apply IH.
Qed.

Lemma others_update_first (f : A -> A) (l : list A) :
  (forall x, p x = true -> p (f x) = true) ->
  filter (fun x => negb (p x)) (update_first p f l) =
  filter (fun x => negb (p x)) l.
Proof.
  intros Hf. induction l as [|y l IH]; simpl; [reflexivity|].
  destruct (p y) eqn:Hy; simpl.
  - now rewrite (Hf y Hy).
  - now rewrite Hy, IH.
Qed.

Lemma length_update_first (f : A -> A) (l : list A) :
  List.length (update_first p f l) = List.length l.
Proof.
  induction l as [|y l IH]; simpl; [reflexivity|].
  destruct (p y); simpl; congruence.
Qed.

Lemma others_remove_first (l : list A) :
  filter (fun x => negb (p x)) (remove_first p l) =
  filter (fun x => negb (p x)) l.
Proof.
  induction l as [|y l IH]; simpl; [reflexivity|].
  destruct (p y) eqn:Hy; simpl; [reflexivity|].
  now rewrite Hy, IH.
Qed.

Lemma find_app_none (l : list A) (x : A) :
  find p l = None -> p x = true -> find p (l ++ [x]) = Some x.
Proof.
  induction l as [|y l IH]; simpl; intros Hnone Hx.
  - now rewrite Hx.
  - destruct (p y); [discriminate|]. now apply IH.
Qed.

Lemma filter_none (l : list A) :
  find p l = None -> filter (fun x => negb (p x)) l = l.
Proof.
  induction l as [|y l IH]; simpl; [reflexivity|].
  destruct (p y); [discriminate|]. simpl. intros H. now rewrite IH.
Qed.

End Rows.

Section CartRows.
Context {RT : Runtime}.

Lemma cart_row_of_key (uid pid : Z) (c : CartItem) :
  cart_row_of uid pid c = true <-> cart_key c = (uid, pid).
Proof.
  unfold cart_row_of, cart_key. rewrite andb_true_iff, !Z.eqb_eq.
  split; [intros [-> ->]; reflexivity | intros H; injection H; auto].
Qed.

(** With one row per user and product, removing the first row of a key
    removes the key. *)
Lemma unique_remove_first (uid pid : Z) (l : list CartItem) :
  NoDup (map cart_key l) ->
  find (cart_row_of uid pid) (remove_first (cart_row_of uid pid) l) = None.
Proof.
  induction l as [|c l IH]; simpl; [reflexivity|].
  intros Hnd. inversion Hnd as [|k ks Hnotin Hnd']; subst.
  destruct (cart_row_of uid pid c) eqn:Hc.
  - apply cart_row_of_key in Hc.
    destruct (find (cart_row_of uid pid) l) as [c'|] eqn:Hf; [|reflexivity].
    exfalso. apply Hnotin. apply find_some in Hf as [Hin Hk].
    apply cart_row_of_key in Hk. rewrite Hc, <- Hk. now apply in_map.
  - simpl. rewrite Hc. now apply IH.
Qed.

Lemma cart_row_of_add_quantity (uid pid n : Z) (c : CartItem) :
  cart_row_of uid pid c = true -> cart_row_of uid pid (add_quantity n c) = true.
Proof. exact (fun H => H). Qed.

Lemma cart_row_of_set_quantity (uid pid n : Z) (c : CartItem) :
  cart_row_of uid pid c = true -> cart_row_of uid pid (set_quantity n c) = true.
Proof. exact (fun H => H). Qed.

End CartRows.

Section AddToCart.
Context {RT : Runtime}.

Lemma add_to_cart_typed (e : Env) (data : option dict) (s : State)
    (uid : Z) (u : User) (pid qty : Z) :
  current_user_id e = inr uid ->
  get_user s uid = Some u ->
  body_missing data = false ->
  py_int (dict_get "productId" (body_dict data)) = inl pid ->
  py_int (dict_get_default "quantity" (JInt 1) (body_dict data)) = inl qty ->
  add_to_cart e data s =
    if qty <? 1 then (s, message 400 "Quantity must be at least 1")
    else add_to_cart_row e uid pid qty s.
Proof.
  intros Hc Hu Hb Hp Hq. unfold add_to_cart. rewrite Hc, Hu, Hb, Hp, Hq.
  destruct (dict_get "productId" (body_dict data)); try reflexivity.
  discriminate Hp.
Qed.

(** C4.  Adding to the cart, for a known user and integer product id and
    quantity: a quantity below 1 fails with Validation; otherwise an absent
    product fails with NotFound and a product the user sells fails with
    Forbidden, each leaving the store as it was; otherwise (the commit
    accepted) an existing row of the user and product has its quantity
    raised by the given quantity, and with no such row one with exactly the
    given quantity is appended; no other row changes; the response carries
    the affected row and the user's cart as it is afterwards, with status
    200 for the existing row (of quantity at least 1) and 201 for the new
    one. *)
Theorem add_to_cart_spec (e : Env) (data : option dict) (s : State)
    (uid : Z) (u : User) (pid qty : Z) :
  current_user_id e = inr uid ->
  get_user s uid = Some u ->
  body_missing data = false ->
  py_int (dict_get "productId" (body_dict data)) = inl pid ->
  py_int (dict_get_default "quantity" (JInt 1) (body_dict data)) = inl qty ->
  (qty < 1 ->
     fails_with Validation (snd (add_to_cart e data s)) /\
     fst (add_to_cart e data s) = s) /\
  (1 <= qty -> get_product s pid = None ->
     fails_with NotFound (snd (add_to_cart e data s)) /\
     fst (add_to_cart e data s) = s) /\
  (1 <= qty -> forall p, get_product s pid = Some p -> seller_id p = uid ->
     fails_with Forbidden (snd (add_to_cart e data s)) /\
     fst (add_to_cart e data s) = s) /\
  (1 <= qty -> forall p, get_product s pid = Some p -> seller_id p <> uid ->
   commit_ok e = true ->
     (forall found, cart_row s uid pid = Some found ->
        cart_row (fst (add_to_cart e data s)) uid pid =
          Some {| ci_user_id := ci_user_id found;
                  ci_product_id := ci_product_id found;
                  quantity := quantity found + qty |} /\
        filter (fun c => negb (cart_row_of uid pid c))
          (cart_items (fst (add_to_cart e data s))) =
        filter (fun c => negb (cart_row_of uid pid c)) (cart_items s) /\
        List.length (cart_items (fst (add_to_cart e data s))) =
          List.length (cart_items s) /\
        body (snd (add_to_cart e data s)) =
          PCartChange "Item added/updated in cart"
            (cart_row (fst (add_to_cart e data s)) uid pid)
            (cart_of (fst (add_to_cart e data s)) uid) /\
        (1 <= quantity found -> status (snd (add_to_cart e data s)) = 200)) /\
     (cart_row s uid pid = None ->
        cart_items (fst (add_to_cart e data s)) =
          cart_items s ++
          [{| ci_user_id := uid; ci_product_id := pid; quantity := qty |}] /\
        cart_row (fst (add_to_cart e data s)) uid pid =
          Some {| ci_user_id := uid; ci_product_id := pid; quantity := qty |} /\
        body (snd (add_to_cart e data s)) =
          PCartChange "Item added/updated in cart"
            (cart_row (fst (add_to_cart e data s)) uid pid)
            (cart_of (fst (add_to_cart e data s)) uid) /\
        status (snd (add_to_cart e data s)) = 201)).
Proof.
  intros Hc Hu Hb Hp Hq.
  rewrite (add_to_cart_typed e data s uid u pid qty Hc Hu Hb Hp Hq).
  split; [|split; [|split]].
  - intros Hlt. apply Z.ltb_lt in Hlt. rewrite Hlt. split; reflexivity.
  - intros Hge Hnone. apply Z.ltb_ge in Hge. rewrite Hge.
    unfold add_to_cart_row. rewrite Hnone. split; reflexivity.
  - intros Hge p Hsome Hown. apply Z.ltb_ge in Hge. rewrite Hge.
    unfold add_to_cart_row. rewrite Hsome.
    apply Z.eqb_eq in Hown. rewrite Hown. split; reflexivity.
  - intros Hge p Hsome Hother Hok. apply Z.ltb_ge in Hge. rewrite Hge.
    unfold add_to_cart_row. rewrite Hsome.
    apply Z.eqb_neq in Hother. rewrite Hother. split.
    + intros found Hfound. rewrite Hfound, Hok. simpl.
      assert (Hrow : cart_row_of uid pid found = true).
      { unfold cart_row in Hfound. now apply find_some in Hfound. }
      assert (Hnew : cart_row
                (with_cart_items s
                   (update_first (cart_row_of uid pid) (add_quantity qty)
                      (cart_items s))) uid pid = Some (add_quantity qty found)).
      { unfold cart_row. simpl. now apply find_update_first. }
      rewrite Hnew. repeat split.
      * apply others_update_first. intros x Hx. exact Hx.
      * apply length_update_first.
      * intros Hpos. destruct (quantity found + qty >? qty) eqn:Hcmp;
          [reflexivity|]. rewrite Z.gtb_ltb in Hcmp. apply Z.ltb_ge in Hcmp. lia.
    + intros Hnone. rewrite Hnone, Hok. simpl.
      assert (Hnew : cart_row
                (with_cart_items s
                   (cart_items s ++
                    [{| ci_user_id := uid; ci_product_id := pid;
                        quantity := qty |}])) uid pid =
              Some {| ci_user_id := uid; ci_product_id := pid; quantity := qty |}).
      { unfold cart_row. simpl. apply find_app_none; [exact Hnone|].
        unfold cart_row_of. simpl. now rewrite !Z.eqb_refl. }
      rewrite Hnew. repeat split.
      destruct (qty >? qty) eqn:Hcmp; [|reflexivity].
      rewrite Z.gtb_ltb in Hcmp. apply Z.ltb_lt in Hcmp. lia.
Qed.

End AddToCart.

Lemma add_to_cart_spec_witness :
  let data := Some [("productId", JInt 2); ("quantity", JStr "3")] in
  current_user_id (RT := Demo.runtime) Sample.bob_env = inr 2 /\
  get_user Sample.shop 2 = Some Sample.bob /\
  body_missing data = false /\
  py_int (dict_get "productId" (body_dict data)) = inl 2 /\
  py_int (dict_get_default "quantity" (JInt 1) (body_dict data)) = inl 3 /\
  1 <= 3 /\
  get_product Sample.shop 2 = Some Sample.productB /\
  seller_id Sample.productB <> 2 /\
  commit_ok Sample.bob_env = true /\
  cart_row Sample.shop 2 2 =
    Some {| ci_user_id := 2; ci_product_id := 2; quantity := 1 |} /\
  cart_row (fst (add_to_cart Sample.bob_env data Sample.shop)) 2 2 =
    Some {| ci_user_id := 2; ci_product_id := 2; quantity := 1 + 3 |} /\
  status (snd (add_to_cart Sample.bob_env data Sample.shop)) = 200.
Proof.
  intros data.
  assert (H1 : current_user_id (RT := Demo.runtime) Sample.bob_env = inr 2)
    by reflexivity.
  assert (H2 : get_user Sample.shop 2 = Some Sample.bob) by reflexivity.
  assert (H3 : body_missing data = false) by reflexivity.
  assert (H4 : py_int (dict_get "productId" (body_dict data)) = inl 2)
    by reflexivity.
  assert (H5 : py_int (dict_get_default "quantity" (JInt 1) (body_dict data))
               = inl 3) by reflexivity.
  assert (H6 : 1 <= 3) by lia.
  assert (H7 : get_product Sample.shop 2 = Some Sample.productB) by reflexivity.
  assert (H8 : seller_id Sample.productB <> 2) by discriminate.
  assert (H9 : commit_ok Sample.bob_env = true) by reflexivity.
  assert (H10 : cart_row Sample.shop 2 2 =
                Some {| ci_user_id := 2; ci_product_id := 2; quantity := 1 |})
    by reflexivity.
  destruct (add_to_cart_spec Sample.bob_env data Sample.shop 2 Sample.bob 2 3
              H1 H2 H3 H4 H5) as (_ & _ & _ & Hadd).
  destruct (Hadd H6 Sample.productB H7 H8 H9) as (Hfound & _).
  destruct (Hfound _ H10) as (Hrow & _ & _ & _ & Hstatus).
  assert (H11 : 1 <= quantity
                  {| ci_user_id := 2; ci_product_id := 2; quantity := 1 |})
    by (simpl; lia).
  pose proof (Hstatus H11) as H200.
  repeat split; assumption.
Defined.

Section UpdateCartItem.
Context {RT : Runtime}.

Lemma length_remove_first {A} (p : A -> bool) (l : list A) (x : A) :
  find p l = Some x -> S (List.length (remove_first p l)) = List.length l.
Proof.
  induction l as [|y l IH]; simpl; [discriminate|].
  destruct (p y); intros H; [reflexivity|]. simpl. now rewrite IH.
Qed.

Lemma update_cart_item_typed (e : Env) (pid : Z) (data : option dict)
    (s : State) (uid : Z) (u : User) (quantity_req : json) (qty : Z)
    (found : CartItem) :
  current_user_id e = inr uid ->
  get_user s uid = Some u ->
  body_missing data = false ->
  dict_lookup "quantity" (body_dict data) = Some quantity_req ->
  py_int quantity_req = inl qty ->
  cart_row s uid pid = Some found ->
  commit_ok e = true ->
  update_cart_item_quantity e pid data s =
    (with_cart_items s
       (if qty <? 1 then remove_first (cart_row_of uid pid) (cart_items s)
        else update_first (cart_row_of uid pid) (set_quantity qty) (cart_items s)),
     respond 200
       (PCartChange
          (if qty <? 1 then "Item removed from cart as quantity was less than 1."
           else "Cart item quantity updated.")
          (if qty >=? 1 then Some (set_quantity qty found) else None)
          (cart_of
             (with_cart_items s
                (if qty <? 1 then remove_first (cart_row_of uid pid) (cart_items s)
                 else update_first (cart_row_of uid pid) (set_quantity qty)
                        (cart_items s))) uid))).
Proof.
  intros Hc Hu Hb Hq Hi Hf Hok. unfold update_cart_item_quantity.
  now rewrite Hc, Hu, Hb, Hq, Hi, Hf, Hok.
Qed.

(** C5.  Updating a cart item, for a known user and an integer quantity:
    without a cart row of the user for the product the call fails with
    NotFound and changes nothing; with one (the commit accepted) the call
    succeeds, no row of another user or product changes, and for a quantity
    below 1 one row is removed and, rows being unique per user and product,
    none is left for that product, while for a quantity of at least 1 the
    row's quantity afterwards is exactly the given one and no row is added or
    removed. *)
Theorem update_cart_item_quantity_spec (e : Env) (pid : Z)
    (data : option dict) (s : State) (uid : Z) (u : User)
    (quantity_req : json) (qty : Z) :
  current_user_id e = inr uid ->
  get_user s uid = Some u ->
  body_missing data = false ->
  dict_lookup "quantity" (body_dict data) = Some quantity_req ->
  py_int quantity_req = inl qty ->
  (cart_row s uid pid = None ->
     fails_with NotFound (snd (update_cart_item_quantity e pid data s)) /\
     fst (update_cart_item_quantity e pid data s) = s) /\
  (forall found, cart_row s uid pid = Some found -> commit_ok e = true ->
     succeeds (snd (update_cart_item_quantity e pid data s)) /\
     filter (fun c => negb (cart_row_of uid pid c))
       (cart_items (fst (update_cart_item_quantity e pid data s))) =
     filter (fun c => negb (cart_row_of uid pid c)) (cart_items s) /\
     (qty < 1 ->
        S (List.length (cart_items (fst (update_cart_item_quantity e pid data s))))
          = List.length (cart_items s) /\
        (cart_unique s ->
           cart_row (fst (update_cart_item_quantity e pid data s)) uid pid = None)) /\
     (1 <= qty ->
        cart_row (fst (update_cart_item_quantity e pid data s)) uid pid =
          Some {| ci_user_id := ci_user_id found;
                  ci_product_id := ci_product_id found;
                  quantity := qty |} /\
        List.length (cart_items (fst (update_cart_item_quantity e pid data s)))
          = List.length (cart_items s))).
Proof.
  intros Hc Hu Hb Hq Hi. split.
  - intros Hnone. unfold update_cart_item_quantity.
    rewrite Hc, Hu, Hb, Hq, Hi, Hnone. split; reflexivity.
  - intros found Hfound Hok.
    rewrite (update_cart_item_typed e pid data s uid u quantity_req qty found
               Hc Hu Hb Hq Hi Hfound Hok).
    simpl. split; [reflexivity|]. split; [|split].
    + destruct (qty <? 1).
      * apply others_remove_first.
      * apply others_update_first. intros x Hx. exact Hx.
    + intros Hlt. apply Z.ltb_lt in Hlt. rewrite Hlt. split.
      * now apply (length_remove_first _ _ found).
      * intros Huniq. unfold cart_row. simpl.
        now apply unique_remove_first.
    + intros Hge. apply Z.ltb_ge in Hge. rewrite Hge. split.
      * unfold cart_row. simpl.
        apply (find_update_first _ (set_quantity qty) _ found Hfound).
        unfold cart_row in Hfound. now apply find_some in Hfound.
      * apply length_update_first.
Qed.

End UpdateCartItem.

Lemma update_cart_item_quantity_spec_witness :
  let data : option (@dict Demo.runtime) := Some [("quantity", JInt 0)] in
  current_user_id (RT := Demo.runtime) Sample.bob_env = inr 2 /\
  get_user Sample.shop 2 = Some Sample.bob /\
  body_missing data = false /\
  dict_lookup "quantity" (body_dict data) = Some (JInt 0) /\
  py_int (RT := Demo.runtime) (JInt 0) = inl 0 /\
  cart_row Sample.shop 2 1 =
    Some {| ci_user_id := 2; ci_product_id := 1; quantity := 2 |} /\
  commit_ok Sample.bob_env = true /\
  0 < 1 /\
  cart_unique Sample.shop /\
  cart_row (fst (update_cart_item_quantity Sample.bob_env 1 data Sample.shop))
    2 1 = None.
Proof.
  intros data.
  assert (H1 : current_user_id (RT := Demo.runtime) Sample.bob_env = inr 2)
    by reflexivity.
  assert (H2 : get_user Sample.shop 2 = Some Sample.bob) by reflexivity.
  assert (H3 : body_missing data = false) by reflexivity.
  assert (H4 : dict_lookup "quantity" (body_dict data) = Some (JInt 0))
    by reflexivity.
  assert (H5 : py_int (RT := Demo.runtime) (JInt 0) = inl 0) by reflexivity.
  assert (H6 : cart_row Sample.shop 2 1 =
               Some {| ci_user_id := 2; ci_product_id := 1; quantity := 2 |})
    by reflexivity.
  assert (H7 : commit_ok Sample.bob_env = true) by reflexivity.
  assert (H8 : 0 < 1) by lia.
  assert (H9 : cart_unique Sample.shop).
  { unfold cart_unique. simpl.
    constructor; [intros [H|[]]; discriminate H|].
    constructor; [simpl; tauto | constructor]. }
  destruct (update_cart_item_quantity_spec Sample.bob_env 1 data Sample.shop 2
              Sample.bob (JInt 0) 0 H1 H2 H3 H4 H5) as (_ & Hupd).
  destruct (Hupd _ H6 H7) as (_ & _ & Hdel & _).
  destruct (Hdel H8) as (_ & Habsent).
  exact (conj H1 (conj H2 (conj H3 (conj H4 (conj H5 (conj H6 (conj H7
           (conj H8 (conj H9 (Habsent H9)))))))))).
Defined.

(** Setting bob's first row to 5 changes that row only; setting it to 0
    removes it. *)
Example update_cart_item_sample :
  cart_items
    (fst (update_cart_item_quantity Sample.bob_env 1
            (Some [("quantity", JInt 5)]) Sample.shop)) =
    [ {| ci_user_id := 2; ci_product_id := 1; quantity := 5 |};
      {| ci_user_id := 2; ci_product_id := 2; quantity := 1 |} ] /\
  cart_items
    (fst (update_cart_item_quantity Sample.bob_env 1
            (Some [("quantity", JInt 0)]) Sample.shop)) =
    [ {| ci_user_id := 2; ci_product_id := 2; quantity := 1 |} ].
Proof. split; reflexivity. Qed.

Section Wishlist.
Context {RT : Runtime}.

Lemma add_to_wishlist_failure_keeps_store (e : Env) (pid : Z) (s : State) :
  status (snd (add_to_wishlist e pid s)) <> 201 ->
  fst (add_to_wishlist e pid s) = s.
Proof.
  unfold add_to_wishlist. repeat (destruct_match; simpl; try reflexivity).
  intros H. now elim H.
Qed.

Lemma remove_from_wishlist_failure_keeps_store (e : Env) (pid : Z) (s : State) :
  status (snd (remove_from_wishlist e pid s)) <> 200 ->
  fst (remove_from_wishlist e pid s) = s.
Proof.
  unfold remove_from_wishlist. repeat (destruct_match; simpl; try reflexivity).
  intros H. now elim H.
Qed.

(** Where no user holds a product of their own, a product the user sells is
    not in the user's wishlist. *)
Lemma own_product_not_in_wishlist (s : State) (uid pid : Z) (p : Product) :
  no_own_product s -> get_product s pid = Some p -> seller_id p = uid ->
  in_wishlist s uid pid = false.
Proof.
  intros [_ Hw] Hp Hown. unfold in_wishlist.
  destruct (existsb (wishlist_row_of uid pid) (wishlist_items s)) eqn:Hex;
    [|reflexivity].
  apply existsb_exists in Hex as (w & Hin & Hrow).
  unfold wishlist_row_of in Hrow. apply andb_true_iff in Hrow as [Hf Hs].
  apply Z.eqb_eq in Hf, Hs. exfalso.
  apply (Hw w p Hin); [now rewrite Hs | now rewrite Hf].
Qed.

(** C8.  For a known user: adding to the wishlist fails with NotFound when
    the product is absent, with Conflict when it is already in the user's
    wishlist, and with Forbidden when the user sells it (the membership test
    coming first, which matters only where a user's own product is already
    in their wishlist); removing fails with NotFound when the product is
    absent or not in the user's wishlist; each of these leaves the store as
    it was, and so does every failure of either call, so that no membership
    row is added, duplicated or removed. *)
Theorem wishlist_failures (e : Env) (pid : Z) (s : State) (uid : Z) (u : User) :
  current_user_id e = inr uid ->
  get_user s uid = Some u ->
  (get_product s pid = None ->
     fails_with NotFound (snd (add_to_wishlist e pid s)) /\
     fst (add_to_wishlist e pid s) = s) /\
  (forall p, get_product s pid = Some p -> in_wishlist s uid pid = true ->
     fails_with Conflict (snd (add_to_wishlist e pid s)) /\
     fst (add_to_wishlist e pid s) = s) /\
  (forall p, get_product s pid = Some p -> seller_id p = uid ->
     in_wishlist s uid pid = false \/ no_own_product s ->
     fails_with Forbidden (snd (add_to_wishlist e pid s)) /\
     fst (add_to_wishlist e pid s) = s) /\
  (get_product s pid = None \/ in_wishlist s uid pid = false ->
     fails_with NotFound (snd (remove_from_wishlist e pid s)) /\
     fst (remove_from_wishlist e pid s) = s) /\
  (~ succeeds (snd (add_to_wishlist e pid s)) ->
     wishlist_items (fst (add_to_wishlist e pid s)) = wishlist_items s /\
     fst (add_to_wishlist e pid s) = s) /\
  (~ succeeds (snd (remove_from_wishlist e pid s)) ->
     wishlist_items (fst (remove_from_wishlist e pid s)) = wishlist_items s /\
     fst (remove_from_wishlist e pid s) = s).
Proof.
  intros Hc Hu. repeat apply conj.
  - intros Hnone. unfold add_to_wishlist. rewrite Hc, Hu, Hnone.
    split; reflexivity.
  - intros p Hp Hin. unfold add_to_wishlist. rewrite Hc, Hu, Hp, Hin.
    split; reflexivity.
  - intros p Hp Hown Hnot.
    assert (Hin : in_wishlist s uid pid = false).
    { destruct Hnot as [H|H]; [exact H|].
      exact (own_product_not_in_wishlist s uid pid p H Hp Hown). }
    unfold add_to_wishlist. rewrite Hc, Hu, Hp, Hin.
    apply Z.eqb_eq in Hown. rewrite Hown. split; reflexivity.
  - intros Hcase. unfold remove_from_wishlist. rewrite Hc, Hu.
    destruct (get_product s pid) as [p|] eqn:Hp.
    + destruct Hcase as [H|H]; [discriminate|]. rewrite H. split; reflexivity.
    + split; reflexivity.
  - intros Hfail.
    assert (Hs : fst (add_to_wishlist e pid s) = s).
    { apply add_to_wishlist_failure_keeps_store. intros H. apply Hfail.
      unfold succeeds. now rewrite H. }
    now rewrite Hs.
  - intros Hfail.
    assert (Hs : fst (remove_from_wishlist e pid s) = s).
    { apply remove_from_wishlist_failure_keeps_store. intros H. apply Hfail.
      unfold succeeds. now rewrite H. }
    now rewrite Hs.
Qed.

End Wishlist.

Lemma wishlist_failures_witness :
  current_user_id (RT := Demo.runtime) Sample.bob_env = inr 2 /\
  get_user Sample.wishing 2 = Some Sample.bob /\
  get_product Sample.wishing 1 = Some Sample.productA /\
  in_wishlist Sample.wishing 2 1 = true /\
  fails_with Conflict (snd (add_to_wishlist Sample.bob_env 1 Sample.wishing)) /\
  fst (add_to_wishlist Sample.bob_env 1 Sample.wishing) = Sample.wishing.
Proof.
  assert (H1 : current_user_id (RT := Demo.runtime) Sample.bob_env = inr 2)
    by reflexivity.
  assert (H2 : get_user Sample.wishing 2 = Some Sample.bob) by reflexivity.
  assert (H3 : get_product Sample.wishing 1 = Some Sample.productA)
    by reflexivity.
  assert (H4 : in_wishlist Sample.wishing 2 1 = true) by reflexivity.
  destruct (wishlist_failures Sample.bob_env 1 Sample.wishing 2 Sample.bob H1 H2)
    as (_ & Hconflict & _).
  exact (conj H1 (conj H2 (conj H3 (conj H4 (Hconflict _ H3 H4))))).
Defined.

(** Bob's wishlist holds the first product: adding it again is a Conflict,
    adding the second succeeds, removing the second is NotFound, and alice
    may not wish for what she sells. *)
Example wishlist_sample :
  status (snd (add_to_wishlist Sample.bob_env 1 Sample.wishing)) = 409 /\
  wishlist_items (fst (add_to_wishlist Sample.bob_env 2 Sample.wishing)) =
    [(2, 1); (2, 2)] /\
  status (snd (remove_from_wishlist Sample.bob_env 2 Sample.wishing)) = 404 /\
  wishlist_items (fst (remove_from_wishlist Sample.bob_env 1 Sample.wishing)) = [] /\
  status (snd (add_to_wishlist Sample.alice_env 2 Sample.wishing)) = 403.
Proof. repeat split; reflexivity. Qed.

Section Register.
Context {RT : Runtime}.

Lemma existsb_false_not_in {A B} (f : A -> B) (eqb : B -> B -> bool)
    (eqb_eq : forall x y, eqb x y = true <-> x = y) (l : list A) (b : B) :
  existsb (fun a => eqb (f a) b) l = false -> ~ In b (map f l).
Proof.
  intros Hex Hin. apply in_map_iff in Hin as (a & Ha & Hin).
  assert (Htrue : existsb (fun a => eqb (f a) b) l = true).
  { apply existsb_exists. exists a. split; [exact Hin | now apply eqb_eq]. }
  congruence.
Qed.

Lemma NoDup_snoc {A} (l : list A) (x : A) :
  NoDup l -> ~ In x l -> NoDup (l ++ [x]).
Proof.
  intros Hnd Hx. apply NoDup_app; [exact Hnd | repeat constructor; auto |].
  intros y Hy [<-|[]]. contradiction.
Qed.

Lemma text_body_present (d : dict) (key x : string) :
  dict_get key d = JStr x -> json_missing (Some (JObj d)) = false.
Proof.
  destruct d as [|kv d]; simpl; [discriminate | reflexivity].
Qed.

(** The handler once the three fields are non-empty strings. *)
Lemma register_typed (e : Env) (d : dict) (s : State) (em un pw : string) :
  dict_get "email" d = JStr em ->
  dict_get "username" d = JStr un ->
  dict_get "password" d = JStr pw ->
  em <> "" -> un <> "" -> pw <> "" ->
  register e (Some (JObj d)) s =
    if py_len pw <? 6 then
      (s, message 400 "Password must be at least 6 characters long")
    else if email_taken s em then (s, message 409 "Email already exists")
    else if username_taken s un then (s, message 409 "Username already exists")
    else if commit_ok e then
      (with_users s
         (users s ++
          [{| user_id := next_user_id s; email := em; username := un;
              password_hash := password_hash_of pw;
              profile_image := dict_get "profileImage" d |}])
         (next_user_id s + 1),
       respond 201
         (PAuth (access_token_for (str_of_int (next_user_id s)))
            (refresh_token_for (str_of_int (next_user_id s)))
            {| user_id := next_user_id s; email := em; username := un;
               password_hash := password_hash_of pw;
               profile_image := dict_get "profileImage" d |}))
    else (s, message 500 "Registration failed due to a server error").
Proof.
  intros He Hn Hp Hem Hun Hpw. unfold register.
  rewrite (text_body_present d "email" em He), He, Hn, Hp. simpl.
  apply String.eqb_neq in Hem, Hun, Hpw. rewrite Hem, Hun, Hpw. simpl.
  reflexivity.
Qed.

(** The handler when a field of the object is missing, empty or not a
    string. *)
Lemma register_untyped (e : Env) (d : dict) (s : State) :
  nonempty_text (dict_get "email" d)
  && nonempty_text (dict_get "username" d)
  && nonempty_text (dict_get "password" d) = false ->
  exists m, register e (Some (JObj d)) s = (s, message 400 m).
Proof.
  unfold register. destruct (json_missing (Some (JObj d)));
    [eexists; reflexivity|].
  generalize (dict_get "profileImage" d).
  generalize (dict_get "email" d).
  generalize (dict_get "username" d).
  generalize (dict_get "password" d).
  intros pw un em img H.
  destruct (negb (truthy em) || negb (truthy un) || negb (truthy pw)) eqn:Ht;
    [eexists; reflexivity|].
  apply orb_false_iff in Ht as [Ht Hpw]. apply orb_false_iff in Ht as [Hem Hun].
  apply negb_false_iff in Hem, Hun, Hpw.
  destruct em; try (eexists; reflexivity).
  destruct un; try (eexists; reflexivity).
  destruct pw; try (eexists; reflexivity).
  simpl in H, Hem, Hun, Hpw. rewrite Hem, Hun, Hpw in H. discriminate.
Qed.

(** The handler on a body that is there and is no object. *)
Lemma register_not_object (e : Env) (body : json) (s : State) :
  truthy body = true ->
  (forall d, body <> JObj d) ->
  register e (Some body) s = (s, unhandled AttributeError).
Proof.
  intros Ht Hno. unfold register, json_missing. rewrite Ht. simpl.
  destruct body; try reflexivity. now elim (Hno l).
Qed.

Lemma register_failure_keeps_store (e : Env) (data : option json) (s : State) :
  status (snd (register e data s)) <> 201 -> fst (register e data s) = s.
Proof.
  unfold register. repeat (destruct_match; simpl; try reflexivity).
  intros H. now elim H.
Qed.

Lemma py_len_positive (pw : string) : 6 <= py_len pw -> pw <> "".
Proof. intros H ->. unfold py_len in H. simpl in H. lia. Qed.

Lemma taken_iff_held (s : State) (em un : string) :
  (exists u, In u (users s) /\ (email u = em \/ username u = un)) <->
  email_taken s em = true \/ username_taken s un = true.
Proof.
  unfold email_taken, username_taken. rewrite !existsb_exists. split.
  - intros (u & Hin & [H|H]); [left|right]; exists u;
      (split; [exact Hin | now apply String.eqb_eq]).
  - intros [(u & Hin & H)|(u & Hin & H)]; apply String.eqb_eq in H;
      exists u; auto.
Qed.

(** Registration with a body that is a JSON object.  With non-empty text
    fields and a password of at least 6 characters it fails with Conflict
    whenever a user already holds the email or the username; it fails with
    Validation whenever the password is a text shorter than 6 characters,
    and whenever one of email, username and password is missing, empty or
    not a text; with valid fields held by nobody and the commit accepted it
    succeeds, appends the new user and issues an access token (1 hour) and a
    refresh token (30 days) whose identity is the decimal text of the user's
    id; every failure leaves the store as it was; and unique emails and
    usernames stay unique. *)
Lemma register_object_body (e : Env) (d : dict) (s : State) :
  (forall em un pw,
     dict_get "email" d = JStr em ->
     dict_get "username" d = JStr un ->
     dict_get "password" d = JStr pw ->
     em <> "" -> un <> "" -> 6 <= py_len pw ->
     ((exists u, In u (users s) /\ (email u = em \/ username u = un)) ->
        fails_with Conflict (snd (register e (Some (JObj d)) s))) /\
     ((forall u, In u (users s) -> email u <> em /\ username u <> un) ->
      commit_ok e = true ->
        exists new_user,
          users (fst (register e (Some (JObj d)) s)) = users s ++ [new_user] /\
          email new_user = em /\ username new_user = un /\
          password_hash new_user = password_hash_of pw /\
          snd (register e (Some (JObj d)) s) =
            respond 201
              (PAuth
                 {| tok_identity := str_of_int (user_id new_user);
                    tok_refresh := false; tok_expires_seconds := 3600 |}
                 {| tok_identity := str_of_int (user_id new_user);
                    tok_refresh := true; tok_expires_seconds := 2592000 |}
                 new_user))) /\
  (forall pw,
     dict_get "password" d = JStr pw -> py_len pw < 6 ->
     fails_with Validation (snd (register e (Some (JObj d)) s))) /\
  (nonempty_text (dict_get "email" d)
   && nonempty_text (dict_get "username" d)
   && nonempty_text (dict_get "password" d) = false ->
     fails_with Validation (snd (register e (Some (JObj d)) s))) /\
  (~ succeeds (snd (register e (Some (JObj d)) s)) ->
     fst (register e (Some (JObj d)) s) = s) /\
  (users_unique s -> users_unique (fst (register e (Some (JObj d)) s))).
Proof.
  repeat apply conj.
  - intros em un pw He Hn Hp Hem Hun Hlen.
    rewrite (register_typed e d s em un pw He Hn Hp Hem Hun
               (py_len_positive pw Hlen)).
    apply Z.ltb_ge in Hlen. rewrite Hlen. split.
    + intros Hheld. apply taken_iff_held in Hheld.
      destruct (email_taken s em); [reflexivity|].
      destruct Hheld as [H|H]; [discriminate|]. now rewrite H.
    + intros Hfree Hok.
      assert (Hnot : ~ (email_taken s em = true \/ username_taken s un = true)).
      { rewrite <- taken_iff_held. intros (u & Hin & Hu).
        destruct (Hfree u Hin). tauto. }
      destruct (email_taken s em); [tauto|].
      destruct (username_taken s un); [tauto|].
      rewrite Hok. eexists. simpl. repeat split; reflexivity.
  - intros pw Hp Hlen.
    destruct (nonempty_text (dict_get "email" d)
              && nonempty_text (dict_get "username" d)
              && nonempty_text (dict_get "password" d)) eqn:Hty.
    + apply andb_true_iff in Hty as [Hty Hpw].
      apply andb_true_iff in Hty as [Hem Hun].
      destruct (dict_get "email" d) as [| | | |em| |] eqn:He;
        try discriminate.
      destruct (dict_get "username" d) as [| | | |un| |] eqn:Hn;
        try discriminate.
      rewrite Hp in Hpw. simpl in Hem, Hun, Hpw.
      apply negb_true_iff in Hem, Hun, Hpw.
      apply String.eqb_neq in Hem, Hun, Hpw.
      rewrite (register_typed e d s em un pw He Hn Hp Hem Hun Hpw).
      apply Z.ltb_lt in Hlen. now rewrite Hlen.
    + destruct (register_untyped e d s Hty) as (m & ->). reflexivity.
  - intros Hty. destruct (register_untyped e d s Hty) as (m & ->).
    reflexivity.
  - intros Hfail.
    apply register_failure_keeps_store. intros H. apply Hfail.
    unfold succeeds. now rewrite H.
  - intros [Hemails Hnames].
    destruct (nonempty_text (dict_get "email" d)
              && nonempty_text (dict_get "username" d)
              && nonempty_text (dict_get "password" d)) eqn:Hty.
    + apply andb_true_iff in Hty as [Hty Hpw].
      apply andb_true_iff in Hty as [Hem Hun].
      destruct (dict_get "email" d) as [| | | |em| |] eqn:He;
        try discriminate.
      destruct (dict_get "username" d) as [| | | |un| |] eqn:Hn;
        try discriminate.
      destruct (dict_get "password" d) as [| | | |pw| |] eqn:Hp;
        try discriminate.
      simpl in Hem, Hun, Hpw. apply negb_true_iff in Hem, Hun, Hpw.
      apply String.eqb_neq in Hem, Hun, Hpw.
      rewrite (register_typed e d s em un pw He Hn Hp Hem Hun Hpw).
      destruct (py_len pw <? 6); [split; assumption|].
      destruct (email_taken s em) eqn:Het; [split; assumption|].
      destruct (username_taken s un) eqn:Hut; [split; assumption|].
      destruct (commit_ok e); [|split; assumption].
      split; simpl; rewrite map_app; simpl; apply NoDup_snoc; try assumption.
      * exact (existsb_false_not_in email String.eqb String.eqb_eq _ _ Het).
      * exact (existsb_false_not_in username String.eqb String.eqb_eq _ _ Hut).
    + destruct (register_untyped e d s Hty) as (m & ->). split; assumption.
Qed.

(** C6, where the code departs from it.  A body that is JSON but no object
    (a non-empty list or text, a number other than 0, [true]) carries none
    of the required fields, and the claim has registration fail with
    Validation then.  The handler finds such a body present and calls
    [data.get] on it outside any [try]: the [AttributeError] is caught by
    nobody and the answer is 500, an Internal error, not Validation.  No
    user is created. *)
Theorem register_non_object_body (e : Env) (body : json) (s : State) :
  truthy body = true ->
  (forall d, body <> JObj d) ->
  snd (register e (Some body) s) = unhandled AttributeError /\
  fails_with Internal (snd (register e (Some body) s)) /\
  ~ fails_with Validation (snd (register e (Some body) s)) /\
  fst (register e (Some body) s) = s.
Proof.
  intros Ht Hno. rewrite (register_not_object e body s Ht Hno).
  repeat split. intros H. discriminate H.
Qed.

End Register.

Lemma register_non_object_body_witness :
  let body : @json Demo.runtime := JArr [JInt 1] in
  truthy body = true /\
  (forall d, body <> JObj d) /\
  status (snd (register Sample.alice_env (Some body) Sample.one_user)) = 500 /\
  fails_with Internal
    (snd (register Sample.alice_env (Some body) Sample.one_user)) /\
  ~ fails_with Validation
      (snd (register Sample.alice_env (Some body) Sample.one_user)) /\
  fst (register Sample.alice_env (Some body) Sample.one_user) = Sample.one_user.
Proof.
  intros body.
  assert (H1 : truthy body = true) by reflexivity.
  assert (H2 : forall d, body <> JObj d) by (intros d; discriminate).
  destruct (register_non_object_body Sample.alice_env body Sample.one_user H1 H2)
    as (Hresp & Hinternal & Hnot & Hstore).
  exact (conj H1 (conj H2 (conj (f_equal status Hresp)
           (conj Hinternal (conj Hnot Hstore))))).
Defined.

(** On a store with alice alone: bob registers and is given id 2 and tokens
    for the identity 2; a second alice is a Conflict; a password of five
    characters is a Validation failure; the body [[1]] is an Internal
    error. *)
Example register_sample :
  let bob_data : option (@json Demo.runtime) :=
    Some (JObj [("email", JStr "bob@example.org"); ("username", JStr "bob");
                ("password", JStr "builder")]) in
  map username (users (fst (register Sample.bob_env bob_data Sample.one_user)))
    = ["alice"; "bob"] /\
  snd (register Sample.bob_env bob_data Sample.one_user) =
    respond 201
      (PAuth {| tok_identity := "2"; tok_refresh := false;
                tok_expires_seconds := 3600 |}
             {| tok_identity := "2"; tok_refresh := true;
                tok_expires_seconds := 2592000 |}
             {| user_id := 2; email := "bob@example.org"; username := "bob";
                password_hash := "hash:builder"; profile_image := JNull |}) /\
  status (snd (register Sample.bob_env
                 (Some (JObj [("email", JStr "x@example.org");
                              ("username", JStr "alice");
                              ("password", JStr "secret")]))
                 Sample.one_user)) = 409 /\
  status (snd (register Sample.bob_env
                 (Some (JObj [("email", JStr "x@example.org");
                              ("username", JStr "xavier");
                              ("password", JStr "12345")]))
                 Sample.one_user)) = 400 /\
  snd (register Sample.bob_env (Some (JArr [JInt 1])) Sample.one_user) =
    unhandled AttributeError.
Proof. repeat split; reflexivity. Qed.

Section UpdateProfile.
Context {RT : Runtime}.

(** What [update_profile] does with a requested username, for a known user
    and a body that is there: a name that is not a text or is blank after
    trimming fails with Validation; a name other than the user's own that a
    user holds as it was sent (untrimmed) fails with Conflict; both leave the
    store as it was; and when the call succeeds the stored name is the
    trimmed one. *)
Lemma update_profile_username (e : Env) (data : option dict) (s : State)
    (uid : Z) (user : User) (v : json) :
  current_user_id e = inr uid ->
  get_user s uid = Some user ->
  body_missing data = false ->
  dict_lookup "username" (body_dict data) = Some v ->
  ((forall n, v = JStr n -> PyStr.strip n = "") ->
     fails_with Validation (snd (update_profile e data s)) /\
     fst (update_profile e data s) = s) /\
  (forall n, v = JStr n -> PyStr.strip n <> "" ->
     n <> username user -> username_taken s n = true ->
     fails_with Conflict (snd (update_profile e data s)) /\
     fst (update_profile e data s) = s) /\
  (forall n, v = JStr n -> succeeds (snd (update_profile e data s)) ->
     exists image,
       snd (update_profile e data s) =
         respond 200 (PUser (set_profile (PyStr.strip n) image user)) /\
       get_user (fst (update_profile e data s)) uid =
         Some (set_profile (PyStr.strip n) image user)).
Proof.
  intros Hc Hu Hb Hv. unfold update_profile. rewrite Hc, Hu, Hb.
  unfold requested_username. rewrite Hv. repeat apply conj.
  - intros Hblank. destruct v; try (split; reflexivity).
    rewrite (Hblank s0 eq_refl). simpl. split; reflexivity.
  - intros n -> Hstrip Hown Htaken.
    apply String.eqb_neq in Hstrip, Hown. rewrite Hstrip, Hown, Htaken.
    split; reflexivity.
  - intros n -> Hsucc.
    destruct (String.eqb (PyStr.strip n) ""); [discriminate Hsucc|].
    destruct (negb (String.eqb n (username user)) && username_taken s n);
      [discriminate Hsucc|].
    destruct (requested_profile_image user (body_dict data)) as [r|image] eqn:Hi.
    { unfold requested_profile_image in Hi.
      repeat destruct_match_in Hi; try discriminate Hi;
        injection Hi as <-; discriminate Hsucc. }
    destruct (commit_ok e); [|discriminate Hsucc].
    exists image. split; [reflexivity|].
    unfold get_user in *. simpl.
    apply (find_update_first _ (set_profile (PyStr.strip n) image) _ user Hu).
    simpl. now apply find_some in Hu.
Qed.

End UpdateProfile.

(** C7, where the code departs from it.  Bob asks for the username
    [" alice"].  The trimmed name, ["alice"], is held by another user, yet
    the collision test is made on the untrimmed text, which nobody holds: the
    call answers 200 instead of Conflict and two users are named ["alice"]
    afterwards. *)
Theorem update_profile_trimmed_collision :
  let data : option (@dict Demo.runtime) := Some [("username", JStr " alice")] in
  get_user Sample.shop 2 = Some Sample.bob /\
  username_taken Sample.shop (PyStr.strip " alice") = true /\
  status (snd (update_profile Sample.bob_env data Sample.shop)) = 200 /\
  map username (users (fst (update_profile Sample.bob_env data Sample.shop))) =
    ["alice"; "alice"] /\
  ~ users_unique (fst (update_profile Sample.bob_env data Sample.shop)).
Proof.
  repeat split; try reflexivity.
  intros [_ Hnames].
  change (NoDup ["alice"; "alice"]) in Hnames.
  inversion Hnames as [|x l Hnotin _]. apply Hnotin. now left.
Qed.

(** ** Ordering and paging *)

Section Ordering.
Context {A : Type} (key : A -> Z).

Lemma in_firstn (n : nat) (l : list A) (x : A) : In x (firstn n l) -> In x l.
Proof.
  intros H. rewrite <- (firstn_skipn n l). apply in_or_app. now left.
Qed.

Lemma in_skipn (n : nat) (l : list A) (x : A) : In x (skipn n l) -> In x l.
Proof.
  intros H. rewrite <- (firstn_skipn n l). apply in_or_app. now right.
Qed.

Lemma insert_desc_perm (x : A) (l : list A) :
  Permutation (x :: l) (insert_desc key x l).
Proof.
  induction l as [|y l IH]; simpl; [reflexivity|].
  destruct (key x <? key y); [|reflexivity].
  rewrite perm_swap. now apply perm_skip.
Qed.

Lemma order_by_desc_perm (l : list A) : Permutation l (order_by_desc key l).
Proof.
  induction l as [|x l IH]; simpl; [reflexivity|].
  rewrite <- insert_desc_perm. now apply perm_skip.
Qed.

Lemma insert_desc_sorted (x : A) (l : list A) :
  StronglySorted (newest_first key) l ->
  StronglySorted (newest_first key) (insert_desc key x l).
Proof.
  induction 1 as [|y l Hs IH Hy]; simpl.
  - repeat constructor.
  - destruct (key x <? key y) eqn:Hxy.
    + apply Z.ltb_lt in Hxy. constructor; [exact IH|].
      apply (Permutation_Forall (insert_desc_perm x l)).
      constructor; [unfold newest_first; lia | exact Hy].
    + apply Z.ltb_ge in Hxy. constructor; [now constructor|].
      constructor; [exact Hxy|].
      apply (Forall_impl _ (P := newest_first key y)); [|exact Hy].
      unfold newest_first. intros z Hz. lia.
Qed.

Lemma order_by_desc_sorted (l : list A) :
  StronglySorted (newest_first key) (order_by_desc key l).
Proof.
  induction l as [|x l IH]; simpl; [constructor|].
  now apply insert_desc_sorted.
Qed.

Lemma sorted_skipn (n : nat) (l : list A) :
  StronglySorted (newest_first key) l -> StronglySorted (newest_first key) (skipn n l).
Proof.
  revert l. induction n as [|n IH]; intros l Hs; [exact Hs|].
  destruct l as [|x l]; [constructor|]. simpl.
  apply IH. now inversion Hs.
Qed.

Lemma sorted_firstn (n : nat) (l : list A) :
  StronglySorted (newest_first key) l -> StronglySorted (newest_first key) (firstn n l).
Proof.
  revert l. induction n as [|n IH]; intros l Hs; [constructor|].
  destruct l as [|x l]; [constructor|]. simpl.
  inversion Hs as [|y l' Hs' Hx]; subst. constructor; [now apply IH|].
  apply Forall_forall. intros z Hz. apply in_firstn in Hz.
  revert z Hz. now apply Forall_forall.
Qed.

Lemma in_slice (n m : nat) (l : list A) (x : A) :
  In x (firstn n (skipn m l)) -> In x l.
Proof.
  intros H. apply in_firstn in H. revert H. apply in_skipn.
Qed.

End Ordering.

Section CaseInsensitive.

Lemma lower_empty (x y : string) :
  PyStr.lower x = PyStr.lower y -> String.eqb x "" = String.eqb y "".
Proof.
  destruct x, y; simpl; intros H; try reflexivity; discriminate.
Qed.

Lemma ilike_lower (column column' pattern pattern' : string) :
  PyStr.lower column = PyStr.lower column' ->
  PyStr.lower pattern = PyStr.lower pattern' ->
  PyStr.ilike column pattern = PyStr.ilike column' pattern'.
Proof.
  unfold PyStr.ilike. now intros -> ->.
Qed.

End CaseInsensitive.

Section Arithmetic.

Lemma ceil_div_lt (p n t : Z) :
  1 <= n -> 0 <= t -> (p < (t + n - 1) / n <-> p * n < t).
Proof.
  intros Hn Ht. split.
  - intros H.
    assert (Hq : (p + 1) <= (t + n - 1) / n) by lia.
    assert (Hm : (p + 1) * n <= t + n - 1).
    { etransitivity; [apply Z.mul_le_mono_nonneg_r; [lia | exact Hq]|].
      rewrite Z.mul_comm. apply Z.mul_div_le. lia. }
    lia.
  - intros H.
    assert (Hq : p + 1 <= (t + n - 1) / n)
      by (apply Z.div_le_lower_bound; lia).
    lia.
Qed.

(** The number of pages [(t + n - 1) / n] is the least one whose pages of
    [n] hold [t] rows. *)
Lemma ceil_div_bounds (n t : Z) :
  1 <= n -> 0 < t ->
  ((t + n - 1) / n - 1) * n < t <= (t + n - 1) / n * n.
Proof.
  intros Hn Ht.
  pose proof (Z.mul_div_le (t + n - 1) n ltac:(lia)) as Hlow.
  pose proof (Z.mul_succ_div_gt (t + n - 1) n ltac:(lia)) as Hhigh.
  lia.
Qed.

End Arithmetic.

Section Patterns.

Lemma lower_char_plain (c : ascii) :
  Plain.plain_char (PyStr.lower_char c) = Plain.plain_char c.
Proof.
  destruct c as [b0 b1 b2 b3 b4 b5 b6 b7].
  destruct b0, b1, b2, b3, b4, b5, b6, b7; reflexivity.
Qed.

Lemma lower_char_twice (c : ascii) :
  PyStr.lower_char (PyStr.lower_char c) = PyStr.lower_char c.
Proof.
  destruct c as [b0 b1 b2 b3 b4 b5 b6 b7].
  destruct b0, b1, b2, b3, b4, b5, b6, b7; reflexivity.
Qed.

Lemma plain_lower (s : string) : Plain.plain (PyStr.lower s) = Plain.plain s.
Proof.
  induction s as [|c s IH]; simpl; [reflexivity|].
  now rewrite lower_char_plain, IH.
Qed.

Lemma lower_twice (s : string) : PyStr.lower (PyStr.lower s) = PyStr.lower s.
Proof.
  induction s as [|c s IH]; simpl; [reflexivity|].
  now rewrite lower_char_twice, IH.
Qed.

Lemma lower_append (a b : string) :
  PyStr.lower (String.append a b) =
  String.append (PyStr.lower a) (PyStr.lower b).
Proof.
  induction a as [|c a IH]; simpl; [reflexivity|]. now rewrite IH.
Qed.

Lemma chars_append (a b : string) :
  list_ascii_of_string (String.append a b) =
  list_ascii_of_string a ++ list_ascii_of_string b.
Proof.
  induction a as [|c a IH]; simpl; [reflexivity|]. now rewrite IH.
Qed.

Lemma chars_inj (a b : string) :
  list_ascii_of_string a = list_ascii_of_string b -> a = b.
Proof.
  intros H. rewrite <- (string_of_list_ascii_of_string a),
    <- (string_of_list_ascii_of_string b). now rewrite H.
Qed.

Lemma plain_chars (s : string) :
  Plain.plain s = forallb Plain.plain_char (list_ascii_of_string s).
Proof.
  induction s as [|c s IH]; simpl; [reflexivity|]. now rewrite IH.
Qed.

(** A pattern character that is no wildcard stands for itself. *)
Lemma like_plain_cons (c : ascii) (p v : list ascii) :
  Plain.plain_char c = true ->
  PyStr.like_chars (c :: p) v =
  match v with
  | [] => false
  | d :: v' => Ascii.eqb c d && PyStr.like_chars p v'
  end.
Proof.
  unfold Plain.plain_char. intros H. apply andb_true_iff in H as [H1 H2].
  apply negb_true_iff in H1, H2. simpl. now rewrite H1, H2.
Qed.

(** A pattern without wildcards matches itself and nothing else. *)
Lemma like_literal (p v : list ascii) :
  forallb Plain.plain_char p = true ->
  (PyStr.like_chars p v = true <-> p = v).
Proof.
  revert v. induction p as [|c p IH]; intros v Hp.
  - destruct v; simpl; split; intros H; try reflexivity; discriminate.
  - simpl in Hp. apply andb_true_iff in Hp as [Hc Hp].
    rewrite (like_plain_cons c p v Hc). destruct v as [|d v].
    + split; intros H; discriminate.
    + rewrite andb_true_iff, (IH v Hp), Ascii.eqb_eq. split.
      * intros [-> ->]. reflexivity.
      * intros H. injection H. auto.
Qed.

(** A leading [%] lets the rest of the pattern start anywhere. *)
Lemma like_percent (p v : list ascii) :
  PyStr.like_chars ("%"%char :: p) v = true <->
  exists before rest, v = before ++ rest /\ PyStr.like_chars p rest = true.
Proof.
  simpl. induction v as [|d v IH].
  - rewrite orb_false_r. split.
    + intros H. now exists [], [].
    + intros (before & rest & Hv & H).
      symmetry in Hv. apply app_eq_nil in Hv as [_ ->]. exact H.
  - rewrite orb_true_iff, IH. split.
    + intros [H|(before & rest & -> & H)].
      * now exists [], (d :: v).
      * now exists (d :: before), rest.
    + intros (before & rest & Hv & H). destruct before as [|b before].
      * simpl in Hv. subst rest. now left.
      * simpl in Hv. injection Hv as _ ->. right. now exists before, rest.
Qed.

Lemma like_only_percent (v : list ascii) :
  PyStr.like_chars ["%"%char] v = true.
Proof.
  apply like_percent. exists v, []. now rewrite app_nil_r.
Qed.

(** A pattern without wildcards followed by [%] matches what starts with
    it. *)
Lemma like_prefix (w v : list ascii) :
  forallb Plain.plain_char w = true ->
  (PyStr.like_chars (w ++ ["%"%char]) v = true <->
   exists after, v = w ++ after).
Proof.
  revert v. induction w as [|c w IH]; intros v Hw.
  - simpl app. split; [intros _; now exists v | intros _; apply like_only_percent].
  - simpl in Hw. apply andb_true_iff in Hw as [Hc Hw].
    change ((c :: w) ++ ["%"%char]) with (c :: (w ++ ["%"%char])).
    rewrite (like_plain_cons c _ v Hc). destruct v as [|d v].
    + split; [discriminate | intros (after & H); discriminate].
    + rewrite andb_true_iff, (IH v Hw), Ascii.eqb_eq. split.
      * intros [-> (after & ->)]. now exists after.
      * intros (after & H). injection H as -> ->. split; [reflexivity|].
        now exists after.
Qed.

(** The search term [%q%] for a text without wildcards matches the texts
    the lower-cased [q] occurs in, whatever their case. *)
Lemma ilike_search_term (column q : string) :
  Plain.plain q = true ->
  (PyStr.ilike column
     (String.append "%" (String.append (PyStr.lower q) "%")) = true <->
   Plain.occurs_in (PyStr.lower q) (PyStr.lower column)).
Proof.
  intros Hq. unfold PyStr.ilike.
  rewrite !lower_append, lower_twice. simpl PyStr.lower.
  rewrite chars_append, chars_append. simpl list_ascii_of_string at 1 3.
  change (["%"%char] ++ ?x) with ("%"%char :: x).
  simpl app at 1.
  rewrite like_percent. unfold Plain.occurs_in.
  assert (Hplain : forallb Plain.plain_char
                     (list_ascii_of_string (PyStr.lower q)) = true)
    by now rewrite <- plain_chars, plain_lower.
  split.
  - intros (before & rest & Hv & Hrest).
    apply (like_prefix _ _ Hplain) in Hrest as (after & ->).
    exists (string_of_list_ascii before), (string_of_list_ascii after).
    apply chars_inj.
    rewrite !chars_append, !list_ascii_of_string_of_list_ascii. exact Hv.
  - intros (before & after & Hv).
    exists (list_ascii_of_string before),
      (list_ascii_of_string (PyStr.lower q) ++ list_ascii_of_string after).
    split.
    + now rewrite Hv, !chars_append.
    + apply (like_prefix _ _ Hplain). now exists (list_ascii_of_string after).
Qed.

End Patterns.

Section Listing.
Context {RT : Runtime}.

Lemma category_matches_case (c c' : option string) (p p' : Product) :
  option_map PyStr.lower c = option_map PyStr.lower c' ->
  PyStr.lower (category p) = PyStr.lower (category p') ->
  category_matches c p = category_matches c' p'.
Proof.
  destruct c as [c|], c' as [c'|]; simpl; try discriminate;
    [|reflexivity].
  intros H Hp. injection H as H. unfold category_matches.
  rewrite (lower_empty c c' H), H, (ilike_lower _ _ _ _ Hp H). reflexivity.
Qed.

Lemma search_matches_case (q q' : option string) (p p' : Product) :
  option_map PyStr.lower q = option_map PyStr.lower q' ->
  PyStr.lower (title p) = PyStr.lower (title p') ->
  PyStr.lower (description p) = PyStr.lower (description p') ->
  search_matches q p = search_matches q' p'.
Proof.
  destruct q as [q|], q' as [q'|]; simpl; try discriminate;
    [|reflexivity].
  intros H Ht Hd. injection H as H. unfold search_matches.
  rewrite (lower_empty q q' H), H.
  rewrite (ilike_lower _ _ _ _ Ht eq_refl), (ilike_lower _ _ _ _ Hd eq_refl).
  reflexivity.
Qed.

(** Without wildcards the category test of the handler is the category
    match of the spec. *)
Lemma category_matches_selected (c : option string) (p : Product) :
  (forall x, c = Some x -> Plain.plain x = true) ->
  (category_matches c p = true <-> category_selected c p).
Proof.
  intros Hplain. destruct c as [c|]; simpl; [|tauto].
  specialize (Hplain c eq_refl). unfold same_ignoring_case.
  change (PyStr.lower "all") with "all".
  destruct (String.eqb c "") eqn:Hempty.
  { apply String.eqb_eq in Hempty. simpl. tauto. }
  destruct (String.eqb (PyStr.lower c) "all") eqn:Hall.
  { apply String.eqb_eq in Hall. simpl. tauto. }
  apply String.eqb_neq in Hempty, Hall. simpl.
  unfold PyStr.ilike. rewrite like_literal.
  - split.
    + intros H. right. right. symmetry. now apply chars_inj.
    + intros [H|[H|H]]; [contradiction | contradiction | now rewrite H].
  - now rewrite <- plain_chars, plain_lower.
Qed.

(** Without wildcards the search test of the handler is the substring match
    of the spec over title and description. *)
Lemma search_matches_selected (q : option string) (p : Product) :
  (forall x, q = Some x -> Plain.plain x = true) ->
  (search_matches q p = true <-> text_selected q p).
Proof.
  intros Hplain. destruct q as [q|]; simpl; [|tauto].
  specialize (Hplain q eq_refl). unfold occurs_ignoring_case.
  destruct (String.eqb q "") eqn:Hempty.
  { apply String.eqb_eq in Hempty. simpl. tauto. }
  apply String.eqb_neq in Hempty. simpl negb. cbv iota.
  rewrite orb_true_iff, !(ilike_search_term _ q Hplain). tauto.
Qed.

(** C9.  The product listing answers 200 with a page of the matching
    products and the count and page metadata.  The matching products are the
    products of the catalog that the category filter and the search select,
    as the spec words them (category equal to the filter, query a substring
    of title or description, letter case aside in both), the filters holding
    no [LIKE] wildcard.  The page holds the matches at positions [(p-1)*n] to
    [p*n - 1], newest first, for page [p] and page size [n], with the total,
    the page number, the number of pages and whether a next and a previous
    page exist.  With exactly 10 matching products, page 2 of size 8 has
    exactly 2 items, the two oldest, no next page and a previous page.
    Neither the case of the category filter and of the search text nor the
    case of a product's category, title and description changes what
    matches. *)
Theorem get_products_spec (a : ListArgs) (s : State) :
  (exists page rows,
     get_products a s = (s, respond 200 (PPage page)) /\
     Permutation rows (matching_products a s) /\
     StronglySorted (newest_first created_at) rows /\
     total_products page = Z.of_nat (List.length rows) /\
     (forall p n,
        int_arg (arg_page a) 1 = p -> int_arg (arg_per_page a) 8 = n ->
        1 <= p -> 1 <= n ->
        pg_products page =
          firstn (Z.to_nat n) (skipn (Z.to_nat ((p - 1) * n)) rows) /\
        current_page page = p /\
        (rows = [] -> total_pages page = 0) /\
        (rows <> [] ->
           (total_pages page - 1) * n < Z.of_nat (List.length rows)
             <= total_pages page * n) /\
        (has_next page = true <-> p * n < Z.of_nat (List.length rows)) /\
        (has_prev page = true <-> 1 < p)) /\
     (int_arg (arg_page a) 1 = 2 -> int_arg (arg_per_page a) 8 = 8 ->
      List.length (matching_products a s) = 10%nat ->
        exists x y,
          pg_products page = [x; y] /\
          rows = firstn 8 rows ++ [x; y] /\
          has_next page = false /\ has_prev page = true /\
          total_products page = 10 /\ total_pages page = 2 /\
          current_page page = 2)) /\
  (wildcard_free a ->
     exists keep,
       matching_products a s = filter keep (products s) /\
       forall p, keep p = true <-> selected a p) /\
  (forall a',
     option_map PyStr.lower (arg_category a) =
       option_map PyStr.lower (arg_category a') ->
     option_map PyStr.lower (arg_q a) = option_map PyStr.lower (arg_q a') ->
     matching_products a s = matching_products a' s) /\
  (forall p p',
     PyStr.lower (category p) = PyStr.lower (category p') ->
     PyStr.lower (title p) = PyStr.lower (title p') ->
     PyStr.lower (description p) = PyStr.lower (description p') ->
     category_matches (arg_category a) p = category_matches (arg_category a) p' /\
     search_matches (arg_q a) p = search_matches (arg_q a) p').
Proof.
  split; [|split; [|split]].
  - exists (paginate (int_arg (arg_page a) 1) (int_arg (arg_per_page a) 8)
              (order_by_desc created_at (matching_products a s))),
      (order_by_desc created_at (matching_products a s)).
    set (rows := order_by_desc created_at (matching_products a s)).
    assert (Hlen : List.length rows = List.length (matching_products a s)).
    { symmetry. apply Permutation_length, order_by_desc_perm. }
    split; [reflexivity|].
    split; [apply Permutation_sym, order_by_desc_perm|].
    split; [apply order_by_desc_sorted|].
    split; [reflexivity|].
    unfold paginate.
    cbn [pg_products has_next has_prev current_page total_pages total_products].
    split.
    + intros p n -> -> Hp Hn.
      apply Z.ltb_ge in Hp as Hp', Hn as Hn'. rewrite Hp', Hn'.
      split; [reflexivity|]. split; [reflexivity|].
      split.
      { intros ->. reflexivity. }
      split.
      { intros Hne.
        assert (Hpos : 0 < Z.of_nat (List.length rows))
          by (destruct rows; [now elim Hne | simpl; lia]).
        assert (Hz : (Z.of_nat (List.length rows) =? 0) = false)
          by (apply Z.eqb_neq; lia).
        rewrite Hz. now apply ceil_div_bounds. }
      split.
      { destruct (Z.of_nat (List.length rows) =? 0) eqn:Hz.
        - apply Z.eqb_eq in Hz. rewrite Z.ltb_lt. lia.
        - rewrite Z.ltb_lt. apply ceil_div_lt; lia. }
      rewrite Z.gtb_ltb, Z.ltb_lt. reflexivity.
    + intros Hpage Hper Hten. rewrite Hpage, Hper, Hlen, Hten.
      change (Z.to_nat (if 8 <? 1 then 20 else 8)) with 8%nat.
      change (Z.to_nat (((if 2 <? 1 then 1 else 2) - 1)
                        * (if 8 <? 1 then 20 else 8))) with 8%nat.
      assert (Htail : List.length (skipn 8 rows) = 2%nat)
        by (rewrite length_skipn, Hlen, Hten; reflexivity).
      destruct (skipn 8 rows) as [|x [|y [|z tail]]] eqn:Hskip;
        try discriminate Htail.
      exists x, y. split; [reflexivity|]. split.
      { rewrite <- Hskip. symmetry. apply firstn_skipn. }
      repeat split.
  - intros [Hcat Hq].
    exists (fun p => category_matches (arg_category a) p
                     && search_matches (arg_q a) p).
    split.
    + unfold matching_products.
      induction (products s) as [|p l IH]; simpl; [reflexivity|].
      destruct (category_matches (arg_category a) p); simpl.
      * destruct (search_matches (arg_q a) p); now rewrite IH.
      * exact IH.
    + intros p. unfold selected.
      rewrite andb_true_iff, (category_matches_selected _ p Hcat),
        (search_matches_selected _ p Hq).
      reflexivity.
  - intros a' Hc Hq. unfold matching_products.
    rewrite (filter_ext _ _
               (fun p => category_matches_case _ _ p p Hc eq_refl)).
    apply filter_ext. intros p.
    now apply search_matches_case.
  - intros p p' Hc Ht Hd. split.
    + now apply category_matches_case.
    + now apply search_matches_case.
Qed.

End Listing.

Lemma get_products_spec_witness :
  int_arg (RT := Demo.runtime) (arg_page Sample.second_page) 1 = 2 /\
  int_arg (RT := Demo.runtime) (arg_per_page Sample.second_page) 8 = 8 /\
  List.length (matching_products Sample.second_page Sample.catalog) = 10%nat /\
  wildcard_free Sample.second_page /\
  (exists page,
     get_products Sample.second_page Sample.catalog =
       (Sample.catalog, respond 200 (PPage page)) /\
     (exists x y, pg_products page = [x; y]) /\
     has_next page = false /\ has_prev page = true) /\
  (exists keep,
     matching_products Sample.second_page Sample.catalog =
       filter keep (products Sample.catalog) /\
     forall p, keep p = true <-> selected Sample.second_page p).
Proof.
  assert (H1 : int_arg (RT := Demo.runtime) (arg_page Sample.second_page) 1 = 2)
    by reflexivity.
  assert (H2 : int_arg (RT := Demo.runtime) (arg_per_page Sample.second_page) 8
               = 8) by reflexivity.
  assert (H3 : List.length (matching_products Sample.second_page Sample.catalog)
               = 10%nat) by reflexivity.
  assert (H4 : wildcard_free Sample.second_page).
  { split; intros x Hx; injection Hx as <-; reflexivity. }
  destruct (get_products_spec Sample.second_page Sample.catalog)
    as ((page & rows & Hresp & _ & _ & _ & _ & Hten) & Hkeep & _).
  destruct (Hten H1 H2 H3) as (x & y & Hitems & _ & Hnext & Hprev & _).
  exact (conj H1 (conj H2 (conj H3 (conj H4
           (conj (ex_intro _ page
                    (conj Hresp
                       (conj (ex_intro _ x (ex_intro _ y Hitems))
                          (conj Hnext Hprev))))
                 (Hkeep H4)))))).
Defined.

(** The second page of eight over the ten chairs holds the two oldest. *)
Example get_products_sample :
  exists page,
    snd (get_products Sample.second_page Sample.catalog) =
      respond 200 (PPage page) /\
    map product_id (pg_products page) = [2; 1] /\
    (total_products page, current_page page, total_pages page,
     has_next page, has_prev page) = (10, 2, 2, false, true).
Proof. eexists. repeat split. Qed.

(** ** Every request is one write *)

Section Writes.
Context {RT : Runtime}.

Ltac nothing_written :=
  repeat (destruct_match; simpl; try apply write_nothing).

Lemma register_writes e data s : Write s (fst (register e data s)).
Proof.
  unfold register. nothing_written. apply write_users.
Qed.

Lemma update_profile_writes e data s : Write s (fst (update_profile e data s)).
Proof.
  unfold update_profile. nothing_written. apply write_users.
Qed.

Lemma create_product_writes e req s : Write s (fst (create_product e req s)).
Proof.
  unfold create_product. nothing_written.
  apply write_new_product; [assumption | reflexivity].
Qed.

Lemma update_product_writes e pid req s :
  Write s (fst (update_product e pid req s)).
Proof.
  unfold update_product.
  destruct (current_user_id e) as [r|uid]; [apply write_nothing|].
  destruct (get_product s pid) as [product|] eqn:Hp; [|apply write_nothing].
  destruct (negb (seller_id product =? uid)); [apply write_nothing|].
  destruct (content_type req) as [ct|]; [|apply write_nothing].
  destruct (negb (PyStr.contains "multipart/form-data" ct));
    [apply write_nothing|].
  destruct (requested_price (form req) (price product)) as [r|price_v] eqn:Hprice;
    [apply write_nothing|].
  destruct (commit_ok e); [|apply write_nothing]. simpl.
  apply (write_product s pid product); try reflexivity; [exact Hp|]. simpl.
  unfold requested_price in Hprice.
  destruct (form_get "price" (form req)); [|left; congruence].
  destruct (float_of_str s0); [|discriminate].
  destruct (num_le0 n) eqn:Hle; [discriminate|]. right. congruence.
Qed.

Lemma delete_product_writes e pid s : Write s (fst (delete_product e pid s)).
Proof.
  unfold delete_product. nothing_written. apply write_no_product.
Qed.

Lemma add_to_cart_row_writes e uid pid qty s :
  1 <= qty -> Write s (fst (add_to_cart_row e uid pid qty s)).
Proof.
  intros Hqty. unfold add_to_cart_row.
  destruct (get_product s pid) as [product|] eqn:Hp; [|apply write_nothing].
  destruct (seller_id product =? uid) eqn:Hs; [apply write_nothing|].
  apply Z.eqb_neq in Hs.
  destruct (cart_row s uid pid); destruct (commit_ok e); simpl;
    try apply write_nothing.
  - now apply (write_more_quantity s uid pid qty product).
  - now apply (write_new_cart_row s uid pid qty product).
Qed.

Lemma add_to_cart_writes e data s : Write s (fst (add_to_cart e data s)).
Proof.
  unfold add_to_cart.
  repeat (destruct_match; simpl; try apply write_nothing);
    apply add_to_cart_row_writes; now apply Z.ltb_ge.
Qed.

Lemma update_cart_item_writes e pid data s :
  Write s (fst (update_cart_item_quantity e pid data s)).
Proof.
  unfold update_cart_item_quantity.
  repeat (destruct_match; simpl; try apply write_nothing).
  - apply write_no_cart_row.
  - apply write_quantity. now apply Z.ltb_ge.
Qed.

Lemma remove_from_cart_writes e pid s :
  Write s (fst (remove_from_cart e pid s)).
Proof.
  unfold remove_from_cart. nothing_written. apply write_no_cart_row.
Qed.

Lemma checkout_writes e s : Write s (fst (checkout e s)).
Proof.
  unfold checkout. nothing_written. apply write_purchase.
Qed.

Lemma add_to_wishlist_writes e pid s :
  Write s (fst (add_to_wishlist e pid s)).
Proof.
  unfold add_to_wishlist.
  repeat (destruct_match; simpl; try apply write_nothing).
  eapply write_wish; [eassumption|]. now apply Z.eqb_neq.
Qed.

Lemma remove_from_wishlist_writes e pid s :
  Write s (fst (remove_from_wishlist e pid s)).
Proof.
  unfold remove_from_wishlist. nothing_written. apply write_no_wish.
Qed.

Lemma handle_writes e r s : Write s (fst (handle e r s)).
Proof.
  destruct r; simpl.
  - apply register_writes.
  - unfold get_me. nothing_written.
  - apply update_profile_writes.
  - apply create_product_writes.
  - apply update_product_writes.
  - apply write_nothing.
  - unfold get_product_detail_route. nothing_written.
  - apply delete_product_writes.
  - unfold get_my_listings. nothing_written.
  - unfold get_cart_items. nothing_written.
  - apply add_to_cart_writes.
  - apply update_cart_item_writes.
  - apply remove_from_cart_writes.
  - apply checkout_writes.
  - unfold get_purchase_history. nothing_written.
  - unfold get_wishlist. nothing_written.
  - apply add_to_wishlist_writes.
  - apply remove_from_wishlist_writes.
Qed.

End Writes.

(** ** The invariants under each write *)

Section RowsMembership.
Context {A : Type} (p : A -> bool).

Lemma in_update_first (f : A -> A) (l : list A) (x : A) :
  In x (update_first p f l) ->
  In x l \/ exists y, In y l /\ p y = true /\ x = f y.
Proof.
  induction l as [|y l IH]; simpl; [tauto|].
  destruct (p y) eqn:Hy; simpl.
  - intros [<-|H]; [right; exists y; auto | auto].
  - intros [<-|H]; [auto|].
    destruct (IH H) as [H'|(z & Hz & Hpz & Hx)]; [auto|].
    right. exists z. auto.
Qed.

Lemma in_remove_first (l : list A) (x : A) :
  In x (remove_first p l) -> In x l.
Proof.
  induction l as [|y l IH]; simpl; [tauto|].
  destruct (p y); simpl; intuition.
Qed.

End RowsMembership.

Section Invariants.
Context {RT : Runtime}.

Lemma price_checked_write (s s' : State) :
  Write s s' -> price_checked s -> price_checked s'.
Proof.
  intros Hw Hinv.
  destruct Hw; try exact Hinv; unfold price_checked; simpl.
  - intros q Hq. apply in_app_or in Hq as [Hq|[<-|[]]]; [now apply Hinv|].
    assumption.
  - intros q Hq. apply in_update_first in Hq as [Hq|(y & _ & _ & ->)];
      [now apply Hinv|].
    destruct H2 as [Hsame|Hnew]; [|exact Hnew].
    rewrite Hsame. apply Hinv. unfold get_product in H.
    now apply find_some in H.
  - intros q Hq. apply filter_In in Hq as [Hq _]. now apply Hinv.
Qed.

Lemma quantity_positive_write (s s' : State) :
  Write s s' -> quantity_positive s -> quantity_positive s'.
Proof.
  intros Hw Hinv. destruct Hw; try exact Hinv; unfold quantity_positive; simpl.
  - intros c Hc. apply in_update_first in Hc as [Hc|(y & Hy & _ & ->)];
      [now apply Hinv|].
    simpl. specialize (Hinv y Hy). lia.
  - intros c Hc. apply in_app_or in Hc as [Hc|[<-|[]]]; [now apply Hinv|].
    exact H.
  - intros c Hc. apply in_update_first in Hc as [Hc|(y & Hy & _ & ->)];
      [now apply Hinv | exact H].
  - intros c Hc. apply in_remove_first in Hc. now apply Hinv.
  - intros c Hc. apply filter_In in Hc as [Hc _]. now apply Hinv.
Qed.

(** Looking a product up after the catalog was written. *)
Lemma find_snoc_other (l : list Product) (p : Product) (pid : Z) :
  product_id p <> pid ->
  find (fun q => product_id q =? pid) (l ++ [p]) =
  find (fun q => product_id q =? pid) l.
Proof.
  intros Hne. induction l as [|q l IH]; simpl.
  - apply Z.eqb_neq in Hne. now rewrite Hne.
  - destruct (product_id q =? pid); [reflexivity | exact IH].
Qed.

Lemma find_replaced (l : list Product) (new : Product) (pid pid' : Z) :
  product_id new = pid ->
  find (fun q => product_id q =? pid')
    (update_first (fun q => product_id q =? pid) (fun _ => new) l) =
  match find (fun q => product_id q =? pid') l with
  | Some q => if pid' =? pid then Some new else Some q
  | None => None
  end.
Proof.
  intros Hnew. induction l as [|q l IH]; simpl; [reflexivity|].
  destruct (product_id q =? pid) eqn:Hq; simpl.
  - apply Z.eqb_eq in Hq. rewrite Hnew, <- Hq, (Z.eqb_sym pid').
    destruct (product_id q =? pid'); [reflexivity|].
    destruct (find (fun q0 => product_id q0 =? pid') l); reflexivity.
  - destruct (product_id q =? pid') eqn:Hq'; [|exact IH].
    apply Z.eqb_eq in Hq'. rewrite <- Hq'. now rewrite Hq.
Qed.

Lemma find_deleted (l : list Product) (pid pid' : Z) (q : Product) :
  find (fun q => product_id q =? pid')
    (filter (fun q => negb (product_id q =? pid)) l) = Some q ->
  find (fun q => product_id q =? pid') l = Some q.
Proof.
  induction l as [|x l IH]; simpl; [discriminate|].
  destruct (product_id x =? pid) eqn:Hx; simpl.
  - intros H. pose proof (find_some _ _ H) as [Hin Hq].
    apply filter_In in Hin as [_ Hne]. apply negb_true_iff in Hne.
    apply Z.eqb_eq in Hx, Hq. apply Z.eqb_neq in Hne.
    destruct (product_id x =? pid') eqn:Hx'; [|now apply IH].
    apply Z.eqb_eq in Hx'. congruence.
  - destruct (product_id x =? pid'); [tauto | exact IH].
Qed.

(** The sellers a cart or wishlist row can meet are the sellers it could
    meet before the write, or the seller the handler has just checked. *)
Lemma holds_no_own_write (s s' : State) :
  Write s s' -> holds_no_own s -> holds_no_own s'.
Proof.
  intros Hw [[Hcart Hwish] (Hprod & Hcid & Hwid)].
  destruct Hw; try (split; [split|repeat split]; assumption).
  - (* a new product takes an id no row names *)
    split; [split|repeat split]; simpl.
    + intros c q Hc. unfold get_product. simpl.
      rewrite find_snoc_other; [now apply Hcart|].
      specialize (Hcid c Hc). lia.
    + intros w q Hw. unfold get_product. simpl.
      rewrite find_snoc_other; [now apply Hwish|].
      specialize (Hwid w Hw). lia.
    + intros q Hq. apply in_app_or in Hq as [Hq|[<-|[]]];
        [specialize (Hprod q Hq)|]; lia.
    + intros c Hc. specialize (Hcid c Hc). lia.
    + intros w Hw. specialize (Hwid w Hw). lia.
  - (* a product rewritten keeps its id and its seller *)
    pose proof (get_product_id _ _ _ H) as Hold.
    assert (Hseller : forall pid' q,
              get_product
                (with_products s
                   (update_first (fun p => product_id p =? pid) (fun _ => new)
                      (products s)) (next_product_id s)) pid' = Some q ->
              exists q0, get_product s pid' = Some q0 /\
                         seller_id q = seller_id q0).
    { intros pid' q. unfold get_product. simpl.
      rewrite (find_replaced _ new pid pid') by congruence.
      destruct (find (fun q0 => product_id q0 =? pid') (products s)) as [q0|]
        eqn:Hq0; [|discriminate].
      destruct (pid' =? pid) eqn:Hpid; intros Hq; injection Hq as <-.
      - apply Z.eqb_eq in Hpid. subst pid'. exists q0. split; [reflexivity|].
        unfold get_product in H. congruence.
      - now exists q0. }
    split; [split|repeat split]; simpl.
    + intros c q Hc Hq. destruct (Hseller _ _ Hq) as (q0 & Hq0 & ->).
      now apply (Hcart c q0).
    + intros w q Hw Hq. destruct (Hseller _ _ Hq) as (q0 & Hq0 & ->).
      now apply (Hwish w q0).
    + intros q Hq. apply in_update_first in Hq as [Hq|(y & Hy & _ & ->)].
      * now apply Hprod.
      * rewrite H0. apply Hprod. unfold get_product in H.
        now apply find_some in H.
    + exact Hcid.
    + exact Hwid.
  - (* a product deleted leaves the other lookups as they were *)
    split; [split|repeat split]; simpl.
    + intros c q Hc Hq. apply (Hcart c q Hc). revert Hq. apply find_deleted.
    + intros w q Hw Hq. apply (Hwish w q Hw). revert Hq. apply find_deleted.
    + intros q Hq. apply filter_In in Hq as [Hq _]. now apply Hprod.
    + exact Hcid.
    + exact Hwid.
  - (* a quantity raised keeps the row's user and product *)
    split; [split|repeat split]; simpl; try assumption.
    + intros c q Hc. apply in_update_first in Hc as [Hc|(y & Hy & _ & ->)];
        [now apply Hcart | exact (Hcart y q Hy)].
    + intros c Hc. apply in_update_first in Hc as [Hc|(y & Hy & _ & ->)];
        [now apply Hcid | exact (Hcid y Hy)].
  - (* a new cart row names a product of another seller *)
    split; [split|repeat split]; simpl; try assumption.
    + intros c q Hc. apply in_app_or in Hc as [Hc|[<-|[]]];
        [now apply Hcart|]. simpl. unfold get_product in *. simpl. congruence.
    + intros c Hc. apply in_app_or in Hc as [Hc|[<-|[]]]; [now apply Hcid|].
      simpl. pose proof (get_product_id _ _ _ H0) as <-.
      apply Hprod. unfold get_product in H0. now apply find_some in H0.
  - split; [split|repeat split]; simpl; try assumption.
    + intros c q Hc. apply in_update_first in Hc as [Hc|(y & Hy & _ & ->)];
        [now apply Hcart | exact (Hcart y q Hy)].
    + intros c Hc. apply in_update_first in Hc as [Hc|(y & Hy & _ & ->)];
        [now apply Hcid | exact (Hcid y Hy)].
  - split; [split|repeat split]; simpl; try assumption.
    + intros c q Hc. apply in_remove_first in Hc. now apply Hcart.
    + intros c Hc. apply in_remove_first in Hc. now apply Hcid.
  - split; [split|repeat split]; simpl; try assumption.
    + intros c q Hc. apply filter_In in Hc as [Hc _]. now apply Hcart.
    + intros c Hc. apply filter_In in Hc as [Hc _]. now apply Hcid.
  - (* a new wishlist row names a product of another seller *)
    split; [split|repeat split]; simpl; try assumption.
    + intros w q Hw. apply in_app_or in Hw as [Hw|[<-|[]]];
        [now apply Hwish|]. simpl. unfold get_product in *. simpl. congruence.
    + intros w Hw. apply in_app_or in Hw as [Hw|[<-|[]]]; [now apply Hwid|].
      simpl. pose proof (get_product_id _ _ _ H) as <-.
      apply Hprod. unfold get_product in H. now apply find_some in H.
  - split; [split|repeat split]; simpl; try assumption.
    + intros w q Hw. apply in_remove_first in Hw. now apply Hwish.
    + intros w Hw. apply in_remove_first in Hw. now apply Hwid.
Qed.

Lemma reachable_holds (s : State) :
  reachable s ->
  price_checked s /\ quantity_positive s /\ holds_no_own s.
Proof.
  induction 1 as [|e r s Hr (Hp & Hq & Hn)].
  - repeat split; repeat intro; simpl in *; contradiction.
  - pose proof (handle_writes e r s) as Hw. split; [|split].
    + now apply (price_checked_write s).
    + now apply (quantity_positive_write s).
    + now apply (holds_no_own_write s).
Qed.

(** What does hold of the data model.  Every request, whatever its outcome,
    keeps [price <= 0] false of every stored price and keeps every cart
    row's quantity at 1 or more; in every store the API can reach from the
    empty one these two hold, and (product ids being handed out once) no
    cart row and no wishlist row of a user names a product that user
    sells. *)
Lemma reachable_invariants :
  (forall e r s, price_checked s -> price_checked (fst (handle e r s))) /\
  (forall e r s, quantity_positive s -> quantity_positive (fst (handle e r s))) /\
  (forall s, reachable s ->
     price_checked s /\ quantity_positive s /\ no_own_product s).
Proof.
  repeat apply conj.
  - intros e r s. apply price_checked_write, handle_writes.
  - intros e r s. apply quantity_positive_write, handle_writes.
  - intros s Hr. destruct (reachable_holds s Hr) as (Hp & Hq & Hn & _).
    auto.
Qed.

Lemma no_missing_fields (t d c p : option string) :
  missing_fields [("title", t); ("description", d); ("category", c); ("price", p)]
    = [] <->
  field_missing t = false /\ field_missing d = false /\
  field_missing c = false /\ field_missing p = false.
Proof.
  unfold missing_fields. simpl.
  destruct (field_missing t), (field_missing d), (field_missing c),
    (field_missing p); simpl; split; intros H; try discriminate;
    try (repeat split; reflexivity);
    destruct H as (H1 & H2 & H3 & H4); discriminate.
Qed.

(** C3, where the code departs from it.  [create_product] turns a price
    down only when [price <= 0] holds of it.  A number of which neither
    [price <= 0] nor [price > 0] holds, as Python's not-a-number, which
    [float("nan")] gives, passes that test: for a known user and a complete
    multipart form the call answers 201, and the store it leaves, reachable
    when the store before was, holds a product whose price is not above 0.
    The price invariant of the data model fails there. *)
Theorem create_product_accepts_not_a_number (e : Env) (req : Multipart)
    (s : State) (uid : Z) (u : User) (ct : string) (x : number) :
  reachable s ->
  current_user_id e = inr uid ->
  get_user s uid = Some u ->
  content_type req = Some ct ->
  PyStr.contains "multipart/form-data" ct = true ->
  field_missing (form_get "title" (form req)) = false ->
  field_missing (form_get "description" (form req)) = false ->
  field_missing (form_get "category" (form req)) = false ->
  field_missing (form_get "price" (form req)) = false ->
  float_of_str (field_text (form_get "price" (form req))) = Some x ->
  num_le0 x = false ->
  num_gt0 x = false ->
  commit_ok e = true ->
  status (snd (create_product e req s)) = 201 /\
  reachable (fst (create_product e req s)) /\
  (exists p, In p (products (fst (create_product e req s))) /\
             price p = x /\ num_gt0 (price p) = false) /\
  ~ price_positive (fst (create_product e req s)).
Proof.
  intros Hr Hc Hu Hct Hmulti Ht Hd Hcat Hp Hfloat Hle Hgt Hok.
  assert (Hreach : reachable (fst (create_product e req s)))
    by exact (reachable_step e (CreateProduct req) s Hr).
  assert (Hm : missing_fields
                 [("title", form_get "title" (form req));
                  ("description", form_get "description" (form req));
                  ("category", form_get "category" (form req));
                  ("price", form_get "price" (form req))] = [])
    by (apply no_missing_fields; auto).
  assert (Hrun : create_product e req s =
            let new_product :=
              {| product_id := next_product_id s;
                 title := PyStr.strip (field_text (form_get "title" (form req)));
                 description :=
                   PyStr.strip (field_text (form_get "description" (form req)));
                 category :=
                   PyStr.strip (field_text (form_get "category" (form req)));
                 price := x; seller_id := uid;
                 image_filenames_list := saved_filenames req;
                 created_at := now e |} in
            (with_products s (products s ++ [new_product])
               (next_product_id s + 1),
             respond 201 (PProduct new_product))).
  { unfold create_product. rewrite Hc, Hu, Hct, Hmulti. simpl negb. cbv iota.
    rewrite Hm, Hfloat, Hle, Hok. reflexivity. }
  split; [now rewrite Hrun|]. split; [exact Hreach|].
  assert (Hin : exists p, In p (products (fst (create_product e req s))) /\
                          price p = x /\ num_gt0 (price p) = false).
  { rewrite Hrun. eexists. split; [|split].
    - simpl. apply in_or_app. right. left. reflexivity.
    - reflexivity.
    - exact Hgt. }
  split; [exact Hin|].
  destruct Hin as (p & Hp' & _ & Hnot). intros Hpos.
  specialize (Hpos p Hp'). congruence.
Qed.

End Invariants.

Lemma create_product_accepts_not_a_number_witness :
  let s : @State DemoNan.runtime :=
    fst (handle Sample.alice_env (Register MoreSample.nan_alice) empty_state) in
  let u : @User DemoNan.runtime :=
    {| user_id := 1; email := "alice@example.org"; username := "alice";
       password_hash := "hash:wonderland"; profile_image := JNull |} in
  reachable s /\
  current_user_id (RT := DemoNan.runtime) Sample.alice_env = inr 1 /\
  get_user s 1 = Some u /\
  PyStr.contains "multipart/form-data" "multipart/form-data; boundary=----x"
    = true /\
  float_of_str (Runtime := DemoNan.runtime)
    (field_text (form_get "price" (form MoreSample.nan_vase))) = Some None /\
  num_le0 (Runtime := DemoNan.runtime) None = false /\
  num_gt0 (Runtime := DemoNan.runtime) None = false /\
  commit_ok Sample.alice_env = true /\
  status (snd (create_product Sample.alice_env MoreSample.nan_vase s)) = 201 /\
  reachable (fst (create_product Sample.alice_env MoreSample.nan_vase s)) /\
  ~ price_positive (fst (create_product Sample.alice_env MoreSample.nan_vase s)).
Proof.
  intros s u.
  assert (H1 : reachable s) by apply reachable_step, reachable_empty.
  assert (H2 : current_user_id (RT := DemoNan.runtime) Sample.alice_env = inr 1)
    by reflexivity.
  assert (H3 : get_user s 1 = Some u) by reflexivity.
  assert (H4 : PyStr.contains "multipart/form-data"
                 "multipart/form-data; boundary=----x" = true) by reflexivity.
  assert (H5 : float_of_str (Runtime := DemoNan.runtime)
                 (field_text (form_get "price" (form MoreSample.nan_vase)))
               = Some None) by reflexivity.
  assert (H6 : num_le0 (Runtime := DemoNan.runtime) None = false)
    by reflexivity.
  assert (H7 : num_gt0 (Runtime := DemoNan.runtime) None = false)
    by reflexivity.
  assert (H8 : commit_ok Sample.alice_env = true) by reflexivity.
  destruct (create_product_accepts_not_a_number (RT := DemoNan.runtime)
              Sample.alice_env MoreSample.nan_vase s 1 u
              "multipart/form-data; boundary=----x" None
              H1 H2 H3 eq_refl H4 eq_refl eq_refl eq_refl eq_refl H5 H6 H7 H8)
    as (Hstatus & Hreach & _ & Hnot).
  exact (conj H1 (conj H2 (conj H3 (conj H4 (conj H5 (conj H6 (conj H7
           (conj H8 (conj Hstatus (conj Hreach Hnot)))))))))).
Defined.

(** * Further properties *)

(** ** The cart *)

Section CartMore.
Context {RT : Runtime}.

(** X1.  Removing a cart item, for a known user: without a cart row of the
    user for the product the call fails with NotFound; with one and the
    commit accepted it answers 200 with the user's remaining rows, exactly
    one row is gone, no row of another user or product changes, and (rows
    being unique per user and product) none is left for the product; with the
    commit rejected it fails with an Internal error.  Failures leave the
    store as it was. *)
Theorem remove_from_cart_spec (e : Env) (pid : Z) (s : State) (uid : Z)
    (u : User) :
  current_user_id e = inr uid ->
  get_user s uid = Some u ->
  (cart_row s uid pid = None ->
     fails_with NotFound (snd (remove_from_cart e pid s)) /\
     fst (remove_from_cart e pid s) = s) /\
  (forall found, cart_row s uid pid = Some found ->
     (commit_ok e = false ->
        fails_with Internal (snd (remove_from_cart e pid s)) /\
        fst (remove_from_cart e pid s) = s) /\
     (commit_ok e = true ->
        snd (remove_from_cart e pid s) =
          respond 200
            (PCartRemoved "Product removed from cart"
               (cart_of (fst (remove_from_cart e pid s)) uid)) /\
        S (List.length (cart_items (fst (remove_from_cart e pid s)))) =
          List.length (cart_items s) /\
        filter (fun c => negb (cart_row_of uid pid c))
          (cart_items (fst (remove_from_cart e pid s))) =
        filter (fun c => negb (cart_row_of uid pid c)) (cart_items s) /\
        (cart_unique s ->
           cart_row (fst (remove_from_cart e pid s)) uid pid = None))).
Proof.
  intros Hc Hu. unfold remove_from_cart. rewrite Hc, Hu. split.
  - intros ->. split; reflexivity.
  - intros found Hfound. rewrite Hfound. split.
    + intros ->. split; reflexivity.
    + intros ->. simpl. repeat apply conj.
      * reflexivity.
      * now apply (length_remove_first _ _ found).
      * apply others_remove_first.
      * intros Huniq. unfold cart_row. simpl. now apply unique_remove_first.
Qed.

End CartMore.

Lemma remove_from_cart_spec_witness :
  current_user_id (RT := Demo.runtime) Sample.bob_env = inr 2 /\
  get_user Sample.shop 2 = Some Sample.bob /\
  cart_row Sample.shop 2 1 =
    Some {| ci_user_id := 2; ci_product_id := 1; quantity := 2 |} /\
  commit_ok Sample.bob_env = true /\
  S (List.length (cart_items (fst (remove_from_cart Sample.bob_env 1 Sample.shop))))
    = List.length (cart_items Sample.shop).
Proof.
  assert (H1 : current_user_id (RT := Demo.runtime) Sample.bob_env = inr 2)
    by reflexivity.
  assert (H2 : get_user Sample.shop 2 = Some Sample.bob) by reflexivity.
  assert (H3 : cart_row Sample.shop 2 1 =
               Some {| ci_user_id := 2; ci_product_id := 1; quantity := 2 |})
    by reflexivity.
  assert (H4 : commit_ok Sample.bob_env = true) by reflexivity.
  destruct (remove_from_cart_spec Sample.bob_env 1 Sample.shop 2 Sample.bob H1 H2)
    as (_ & Hfound).
  destruct (Hfound _ H3) as (_ & Hok).
  destruct (Hok H4) as (_ & Hlen & _).
  exact (conj H1 (conj H2 (conj H3 (conj H4 Hlen)))).
Defined.

Section RowsFiltered.
Context {A : Type} (p q : A -> bool).

Lemma filter_update_first_other (f : A -> A) (l : list A) :
  (forall x, p x = true -> q x = false /\ q (f x) = false) ->
  filter q (update_first p f l) = filter q l.
Proof.
  intros H. induction l as [|x l IH]; simpl; [reflexivity|].
  destruct (p x) eqn:Hp; simpl.
  - destruct (H x Hp) as [-> ->]. reflexivity.
  - now rewrite IH.
Qed.

Lemma filter_remove_first_other (l : list A) :
  (forall x, p x = true -> q x = false) ->
  filter q (remove_first p l) = filter q l.
Proof.
  intros H. induction l as [|x l IH]; simpl; [reflexivity|].
  destruct (p x) eqn:Hp; simpl.
  - now rewrite (H x Hp).
  - now rewrite IH.
Qed.

End RowsFiltered.

Section CartIsolation.
Context {RT : Runtime}.

Lemma cart_row_of_user (uid pid other : Z) (c : CartItem) :
  uid <> other -> cart_row_of uid pid c = true ->
  (ci_user_id c =? other) = false.
Proof.
  intros Hne Hrow. apply cart_row_of_key in Hrow. unfold cart_key in Hrow.
  injection Hrow as Hu _. apply Z.eqb_neq. congruence.
Qed.

Lemma filter_other_user (uid other : Z) (l : list CartItem) :
  uid <> other ->
  filter (fun c => ci_user_id c =? other)
    (filter (fun c => negb (ci_user_id c =? uid)) l) =
  filter (fun c => ci_user_id c =? other) l.
Proof.
  intros Hne. induction l as [|c l IH]; simpl; [reflexivity|].
  destruct (ci_user_id c =? uid) eqn:Hu; simpl.
  - apply Z.eqb_eq in Hu.
    assert (Ho : (ci_user_id c =? other) = false) by (apply Z.eqb_neq; congruence).
    now rewrite Ho.
  - now rewrite IH.
Qed.

Ltac cart_kept :=
  simpl; try reflexivity; repeat (destruct_match; simpl; try reflexivity).

Ltac other_rows Hne :=
  unfold cart_of; simpl;
  first
    [ apply filter_update_first_other;
      intros x Hx; split; eapply cart_row_of_user; [exact Hne | exact Hx | exact Hne | exact Hx]
    | apply filter_remove_first_other;
      intros x Hx; eapply cart_row_of_user; [exact Hne | exact Hx]
    | apply (filter_other_user _ _ _ Hne) ].

Lemma add_to_cart_row_other (e : Env) (uid pid qty : Z) (s : State)
    (other : Z) :
  uid <> other ->
  cart_of (fst (add_to_cart_row e uid pid qty s)) other = cart_of s other.
Proof.
  intros Hne. unfold add_to_cart_row.
  destruct (get_product s pid); [|reflexivity].
  destruct (seller_id p =? uid); [reflexivity|].
  destruct (cart_row s uid pid); destruct (commit_ok e); try reflexivity.
  - other_rows Hne.
  - unfold cart_of. simpl. rewrite filter_app. simpl.
    apply Z.eqb_neq in Hne. rewrite Hne. apply app_nil_r.
Qed.

(** X2.  Whatever the request, the cart rows of a user other than the one
    the token names are afterwards what they were before: no request
    reads its way into, adds to, changes or empties another user's cart. *)
Theorem cart_of_other_user_kept (e : Env) (r : Request) (s : State)
    (other : Z) :
  current_user_id e <> inr other ->
  cart_of (fst (handle e r s)) other = cart_of s other.
Proof.
  intros Hother.
  destruct r; simpl;
    try (unfold register, get_me, update_profile, create_product,
           update_product, get_product_detail_route, delete_product,
           get_products, get_my_listings, get_cart_items, get_purchase_history,
           get_wishlist, add_to_wishlist, remove_from_wishlist;
         cart_kept; fail).
  - (* add_to_cart *)
    unfold add_to_cart.
    destruct (current_user_id e) as [resp|uid] eqn:Hc; [reflexivity|].
    assert (Hne : uid <> other) by congruence.
    cart_kept; now apply add_to_cart_row_other.
  - (* update_cart_item_quantity *)
    unfold update_cart_item_quantity.
    destruct (current_user_id e) as [resp|uid] eqn:Hc; [reflexivity|].
    assert (Hne : uid <> other) by congruence.
    cart_kept; other_rows Hne.
  - (* remove_from_cart *)
    unfold remove_from_cart.
    destruct (current_user_id e) as [resp|uid] eqn:Hc; [reflexivity|].
    assert (Hne : uid <> other) by congruence.
    cart_kept; other_rows Hne.
  - (* checkout *)
    unfold checkout.
    destruct (current_user_id e) as [resp|uid] eqn:Hc; [reflexivity|].
    assert (Hne : uid <> other) by congruence.
    cart_kept; other_rows Hne.
Qed.

End CartIsolation.

Lemma cart_of_other_user_kept_witness :
  current_user_id (RT := Demo.runtime) Sample.alice_env <> inr 2 /\
  cart_of (fst (handle Sample.alice_env Checkout Sample.shop)) 2 =
    cart_of Sample.shop 2.
Proof.
  assert (H1 : current_user_id (RT := Demo.runtime) Sample.alice_env <> inr 2)
    by discriminate.
  exact (conj H1 (cart_of_other_user_kept Sample.alice_env Checkout Sample.shop
                    2 H1)).
Defined.

Section CartKeys.
Context {RT : Runtime}.

Lemma keys_update_first (p : CartItem -> bool) (f : CartItem -> CartItem)
    (l : list CartItem) :
  (forall c, cart_key (f c) = cart_key c) ->
  map cart_key (update_first p f l) = map cart_key l.
Proof.
  intros Hf. induction l as [|c l IH]; simpl; [reflexivity|].
  destruct (p c); simpl; [now rewrite Hf | now rewrite IH].
Qed.

Lemma keys_remove_first (p : CartItem -> bool) (l : list CartItem) :
  NoDup (map cart_key l) -> NoDup (map cart_key (remove_first p l)).
Proof.
  induction l as [|c l IH]; simpl; [auto|].
  intros Hnd. inversion Hnd as [|k ks Hnotin Hnd']; subst.
  destruct (p c); [exact Hnd'|]. simpl. constructor; [|now apply IH].
  intros Hin. apply Hnotin. apply in_map_iff in Hin as (x & Hk & Hx).
  apply in_map_iff. exists x. split; [exact Hk|].
  now apply in_remove_first in Hx.
Qed.

Lemma keys_filter (p : CartItem -> bool) (l : list CartItem) :
  NoDup (map cart_key l) -> NoDup (map cart_key (filter p l)).
Proof.
  induction l as [|c l IH]; simpl; [auto|].
  intros Hnd. inversion Hnd as [|k ks Hnotin Hnd']; subst.
  destruct (p c); [|now apply IH]. simpl. constructor; [|now apply IH].
  intros Hin. apply Hnotin. apply in_map_iff in Hin as (x & Hk & Hx).
  apply in_map_iff. exists x. split; [exact Hk|].
  now apply filter_In in Hx.
Qed.

Lemma key_absent (uid pid : Z) (l : list CartItem) :
  find (cart_row_of uid pid) l = None -> ~ In (uid, pid) (map cart_key l).
Proof.
  intros Hnone Hin. apply in_map_iff in Hin as (c & Hk & Hc).
  apply (find_none _ _ Hnone) in Hc. apply cart_row_of_key in Hk. congruence.
Qed.

Lemma add_to_cart_row_unique (e : Env) (uid pid qty : Z) (s : State) :
  cart_unique s -> cart_unique (fst (add_to_cart_row e uid pid qty s)).
Proof.
  intros Hu. unfold add_to_cart_row.
  destruct (get_product s pid); [|exact Hu].
  destruct (seller_id p =? uid); [exact Hu|].
  destruct (cart_row s uid pid) eqn:Hrow; destruct (commit_ok e);
    try exact Hu; unfold cart_unique; simpl.
  - now rewrite keys_update_first.
  - rewrite map_app. simpl. apply NoDup_snoc; [exact Hu|].
    now apply key_absent.
Qed.

Ltac unique_kept Hu :=
  simpl; try exact Hu; repeat (destruct_match; simpl; try exact Hu).

Lemma handle_cart_unique (e : Env) (r : Request) (s : State) :
  cart_unique s -> cart_unique (fst (handle e r s)).
Proof.
  intros Hu.
  destruct r; simpl;
    try (unfold register, get_me, update_profile, create_product,
           update_product, get_product_detail_route, delete_product,
           get_products, get_my_listings, get_cart_items,
           get_purchase_history, get_wishlist, add_to_wishlist,
           remove_from_wishlist;
         unique_kept Hu; fail).
  - unfold add_to_cart. unique_kept Hu; now apply add_to_cart_row_unique.
  - unfold update_cart_item_quantity.
    unique_kept Hu; unfold cart_unique; simpl;
      first [now apply keys_remove_first | now rewrite keys_update_first].
  - unfold remove_from_cart. unique_kept Hu; unfold cart_unique; simpl;
      now apply keys_remove_first.
  - unfold checkout. unique_kept Hu; unfold cart_unique; simpl;
      now apply keys_filter.
Qed.

(** X3.  A cart holds at most one row per user and product: every request
    keeps it so, and so it is in every store the API can reach from the empty
    one (adding a product already in the cart raises the quantity of its row
    instead of adding a second one). *)
Theorem cart_rows_unique :
  (forall e r s, cart_unique s -> cart_unique (fst (handle e r s))) /\
  (forall s, reachable s -> cart_unique s).
Proof.
  split; [exact handle_cart_unique|].
  induction 1 as [|e r s Hr IH]; [constructor|].
  now apply handle_cart_unique.
Qed.

End CartKeys.

Lemma cart_rows_unique_witness :
  cart_unique Sample.shop /\
  cart_unique (fst (handle Sample.bob_env Checkout Sample.shop)) /\
  reachable (fst (handle Sample.alice_env (Register Sample.alice_data)
                    empty_state)) /\
  cart_unique (fst (handle Sample.alice_env (Register Sample.alice_data)
                      empty_state)).
Proof.
  assert (H1 : cart_unique Sample.shop).
  { unfold cart_unique. simpl.
    constructor; [intros [H|[]]; discriminate H|].
    constructor; [simpl; tauto | constructor]. }
  assert (H2 : reachable (fst (handle Sample.alice_env
                                 (Register Sample.alice_data) empty_state)))
    by apply reachable_step, reachable_empty.
  destruct (cart_rows_unique (RT := Demo.runtime)) as (Hstep & Hreach).
  exact (conj H1 (conj (Hstep _ _ _ H1) (conj H2 (Hreach _ H2)))).
Defined.

Section CartRoundTrip.
Context {RT : Runtime}.

Lemma remove_first_snoc {A} (p : A -> bool) (l : list A) (x : A) :
  find p l = None -> p x = true -> remove_first p (l ++ [x]) = l.
Proof.
  induction l as [|y l IH]; simpl; intros Hnone Hx.
  - now rewrite Hx.
  - destruct (p y); [discriminate|]. now rewrite IH.
Qed.

Lemma with_cart_items_same (s : State) : with_cart_items s (cart_items s) = s.
Proof. now destruct s. Qed.

(** X4.  Putting a product into the cart that was not in it and then
    removing it gives back the store as it was before the two calls: the
    removal answers 200 and leaves no trace of the row. *)
Theorem add_then_remove_restores (e : Env) (data : option dict) (s : State)
    (uid : Z) (u : User) (pid qty : Z) (p : Product) :
  current_user_id e = inr uid ->
  get_user s uid = Some u ->
  body_missing data = false ->
  py_int (dict_get "productId" (body_dict data)) = inl pid ->
  py_int (dict_get_default "quantity" (JInt 1) (body_dict data)) = inl qty ->
  1 <= qty ->
  get_product s pid = Some p ->
  seller_id p <> uid ->
  cart_row s uid pid = None ->
  commit_ok e = true ->
  status (snd (add_to_cart e data s)) = 201 /\
  status (snd (remove_from_cart e pid (fst (add_to_cart e data s)))) = 200 /\
  fst (remove_from_cart e pid (fst (add_to_cart e data s))) = s.
Proof.
  intros Hc Hu Hb Hp Hq Hqty Hprod Hseller Hrow Hok.
  rewrite (add_to_cart_typed e data s uid u pid qty Hc Hu Hb Hp Hq).
  apply Z.ltb_ge in Hqty. rewrite Hqty.
  unfold add_to_cart_row. rewrite Hprod.
  apply Z.eqb_neq in Hseller. rewrite Hseller, Hrow, Hok. simpl.
  assert (Hself : cart_row_of uid pid
            {| ci_user_id := uid; ci_product_id := pid; quantity := qty |} = true).
  { unfold cart_row_of. simpl. now rewrite !Z.eqb_refl. }
  split.
  { destruct (qty >? qty) eqn:Hgt; [|reflexivity].
    rewrite Z.gtb_ltb in Hgt. apply Z.ltb_lt in Hgt. lia. }
  unfold remove_from_cart. rewrite Hc.
  unfold get_user in *. simpl. rewrite Hu.
  unfold cart_row in *. simpl.
  rewrite (find_app_none _ _ _ Hrow Hself), Hok. simpl.
  split; [reflexivity|].
  rewrite (remove_first_snoc _ _ _ Hrow Hself).
  destruct s; reflexivity.
Qed.

End CartRoundTrip.

Lemma add_then_remove_restores_witness :
  let data : option (@dict Demo.runtime) := Some [("productId", JInt 2)] in
  current_user_id (RT := Demo.runtime) Sample.bob_env = inr 2 /\
  get_user Sample.wishing 2 = Some Sample.bob /\
  body_missing data = false /\
  py_int (dict_get "productId" (body_dict data)) = inl 2 /\
  py_int (dict_get_default "quantity" (JInt 1) (body_dict data)) = inl 1 /\
  1 <= 1 /\
  get_product Sample.wishing 2 = Some Sample.productB /\
  seller_id Sample.productB <> 2 /\
  cart_row Sample.wishing 2 2 = None /\
  commit_ok Sample.bob_env = true /\
  fst (remove_from_cart Sample.bob_env 2
         (fst (add_to_cart Sample.bob_env data Sample.wishing))) = Sample.wishing.
Proof.
  intros data.
  assert (H1 : current_user_id (RT := Demo.runtime) Sample.bob_env = inr 2)
    by reflexivity.
  assert (H2 : get_user Sample.wishing 2 = Some Sample.bob) by reflexivity.
  assert (H3 : body_missing data = false) by reflexivity.
  assert (H4 : py_int (dict_get "productId" (body_dict data)) = inl 2)
    by reflexivity.
  assert (H5 : py_int (dict_get_default "quantity" (JInt 1) (body_dict data))
               = inl 1) by reflexivity.
  assert (H6 : 1 <= 1) by lia.
  assert (H7 : get_product Sample.wishing 2 = Some Sample.productB)
    by reflexivity.
  assert (H8 : seller_id Sample.productB <> 2) by discriminate.
  assert (H9 : cart_row Sample.wishing 2 2 = None) by reflexivity.
  assert (H10 : commit_ok Sample.bob_env = true) by reflexivity.
  destruct (add_then_remove_restores Sample.bob_env data Sample.wishing 2
              Sample.bob 2 1 Sample.productB H1 H2 H3 H4 H5 H6 H7 H8 H9 H10)
    as (_ & _ & Hback).
  exact (conj H1 (conj H2 (conj H3 (conj H4 (conj H5 (conj H6 (conj H7
           (conj H8 (conj H9 (conj H10 Hback)))))))))).
Defined.

(** ** The wishlist *)

Section WishlistMore.
Context {RT : Runtime}.

Lemma wishlist_row_of_iff (uid pid : Z) (w : Z * Z) :
  wishlist_row_of uid pid w = true <-> w = (uid, pid).
Proof.
  unfold wishlist_row_of. rewrite andb_true_iff, !Z.eqb_eq.
  destruct w as [a b]. simpl. split; [intros [-> ->]; reflexivity|].
  intros H. injection H. auto.
Qed.

Lemma not_in_wishlist (s : State) (uid pid : Z) :
  in_wishlist s uid pid = false <-> ~ In (uid, pid) (wishlist_items s).
Proof.
  unfold in_wishlist. split.
  - intros Hex Hin.
    assert (Ht : existsb (wishlist_row_of uid pid) (wishlist_items s) = true).
    { apply existsb_exists. exists (uid, pid). split; [exact Hin|].
      now apply wishlist_row_of_iff. }
    congruence.
  - intros Hnot.
    destruct (existsb (wishlist_row_of uid pid) (wishlist_items s)) eqn:Hex;
      [|reflexivity].
    apply existsb_exists in Hex as (w & Hin & Hw).
    apply wishlist_row_of_iff in Hw. subst w. contradiction.
Qed.

Lemma nodup_remove_first {A} (p : A -> bool) (l : list A) :
  NoDup l -> NoDup (remove_first p l).
Proof.
  induction l as [|x l IH]; simpl; [auto|].
  intros Hnd. inversion Hnd as [|y ys Hnotin Hnd']; subst.
  destruct (p x); [exact Hnd'|]. constructor; [|now apply IH].
  intros Hin. apply Hnotin. now apply in_remove_first in Hin.
Qed.

Ltac wishes_kept Hu :=
  simpl; try exact Hu; repeat (destruct_match; simpl; try exact Hu).

Lemma handle_wishlist_unique (e : Env) (r : Request) (s : State) :
  wishlist_unique s -> wishlist_unique (fst (handle e r s)).
Proof.
  intros Hu.
  destruct r; simpl;
    try (unfold register, get_me, update_profile, create_product,
           update_product, get_product_detail_route, delete_product,
           get_products, get_my_listings, get_cart_items, add_to_cart,
           add_to_cart_row, update_cart_item_quantity, remove_from_cart,
           checkout, get_purchase_history, get_wishlist;
         wishes_kept Hu; fail).
  - unfold add_to_wishlist. wishes_kept Hu.
    unfold wishlist_unique. simpl. apply NoDup_snoc; [exact Hu|].
    now apply not_in_wishlist.
  - unfold remove_from_wishlist. wishes_kept Hu.
    unfold wishlist_unique. simpl. now apply nodup_remove_first.
Qed.

(** X5.  A wishlist holds a product at most once: every request keeps the
    membership rows free of duplicates, and so they are in every store the
    API can reach from the empty one. *)
Theorem wishlist_rows_unique :
  (forall e r s, wishlist_unique s -> wishlist_unique (fst (handle e r s))) /\
  (forall s, reachable s -> wishlist_unique s).
Proof.
  split; [exact handle_wishlist_unique|].
  induction 1 as [|e r s Hr IH]; [constructor|].
  now apply handle_wishlist_unique.
Qed.

Lemma with_wishlist_items_same (s : State) :
  with_wishlist_items s (wishlist_items s) = s.
Proof. now destruct s. Qed.

(** X6.  Adding a product to the wishlist and removing it again gives back
    the store as it was: the add answers 201, the removal 200. *)
Theorem wish_then_unwish_restores (e : Env) (pid : Z) (s : State) (uid : Z)
    (u : User) (p : Product) :
  current_user_id e = inr uid ->
  get_user s uid = Some u ->
  get_product s pid = Some p ->
  in_wishlist s uid pid = false ->
  seller_id p <> uid ->
  commit_ok e = true ->
  status (snd (add_to_wishlist e pid s)) = 201 /\
  status (snd (remove_from_wishlist e pid (fst (add_to_wishlist e pid s)))) = 200 /\
  fst (remove_from_wishlist e pid (fst (add_to_wishlist e pid s))) = s.
Proof.
  intros Hc Hu Hp Hin Hseller Hok.
  unfold add_to_wishlist. rewrite Hc, Hu, Hp, Hin.
  apply Z.eqb_neq in Hseller. rewrite Hseller, Hok. simpl.
  split; [reflexivity|].
  unfold remove_from_wishlist. rewrite Hc.
  unfold get_user, get_product in *. simpl. rewrite Hu, Hp.
  assert (Hself : wishlist_row_of uid pid (uid, pid) = true)
    by now apply wishlist_row_of_iff.
  assert (Hnone : find (wishlist_row_of uid pid) (wishlist_items s) = None).
  { destruct (find (wishlist_row_of uid pid) (wishlist_items s)) as [w|] eqn:Hf;
      [|reflexivity].
    apply find_some in Hf as [Hw Hrow]. unfold in_wishlist in Hin.
    assert (Ht : existsb (wishlist_row_of uid pid) (wishlist_items s) = true)
      by (apply existsb_exists; now exists w).
    congruence. }
  unfold in_wishlist. simpl. rewrite existsb_app. simpl. rewrite Hself.
  rewrite orb_true_r. simpl. rewrite Hok. simpl. split; [reflexivity|].
  rewrite (remove_first_snoc _ _ _ Hnone Hself). now destruct s.
Qed.

(** What [user.wishlist] lists. *)
Lemma in_wishlist_of (s : State) (uid : Z) (p : Product) :
  In p (wishlist_of s uid) <->
  exists pid, In (uid, pid) (wishlist_items s) /\ get_product s pid = Some p.
Proof.
  unfold wishlist_of. rewrite in_flat_map. split.
  - intros ([a b] & Hw & Hin). simpl in Hin.
    destruct (a =? uid) eqn:Ha; [|destruct Hin].
    apply Z.eqb_eq in Ha. subst a.
    destruct (get_product s b) as [q|] eqn:Hq; [|destruct Hin].
    destruct Hin as [<-|[]]. now exists b.
  - intros (pid & Hw & Hp). exists (uid, pid). split; [exact Hw|].
    simpl. rewrite Z.eqb_refl, Hp. now left.
Qed.

(** X7.  For a known user the wishlist request answers 200 with the
    products the user's membership rows lead to, a row whose product is
    gone being passed over without error; a product
    just added to the wishlist is listed, and (membership rows being unique)
    a product just removed is not. *)
Theorem get_wishlist_spec (e : Env) (s : State) (uid : Z) (u : User) :
  current_user_id e = inr uid ->
  get_user s uid = Some u ->
  get_wishlist e s = (s, respond 200 (PProducts (wishlist_of s uid))) /\
  (forall p,
     In p (wishlist_of s uid) <->
     exists pid, In (uid, pid) (wishlist_items s) /\ get_product s pid = Some p) /\
  (forall pid p,
     get_product s pid = Some p ->
     status (snd (add_to_wishlist e pid s)) = 201 ->
     In p (wishlist_of (fst (add_to_wishlist e pid s)) uid)) /\
  (forall pid p,
     wishlist_unique s ->
     get_product s pid = Some p ->
     status (snd (remove_from_wishlist e pid s)) = 200 ->
     ~ In p (wishlist_of (fst (remove_from_wishlist e pid s)) uid)).
Proof.
  intros Hc Hu. repeat apply conj.
  - unfold get_wishlist. now rewrite Hc, Hu.
  - intros p. apply in_wishlist_of.
  - intros pid p Hp. unfold add_to_wishlist. rewrite Hc, Hu, Hp.
    destruct (in_wishlist s uid pid); [discriminate|].
    destruct (seller_id p =? uid); [discriminate|].
    destruct (commit_ok e); [|discriminate]. simpl. intros _.
    apply in_wishlist_of. exists pid. simpl. split; [|exact Hp].
    apply in_or_app. right. now left.
  - intros pid p Huniq Hp. unfold remove_from_wishlist. rewrite Hc, Hu, Hp.
    destruct (negb (in_wishlist s uid pid)); [discriminate|].
    destruct (commit_ok e); [|discriminate]. simpl. intros _ Hin.
    apply in_wishlist_of in Hin as (pid' & Hrow & Hp'). simpl in Hrow.
    unfold get_product in Hp'. simpl in Hp'.
    assert (pid' = pid).
    { apply get_product_id in Hp. unfold get_product in Hp.
      pose proof (get_product_id s pid' p Hp'). congruence. }
    subst pid'. clear Hp'.
    (* the row was unique, so removing its first occurrence removed it *)
    revert Hrow. unfold wishlist_unique in Huniq.
    induction (wishlist_items s) as [|w l IH]; simpl; [tauto|].
    inversion Huniq as [|x xs Hnotin Hnd]; subst.
    destruct (wishlist_row_of uid pid w) eqn:Hw.
    + apply wishlist_row_of_iff in Hw. subst w. exact Hnotin.
    + intros [Heq|Hin]; [|now apply IH].
      subst w. rewrite (proj2 (wishlist_row_of_iff uid pid (uid, pid)) eq_refl) in Hw.
      discriminate.
Qed.

End WishlistMore.

Lemma wishlist_rows_unique_witness :
  wishlist_unique Sample.wishing /\
  wishlist_unique (fst (handle Sample.bob_env (AddToWishlist 2) Sample.wishing)) /\
  reachable (fst (handle Sample.alice_env (Register Sample.alice_data)
                    empty_state)) /\
  wishlist_unique (fst (handle Sample.alice_env (Register Sample.alice_data)
                          empty_state)).
Proof.
  assert (H1 : wishlist_unique Sample.wishing).
  { unfold wishlist_unique. simpl. constructor; [simpl; tauto | constructor]. }
  assert (H2 : reachable (fst (handle Sample.alice_env
                                 (Register Sample.alice_data) empty_state)))
    by apply reachable_step, reachable_empty.
  destruct (wishlist_rows_unique (RT := Demo.runtime)) as (Hstep & Hreach).
  exact (conj H1 (conj (Hstep _ _ _ H1) (conj H2 (Hreach _ H2)))).
Defined.

Lemma wish_then_unwish_restores_witness :
  current_user_id (RT := Demo.runtime) Sample.bob_env = inr 2 /\
  get_user Sample.wishing 2 = Some Sample.bob /\
  get_product Sample.wishing 2 = Some Sample.productB /\
  in_wishlist Sample.wishing 2 2 = false /\
  seller_id Sample.productB <> 2 /\
  commit_ok Sample.bob_env = true /\
  fst (remove_from_wishlist Sample.bob_env 2
         (fst (add_to_wishlist Sample.bob_env 2 Sample.wishing))) = Sample.wishing.
Proof.
  assert (H1 : current_user_id (RT := Demo.runtime) Sample.bob_env = inr 2)
    by reflexivity.
  assert (H2 : get_user Sample.wishing 2 = Some Sample.bob) by reflexivity.
  assert (H3 : get_product Sample.wishing 2 = Some Sample.productB)
    by reflexivity.
  assert (H4 : in_wishlist Sample.wishing 2 2 = false) by reflexivity.
  assert (H5 : seller_id Sample.productB <> 2) by discriminate.
  assert (H6 : commit_ok Sample.bob_env = true) by reflexivity.
  destruct (wish_then_unwish_restores Sample.bob_env 2 Sample.wishing 2
              Sample.bob Sample.productB H1 H2 H3 H4 H5 H6) as (_ & _ & Hback).
  exact (conj H1 (conj H2 (conj H3 (conj H4 (conj H5 (conj H6 Hback)))))).
Defined.

Lemma get_wishlist_spec_witness :
  current_user_id (RT := Demo.runtime) Sample.bob_env = inr 2 /\
  get_user Sample.wishing 2 = Some Sample.bob /\
  wishlist_unique Sample.wishing /\
  get_product Sample.wishing 1 = Some Sample.productA /\
  status (snd (remove_from_wishlist Sample.bob_env 1 Sample.wishing)) = 200 /\
  get_wishlist Sample.bob_env Sample.wishing =
    (Sample.wishing, respond 200 (PProducts [Sample.productA])) /\
  ~ In Sample.productA
      (wishlist_of (fst (remove_from_wishlist Sample.bob_env 1 Sample.wishing)) 2).
Proof.
  assert (H1 : current_user_id (RT := Demo.runtime) Sample.bob_env = inr 2)
    by reflexivity.
  assert (H2 : get_user Sample.wishing 2 = Some Sample.bob) by reflexivity.
  assert (H3 : wishlist_unique Sample.wishing).
  { unfold wishlist_unique. simpl. constructor; [simpl; tauto | constructor]. }
  assert (H4 : get_product Sample.wishing 1 = Some Sample.productA)
    by reflexivity.
  assert (H5 : status (snd (remove_from_wishlist Sample.bob_env 1 Sample.wishing))
               = 200) by reflexivity.
  destruct (get_wishlist_spec Sample.bob_env Sample.wishing 2 Sample.bob H1 H2)
    as (Hget & _ & _ & Hgone).
  exact (conj H1 (conj H2 (conj H3 (conj H4 (conj H5
           (conj Hget (Hgone 1 Sample.productA H3 H4 H5))))))).
Defined.

(** ** Purchases *)

Section History.
Context {RT : Runtime}.

Ltac ledger_kept :=
  simpl; try (repeat split; reflexivity);
  repeat (destruct_match; simpl; try (repeat split; reflexivity)).

(** Only checkout writes to the purchases. *)
Lemma ledger_kept_but_by_checkout (e : Env) (r : Request) (s : State) :
  r <> Checkout ->
  purchases (fst (handle e r s)) = purchases s /\
  purchase_items (fst (handle e r s)) = purchase_items s /\
  next_purchase_id (fst (handle e r s)) = next_purchase_id s.
Proof.
  intros Hr.
  destruct r; try (now elim Hr); simpl;
    unfold register, get_me, update_profile, create_product,
      update_product, get_product_detail_route, delete_product,
      get_products, get_my_listings, get_cart_items, add_to_cart,
      add_to_cart_row, update_cart_item_quantity, remove_from_cart,
      get_purchase_history, get_wishlist, add_to_wishlist,
      remove_from_wishlist;
    ledger_kept.
Qed.

(** What the loop of checkout collects is stamped with the purchase id. *)
Lemma checkout_rows_stamped (s : State) (purchase : Z) (items : list CartItem) :
  forall total collected total' out,
  checkout_rows s purchase items total collected = inr (total', out) ->
  exists snapshots,
    out = collected ++ snapshots /\
    Forall (fun i => pi_purchase_id i = purchase) snapshots.
Proof.
  induction items as [|item rest IH]; intros total collected total' out; simpl.
  - intros H. injection H as _ <-. exists []. split; [now rewrite app_nil_r|].
    constructor.
  - destruct (get_product s (ci_product_id item)) as [product|];
      [|discriminate].
    intros H. apply IH in H as (snapshots & -> & Hall).
    exists (snapshot purchase item product :: snapshots). split.
    + now rewrite <- app_assoc.
    + now constructor.
Qed.

(** The store a successful checkout leaves. *)
Lemma checkout_succeeded (e : Env) (s : State) (uid : Z) (u : User) :
  current_user_id e = inr uid ->
  get_user s uid = Some u ->
  status (snd (checkout e s)) = 200 ->
  exists total snapshots,
    Forall (fun i => pi_purchase_id i = next_purchase_id s) snapshots /\
    checkout e s =
      (with_purchase s
         {| purchase_id := next_purchase_id s; pu_user_id := uid;
            total_amount := total; purchase_date := now e |}
         snapshots
         (filter (fun c => negb (ci_user_id c =? uid)) (cart_items s)),
       respond 200
         (PCheckout "Checkout successful!" (next_purchase_id s)
            ({| purchase_id := next_purchase_id s; pu_user_id := uid;
                total_amount := total; purchase_date := now e |}, snapshots))).
Proof.
  intros Hc Hu. unfold checkout. rewrite Hc, Hu.
  destruct (cart_of s uid) as [|c0 rest]; [discriminate|].
  destruct (checkout_rows s (next_purchase_id s) (c0 :: rest) (num_of_int 0) [])
    as [missing|[total out]] eqn:Hrows; [discriminate|].
  destruct (commit_ok e); [|discriminate]. intros _.
  apply checkout_rows_stamped in Hrows as (snapshots & -> & Hall).
  exists (num_round2 total), snapshots. split; [exact Hall | reflexivity].
Qed.

(** X8.  Purchases are append-only: whatever the request (a product being
    edited or deleted, a profile changed, another checkout), the purchases
    and purchase items of the store before are still there afterwards,
    unchanged and in the same order; a request can only add rows after
    them. *)
Theorem ledger_append_only (e : Env) (r : Request) (s : State) :
  exists new_purchases new_items,
    purchases (fst (handle e r s)) = purchases s ++ new_purchases /\
    purchase_items (fst (handle e r s)) = purchase_items s ++ new_items.
Proof.
  assert (Hdec : r = Checkout \/ r <> Checkout)
    by (destruct r; (now left) || (right; discriminate)).
  destruct Hdec as [->|Hr].
  - simpl. unfold checkout.
    repeat (destruct_match; simpl;
            try (exists [], []; now rewrite !app_nil_r)).
    eexists. eexists. split; reflexivity.
  - destruct (ledger_kept_but_by_checkout e r s Hr) as (-> & -> & _).
    exists [], []. now rewrite !app_nil_r.
Qed.

Lemma filter_all_false {A} (p : A -> bool) (l : list A) :
  (forall x, In x l -> p x = false) -> filter p l = [].
Proof.
  induction l as [|x l IH]; simpl; intros H; [reflexivity|].
  rewrite (H x (or_introl eq_refl)). apply IH. intros y Hy. apply H. now right.
Qed.

Lemma filter_all_true {A} (p : A -> bool) (l : list A) :
  (forall x, In x l -> p x = true) -> filter p l = l.
Proof.
  induction l as [|x l IH]; simpl; intros H; [reflexivity|].
  rewrite (H x (or_introl eq_refl)). f_equal. apply IH. intros y Hy.
  apply H. now right.
Qed.

Lemma handle_purchase_ids_fresh (e : Env) (r : Request) (s : State) :
  purchase_ids_fresh s -> purchase_ids_fresh (fst (handle e r s)).
Proof.
  intros [Hp Hi].
  assert (Hdec : r = Checkout \/ r <> Checkout)
    by (destruct r; (now left) || (right; discriminate)).
  destruct Hdec as [->|Hr].
  - simpl. unfold checkout.
    destruct (current_user_id e) as [resp|uid] eqn:Hc; [now split|].
    destruct (get_user s uid) as [u|] eqn:Hu; [|now split].
    destruct (cart_of s uid) as [|c0 rest]; [now split|].
    destruct (checkout_rows s (next_purchase_id s) (c0 :: rest) (num_of_int 0) [])
      as [missing|[total out]] eqn:Hrows; [now split|].
    destruct (commit_ok e); [|now split].
    apply checkout_rows_stamped in Hrows as (snapshots & -> & Hall).
    rewrite Forall_forall in Hall. split; simpl.
    + intros p Hin. apply in_app_or in Hin as [Hin|[<-|[]]];
        [specialize (Hp p Hin)|simpl]; lia.
    + intros i Hin. apply in_app_or in Hin as [Hin|Hin];
        [specialize (Hi i Hin) | rewrite (Hall i Hin)]; lia.
  - unfold purchase_ids_fresh.
    destruct (ledger_kept_but_by_checkout e r s Hr) as (-> & -> & ->).
    now split.
Qed.

(** X9.  The purchase history of a known user answers 200 and changes
    nothing; it lists exactly that user's purchases, each once and none of
    another user, most recent first, and every item listed under a purchase
    carries that purchase's id. *)
Theorem get_purchase_history_spec (e : Env) (s : State) (uid : Z) (u : User) :
  current_user_id e = inr uid ->
  get_user s uid = Some u ->
  exists history,
    get_purchase_history e s = (s, respond 200 (PPurchases history)) /\
    Permutation (map fst history)
      (filter (fun p => pu_user_id p =? uid) (purchases s)) /\
    StronglySorted (newest_first purchase_date) (map fst history) /\
    (forall p, In p (map fst history) <-> In p (purchases s) /\ pu_user_id p = uid) /\
    (forall p items i,
       In (p, items) history -> In i items ->
       In i (purchase_items s) /\ pi_purchase_id i = purchase_id p).
Proof.
  intros Hc Hu. unfold get_purchase_history. rewrite Hc, Hu.
  eexists. split; [reflexivity|].
  set (mine := filter (fun p => pu_user_id p =? uid) (purchases s)).
  assert (Hfst : map fst (map (purchase_detail s) (order_by_desc purchase_date mine))
                 = order_by_desc purchase_date mine).
  { rewrite map_map. simpl. apply map_id. }
  rewrite Hfst. repeat apply conj.
  - apply Permutation_sym, order_by_desc_perm.
  - apply order_by_desc_sorted.
  - intros p. split.
    + intros Hin.
      apply (Permutation_in _ (Permutation_sym (order_by_desc_perm _ _))) in Hin.
      apply filter_In in Hin as [Hin Hp]. apply Z.eqb_eq in Hp. now split.
    + intros [Hin Hp].
      apply (Permutation_in _ (order_by_desc_perm _ _)).
      apply filter_In. split; [exact Hin | now apply Z.eqb_eq].
  - intros p items i Hin Hi. apply in_map_iff in Hin as (q & Hq & _).
    unfold purchase_detail in Hq. injection Hq as <- <-.
    apply filter_In in Hi as [Hi Hid]. apply Z.eqb_eq in Hid. now split.
Qed.

(** X10.  Purchase ids are never handed out twice: in every store reachable
    from the empty one the ids of purchases and purchase items lie below the
    counter.  In such a store, the purchase a successful checkout reports,
    with exactly the snapshots it reports, is an entry of the history the
    same user is given next. *)
Theorem checkout_then_history :
  (forall s, reachable s -> purchase_ids_fresh s) /\
  (forall e s uid u,
     current_user_id e = inr uid ->
     get_user s uid = Some u ->
     purchase_ids_fresh s ->
     status (snd (checkout e s)) = 200 ->
     exists detail history,
       body (snd (checkout e s)) =
         PCheckout "Checkout successful!" (purchase_id (fst detail)) detail /\
       snd (get_purchase_history e (fst (checkout e s))) =
         respond 200 (PPurchases history) /\
       In detail history).
Proof.
  split.
  - induction 1 as [|e r s Hr IH].
    + split; simpl; intros ? [].
    + now apply handle_purchase_ids_fresh.
  - intros e s uid u Hc Hu [Hp Hi] H200.
    destruct (checkout_succeeded e s uid u Hc Hu H200)
      as (total & snapshots & Hall & ->).
    simpl.
    set (new := {| purchase_id := next_purchase_id s; pu_user_id := uid;
                   total_amount := total; purchase_date := now e |}).
    exists (new, snapshots). eexists. split; [reflexivity|].
    unfold get_purchase_history. rewrite Hc.
    unfold get_user in *. simpl. rewrite Hu. split; [reflexivity|].
    apply in_map_iff. exists new. split.
    + unfold purchase_detail. simpl. f_equal.
      rewrite filter_app, filter_all_false, filter_all_true; [reflexivity| |].
      * intros i Hin. rewrite Forall_forall in Hall.
        apply Z.eqb_eq. now apply Hall.
      * intros i Hin. apply Z.eqb_neq. specialize (Hi i Hin). lia.
    + apply (Permutation_in _ (order_by_desc_perm _ _)).
      apply filter_In. split; [|simpl; apply Z.eqb_refl].
      apply in_or_app. right. now left.
Qed.

End History.

Lemma get_purchase_history_spec_witness :
  let bought := fst (checkout Sample.bob_env Sample.shop) in
  current_user_id (RT := Demo.runtime) Sample.bob_env = inr 2 /\
  get_user bought 2 = Some Sample.bob /\
  exists history,
    get_purchase_history Sample.bob_env bought =
      (bought, respond 200 (PPurchases history)) /\
    Permutation (map fst history)
      (filter (fun p => pu_user_id p =? 2) (purchases bought)).
Proof.
  intros bought.
  assert (H1 : current_user_id (RT := Demo.runtime) Sample.bob_env = inr 2)
    by reflexivity.
  assert (H2 : get_user bought 2 = Some Sample.bob) by reflexivity.
  destruct (get_purchase_history_spec Sample.bob_env bought 2 Sample.bob H1 H2)
    as (history & Hget & Hperm & _).
  exact (conj H1 (conj H2 (ex_intro _ history (conj Hget Hperm)))).
Defined.

Lemma checkout_then_history_witness :
  current_user_id (RT := Demo.runtime) Sample.bob_env = inr 2 /\
  get_user Sample.shop 2 = Some Sample.bob /\
  purchase_ids_fresh Sample.shop /\
  status (snd (checkout Sample.bob_env Sample.shop)) = 200 /\
  exists detail history,
    body (snd (checkout Sample.bob_env Sample.shop)) =
      PCheckout "Checkout successful!" (purchase_id (fst detail)) detail /\
    snd (get_purchase_history Sample.bob_env
           (fst (checkout Sample.bob_env Sample.shop))) =
      respond 200 (PPurchases history) /\
    In detail history.
Proof.
  assert (H1 : current_user_id (RT := Demo.runtime) Sample.bob_env = inr 2)
    by reflexivity.
  assert (H2 : get_user Sample.shop 2 = Some Sample.bob) by reflexivity.
  assert (H3 : purchase_ids_fresh Sample.shop) by (split; intros ? []).
  assert (H4 : status (snd (checkout Sample.bob_env Sample.shop)) = 200)
    by reflexivity.
  destruct (checkout_then_history (RT := Demo.runtime)) as (_ & Hhist).
  exact (conj H1 (conj H2 (conj H3 (conj H4
           (Hhist Sample.bob_env Sample.shop 2 Sample.bob H1 H2 H3 H4))))).
Defined.

(** ** The catalog *)

Section CatalogMore.
Context {RT : Runtime}.

(** X11.  Creating a product, for a known user: a content type that is not
    multipart form data fails with UnsupportedMedia; with the right content
    type, a title, description, category or price that is missing or blank
    fails with Validation, and so does a price text that [float] does not
    read and a price of which [price <= 0] holds; a rejected commit fails
    with an Internal error; all of these leave the store as it was.  Every
    other price, one of which [price <= 0] is false (a not-a-number is such
    a price), is accepted: the call answers 201 with the new product, which
    is appended to the catalog under the next product id, with that price,
    the caller as its seller, the title, description and category trimmed,
    the saved uploads as its images and the time of the request as its
    creation time. *)
Theorem create_product_spec (e : Env) (req : Multipart) (s : State) (uid : Z)
    (u : User) :
  current_user_id e = inr uid ->
  get_user s uid = Some u ->
  (forall ct, content_type req = Some ct ->
     PyStr.contains "multipart/form-data" ct = false ->
     fails_with UnsupportedMedia (snd (create_product e req s)) /\
     fst (create_product e req s) = s) /\
  (forall ct, content_type req = Some ct ->
     PyStr.contains "multipart/form-data" ct = true ->
     (field_missing (form_get "title" (form req)) = true \/
      field_missing (form_get "description" (form req)) = true \/
      field_missing (form_get "category" (form req)) = true \/
      field_missing (form_get "price" (form req)) = true ->
        fails_with Validation (snd (create_product e req s)) /\
        fst (create_product e req s) = s) /\
     (forall t d c p,
        form_get "title" (form req) = Some t ->
        form_get "description" (form req) = Some d ->
        form_get "category" (form req) = Some c ->
        form_get "price" (form req) = Some p ->
        PyStr.strip t <> "" -> PyStr.strip d <> "" ->
        PyStr.strip c <> "" -> PyStr.strip p <> "" ->
        (float_of_str p = None \/
         (exists x, float_of_str p = Some x /\ num_le0 x = true) ->
           fails_with Validation (snd (create_product e req s)) /\
           fst (create_product e req s) = s) /\
        (forall x, float_of_str p = Some x -> num_le0 x = false ->
           (commit_ok e = false ->
              fails_with Internal (snd (create_product e req s)) /\
              fst (create_product e req s) = s) /\
           (commit_ok e = true ->
              create_product e req s =
                (with_products s
                   (products s ++
                    [{| product_id := next_product_id s;
                        title := PyStr.strip t;
                        description := PyStr.strip d;
                        category := PyStr.strip c;
                        price := x; seller_id := uid;
                        image_filenames_list := saved_filenames req;
                        created_at := now e |}])
                   (next_product_id s + 1),
                 respond 201
                   (PProduct
                      {| product_id := next_product_id s;
                         title := PyStr.strip t;
                         description := PyStr.strip d;
                         category := PyStr.strip c;
                         price := x; seller_id := uid;
                         image_filenames_list := saved_filenames req;
                         created_at := now e |})))))).
Proof.
  intros Hc Hu. unfold create_product. rewrite Hc, Hu. split.
  - intros ct -> ->. split; reflexivity.
  - intros ct -> ->. simpl. split.
    + intros Hmiss.
      destruct (missing_fields
                  [("title", form_get "title" (form req));
                   ("description", form_get "description" (form req));
                   ("category", form_get "category" (form req));
                   ("price", form_get "price" (form req))]) eqn:Hm.
      * apply no_missing_fields in Hm as (H1 & H2 & H3 & H4).
        rewrite H1, H2, H3, H4 in Hmiss. intuition discriminate.
      * split; reflexivity.
    + intros t d c p Ht Hd Hcat Hp Hts Hds Hcs Hps.
      assert (Hm : missing_fields
                [("title", form_get "title" (form req));
                 ("description", form_get "description" (form req));
                 ("category", form_get "category" (form req));
                 ("price", form_get "price" (form req))] = []).
      { apply no_missing_fields. rewrite Ht, Hd, Hcat, Hp. simpl.
        apply String.eqb_neq in Hts, Hds, Hcs, Hps. auto. }
      rewrite Hm, Ht, Hd, Hcat, Hp. simpl. split.
      * intros [->|(x & -> & ->)]; split; reflexivity.
      * intros x -> ->. split; intros ->; [split; reflexivity | reflexivity].
Qed.

Lemma find_none_below (l : list Product) (n : Z) :
  (forall p, In p l -> product_id p < n) ->
  find (fun q => product_id q =? n) l = None.
Proof.
  intros H. induction l as [|p l IH]; simpl; [reflexivity|].
  assert (Hp : (product_id p =? n) = false).
  { apply Z.eqb_neq. specialize (H p (or_introl eq_refl)). lia. }
  rewrite Hp. apply IH. intros q Hq. apply H. now right.
Qed.

Lemma ids_update_first {A B} (key : A -> B) (p : A -> bool) (f : A -> A)
    (l : list A) :
  (forall x, p x = true -> key (f x) = key x) ->
  map key (update_first p f l) = map key l.
Proof.
  intros Hf. induction l as [|x l IH]; simpl; [reflexivity|].
  destruct (p x) eqn:Hp; simpl; [now rewrite Hf | now rewrite IH].
Qed.

Lemma nodup_map_filter {A B} (key : A -> B) (p : A -> bool) (l : list A) :
  NoDup (map key l) -> NoDup (map key (filter p l)).
Proof.
  induction l as [|x l IH]; simpl; [auto|].
  intros Hnd. inversion Hnd as [|k ks Hnotin Hnd']; subst.
  destruct (p x); [|now apply IH]. simpl. constructor; [|now apply IH].
  intros Hin. apply Hnotin. apply in_map_iff in Hin as (y & Hk & Hy).
  apply in_map_iff. exists y. split; [exact Hk|]. now apply filter_In in Hy.
Qed.

Lemma product_ids_fresh_write (s s' : State) :
  Write s s' -> product_ids_fresh s -> product_ids_fresh s'.
Proof.
  intros Hw [Hnd Hlt]. destruct Hw; try (split; assumption); split; simpl.
  - rewrite map_app. simpl. apply NoDup_snoc; [exact Hnd|].
    intros Hin. apply in_map_iff in Hin as (q & Hq & Hin).
    specialize (Hlt q Hin). lia.
  - intros q Hq. apply in_app_or in Hq as [Hq|[<-|[]]];
      [specialize (Hlt q Hq)|]; lia.
  - rewrite ids_update_first; [exact Hnd|].
    intros x Hx. apply Z.eqb_eq in Hx.
    pose proof (get_product_id _ _ _ H). congruence.
  - intros q Hq. apply in_update_first in Hq as [Hq|(y & Hy & _ & ->)].
    + now apply Hlt.
    + rewrite H0. apply Hlt. unfold get_product in H.
      now apply find_some in H.
  - now apply nodup_map_filter.
  - intros q Hq. apply filter_In in Hq as [Hq _]. now apply Hlt.
Qed.

Lemma current_user_id_rejects (e : Env) (r : Response) :
  current_user_id e = inl r -> status r = 401.
Proof.
  unfold current_user_id.
  destruct (jwt_identity e) as [ident|]; [|intros H; now injection H as <-].
  destruct (int_of_str ident); [discriminate|].
  intros H. now injection H as <-.
Qed.

(** X12.  Product ids are never handed out twice: in every store reachable
    from the empty one the products have distinct ids, all below the counter.
    In such a store a product whose creation answered 201 is what the detail
    request gives for the id in that answer. *)
Theorem create_then_fetch :
  (forall s, reachable s -> product_ids_fresh s) /\
  (forall e req s,
     product_ids_fresh s ->
     status (snd (create_product e req s)) = 201 ->
     exists p,
       body (snd (create_product e req s)) = PProduct p /\
       get_product_detail_route (product_id p) (fst (create_product e req s)) =
         (fst (create_product e req s), respond 200 (PProduct p))).
Proof.
  split.
  - induction 1 as [|e r s Hr IH].
    + split; [constructor | intros ? []].
    + apply (product_ids_fresh_write s); [apply handle_writes | exact IH].
  - intros e req s [_ Hlt]. unfold create_product.
    destruct (current_user_id e) as [r|uid] eqn:Hc.
    { simpl. rewrite (current_user_id_rejects e r Hc). discriminate. }
    repeat (destruct_match; simpl; try discriminate). intros _.
    eexists. split; [reflexivity|].
    unfold get_product_detail_route, get_product. simpl.
    rewrite find_app_none; [reflexivity | | simpl; apply Z.eqb_refl].
    now apply find_none_below.
Qed.

Lemma find_after_delete (l : list Product) (pid : Z) :
  find (fun q => product_id q =? pid)
    (filter (fun q => negb (product_id q =? pid)) l) = None.
Proof.
  induction l as [|p l IH]; simpl; [reflexivity|].
  destruct (product_id p =? pid) eqn:Hp; simpl; [exact IH|].
  now rewrite Hp.
Qed.

Lemma filter_twice {A} (p : A -> bool) (l : list A) :
  filter p (filter p l) = filter p l.
Proof.
  induction l as [|x l IH]; simpl; [reflexivity|].
  destruct (p x) eqn:Hp; simpl; [now rewrite Hp, IH | exact IH].
Qed.

Lemma find_kept_after_delete (l : list Product) (pid pid' : Z) (q : Product) :
  pid' <> pid ->
  find (fun x => product_id x =? pid') l = Some q ->
  find (fun x => product_id x =? pid')
    (filter (fun x => negb (product_id x =? pid)) l) = Some q.
Proof.
  intros Hne. induction l as [|x l IH]; simpl; [discriminate|].
  destruct (product_id x =? pid') eqn:Hx.
  - intros Hq. injection Hq as ->. apply Z.eqb_eq in Hx.
    assert (Hk : (product_id q =? pid) = false)
      by (apply Z.eqb_neq; congruence).
    rewrite Hk. simpl. apply Z.eqb_eq in Hx. now rewrite Hx.
  - intros Hq. destruct (product_id x =? pid); simpl; [now apply IH|].
    rewrite Hx. now apply IH.
Qed.

(** X13.  Updating a product: an id no product has fails with NotFound and
    a product the caller does not sell fails with Forbidden, both before the
    content type and the fields are looked at; for the seller, with multipart
    form data, a price field whose text [float] does not read, or of whose
    number [price <= 0] holds, fails with Validation whatever else was sent;
    each failure, a rejected commit included, leaves the store as it was.
    Otherwise (no price field, or one of whose number [price <= 0] is false,
    a not-a-number included) the call answers 200 with the product as
    stored: its id, seller and creation time are kept, the price is the one
    sent or, none sent, the one it had, a text field that was sent is stored
    trimmed and one that was not sent is kept, the image list is the kept
    names followed by the saved uploads, the product is found under its id
    and no other product changes. *)
Theorem update_product_spec (e : Env) (pid : Z) (req : Multipart) (s : State)
    (uid : Z) :
  current_user_id e = inr uid ->
  (get_product s pid = None ->
     fails_with NotFound (snd (update_product e pid req s)) /\
     fst (update_product e pid req s) = s) /\
  (forall product, get_product s pid = Some product ->
     (seller_id product <> uid ->
        fails_with Forbidden (snd (update_product e pid req s)) /\
        fst (update_product e pid req s) = s) /\
     (forall ct, seller_id product = uid ->
        content_type req = Some ct ->
        PyStr.contains "multipart/form-data" ct = true ->
        (forall v, form_get "price" (form req) = Some v ->
           float_of_str v = None \/
           (exists x, float_of_str v = Some x /\ num_le0 x = true) ->
           fails_with Validation (snd (update_product e pid req s)) /\
           fst (update_product e pid req s) = s) /\
        (forall x,
           form_get "price" (form req) = None /\ x = price product \/
           (exists v, form_get "price" (form req) = Some v /\
                      float_of_str v = Some x /\ num_le0 x = false) ->
           (commit_ok e = false ->
              fails_with Internal (snd (update_product e pid req s)) /\
              fst (update_product e pid req s) = s) /\
           (commit_ok e = true ->
              exists updated,
                snd (update_product e pid req s) = respond 200 (PProduct updated) /\
                get_product (fst (update_product e pid req s)) pid = Some updated /\
                product_id updated = pid /\
                seller_id updated = uid /\
                created_at updated = created_at product /\
                price updated = x /\
                title updated = form_text "title" (form req) (title product) /\
                description updated =
                  form_text "description" (form req) (description product) /\
                category updated =
                  form_text "category" (form req) (category product) /\
                image_filenames_list updated =
                  kept_filenames req ++ saved_filenames req /\
                filter (fun q => negb (product_id q =? pid))
                  (products (fst (update_product e pid req s))) =
                filter (fun q => negb (product_id q =? pid)) (products s) /\
                List.length (products (fst (update_product e pid req s))) =
                  List.length (products s))))).
Proof.
  intros Hc. unfold update_product. rewrite Hc. split.
  - intros ->. split; reflexivity.
  - intros product Hp. rewrite Hp. split.
    + intros Hne. apply Z.eqb_neq in Hne. rewrite Hne. split; reflexivity.
    + intros ct Hown -> ->. pose proof Hown as Hown'.
      apply Z.eqb_eq in Hown'. rewrite Hown'. simpl. split.
      * intros v Hv Hbad. unfold requested_price. rewrite Hv.
        destruct Hbad as [->|(x & -> & ->)]; split; reflexivity.
      * intros x Hx.
        assert (Hprice : requested_price (form req) (price product) = inr x).
        { unfold requested_price.
          destruct Hx as [[-> ->]|(v & -> & -> & ->)]; reflexivity. }
        rewrite Hprice. split; intros ->; [split; reflexivity|].
        pose proof (get_product_id _ _ _ Hp) as Hid.
        eexists. split; [reflexivity|]. simpl. repeat apply conj;
          try reflexivity; try assumption.
        -- unfold get_product in *. simpl.
           match goal with
           | |- find _ (update_first _ ?f _) = _ =>
               apply (find_update_first _ f _ product Hp)
           end.
           simpl. rewrite Hid. apply Z.eqb_refl.
        -- apply others_update_first. intros q Hq. simpl.
           rewrite Hid. apply Z.eqb_refl.
        -- apply length_update_first.
Qed.

(** X14.  Deleting a product: an id no product has fails with NotFound, a
    product the caller does not sell fails with Forbidden, a rejected commit
    fails with an Internal error, and each leaves the store as it was;
    otherwise the call answers 200, the product is gone (the detail request
    for its id answers NotFound) and every other product is kept as it
    was. *)
Theorem delete_product_spec (e : Env) (pid : Z) (s : State) (uid : Z) :
  current_user_id e = inr uid ->
  (get_product s pid = None ->
     fails_with NotFound (snd (delete_product e pid s)) /\
     fst (delete_product e pid s) = s) /\
  (forall product, get_product s pid = Some product ->
     (seller_id product <> uid ->
        fails_with Forbidden (snd (delete_product e pid s)) /\
        fst (delete_product e pid s) = s) /\
     (seller_id product = uid -> commit_ok e = false ->
        fails_with Internal (snd (delete_product e pid s)) /\
        fst (delete_product e pid s) = s) /\
     (seller_id product = uid -> commit_ok e = true ->
        status (snd (delete_product e pid s)) = 200 /\
        get_product (fst (delete_product e pid s)) pid = None /\
        fails_with NotFound
          (snd (get_product_detail_route pid (fst (delete_product e pid s)))) /\
        products (fst (delete_product e pid s)) =
          filter (fun q => negb (product_id q =? pid)) (products s) /\
        (forall pid' q, pid' <> pid ->
           (get_product (fst (delete_product e pid s)) pid' = Some q <->
            get_product s pid' = Some q)))).
Proof.
  intros Hc. unfold delete_product. rewrite Hc. split.
  - intros ->. split; reflexivity.
  - intros product Hp. rewrite Hp. repeat apply conj.
    + intros Hne. apply Z.eqb_neq in Hne. rewrite Hne. split; reflexivity.
    + intros Hown ->. apply Z.eqb_eq in Hown. rewrite Hown. split; reflexivity.
    + intros Hown ->. apply Z.eqb_eq in Hown. rewrite Hown. simpl.
      assert (Hgone : get_product
                (with_products s
                   (filter (fun q => negb (product_id q =? pid)) (products s))
                   (next_product_id s)) pid = None)
        by apply find_after_delete.
      repeat apply conj; try reflexivity.
      * exact Hgone.
      * unfold get_product_detail_route. now rewrite Hgone.
      * intros pid' q Hne. unfold get_product. simpl. split.
        -- apply find_deleted.
        -- now apply find_kept_after_delete.
Qed.

(** X15.  The seller's listing answers 200 and changes nothing, whether or
    not a user with the token's id still exists; it lists exactly the
    products whose seller is the token's user, each once, newest first. *)
Theorem get_my_listings_spec (e : Env) (s : State) (uid : Z) :
  current_user_id e = inr uid ->
  exists listing,
    get_my_listings e s = (s, respond 200 (PProducts listing)) /\
    Permutation listing (filter (fun p => seller_id p =? uid) (products s)) /\
    StronglySorted (newest_first created_at) listing /\
    (forall p, In p listing <-> In p (products s) /\ seller_id p = uid).
Proof.
  intros Hc. unfold get_my_listings. rewrite Hc. eexists.
  split; [reflexivity|]. repeat apply conj.
  - apply Permutation_sym, order_by_desc_perm.
  - apply order_by_desc_sorted.
  - intros p. split.
    + intros Hin.
      apply (Permutation_in _ (Permutation_sym (order_by_desc_perm _ _))) in Hin.
      apply filter_In in Hin as [Hin Hp]. apply Z.eqb_eq in Hp. now split.
    + intros [Hin Hp]. apply (Permutation_in _ (order_by_desc_perm _ _)).
      apply filter_In. split; [exact Hin | now apply Z.eqb_eq].
Qed.

End CatalogMore.

Lemma create_product_spec_witness :
  current_user_id (RT := Demo.runtime) Sample.alice_env = inr 1 /\
  get_user Sample.shop 1 = Some Sample.alice /\
  PyStr.contains "multipart/form-data" "multipart/form-data; boundary=----x"
    = true /\
  float_of_str (Runtime := Demo.runtime) "12" = Some (Sample.hundredths 1200) /\
  num_le0 (Sample.hundredths 1200) = false /\
  commit_ok Sample.alice_env = true /\
  snd (create_product Sample.alice_env MoreSample.vase Sample.shop) =
    respond 201
      (PProduct
         {| product_id := 3; title := "Vase"; description := "Glass vase";
            category := "Home"; price := Sample.hundredths 1200; seller_id := 1;
            image_filenames_list := ["0f3c.png"]; created_at := 1700000000 |}).
Proof.
  assert (H1 : current_user_id (RT := Demo.runtime) Sample.alice_env = inr 1)
    by reflexivity.
  assert (H2 : get_user Sample.shop 1 = Some Sample.alice) by reflexivity.
  assert (H3 : PyStr.contains "multipart/form-data"
                 "multipart/form-data; boundary=----x" = true) by reflexivity.
  assert (H4 : float_of_str (Runtime := Demo.runtime) "12"
               = Some (Sample.hundredths 1200)) by reflexivity.
  assert (H5 : num_le0 (Sample.hundredths 1200) = false) by reflexivity.
  assert (H6 : commit_ok Sample.alice_env = true) by reflexivity.
  destruct (create_product_spec Sample.alice_env MoreSample.vase Sample.shop 1
              Sample.alice H1 H2) as (_ & Hmultipart).
  destruct (Hmultipart _ eq_refl H3) as (_ & Hfields).
  destruct (Hfields " Vase " "Glass vase" "Home" "12" eq_refl eq_refl eq_refl
              eq_refl) as (_ & Hprice);
    try (vm_compute; discriminate).
  destruct (Hprice _ H4 H5) as (_ & Hok).
  pose proof (f_equal snd (Hok H6)) as Hresp.
  exact (conj H1 (conj H2 (conj H3 (conj H4 (conj H5 (conj H6 Hresp)))))).
Defined.

Lemma create_then_fetch_witness :
  product_ids_fresh Sample.shop /\
  status (snd (create_product Sample.alice_env MoreSample.vase Sample.shop)) = 201 /\
  exists p,
    body (snd (create_product Sample.alice_env MoreSample.vase Sample.shop)) =
      PProduct p /\
    get_product_detail_route (product_id p)
      (fst (create_product Sample.alice_env MoreSample.vase Sample.shop)) =
      (fst (create_product Sample.alice_env MoreSample.vase Sample.shop),
       respond 200 (PProduct p)).
Proof.
  assert (H1 : product_ids_fresh Sample.shop).
  { split.
    - simpl. constructor; [intros [H|[]]; discriminate H|].
      constructor; [simpl; tauto | constructor].
    - intros p [<-|[<-|[]]]; simpl; lia. }
  assert (H2 : status (snd (create_product Sample.alice_env MoreSample.vase
                              Sample.shop)) = 201) by reflexivity.
  destruct (create_then_fetch (RT := Demo.runtime)) as (_ & Hfetch).
  exact (conj H1 (conj H2 (Hfetch _ _ _ H1 H2))).
Defined.

Lemma update_product_spec_witness :
  current_user_id (RT := Demo.runtime) Sample.alice_env = inr 1 /\
  get_product Sample.shop 1 = Some Sample.productA /\
  seller_id Sample.productA = 1 /\
  (form_get "price" (form MoreSample.rename_lamp) = None /\
   Sample.hundredths 1000 = price Sample.productA \/
   exists v, form_get "price" (form MoreSample.rename_lamp) = Some v /\
             float_of_str (Runtime := Demo.runtime) v =
               Some (Sample.hundredths 1000) /\
             num_le0 (Sample.hundredths 1000) = false) /\
  commit_ok Sample.alice_env = true /\
  exists updated,
    snd (update_product Sample.alice_env 1 MoreSample.rename_lamp Sample.shop) =
      respond 200 (PProduct updated) /\
    price updated = Sample.hundredths 1000 /\
    title updated = "Big lamp" /\
    description updated = "Desk lamp".
Proof.
  assert (H1 : current_user_id (RT := Demo.runtime) Sample.alice_env = inr 1)
    by reflexivity.
  assert (H2 : get_product Sample.shop 1 = Some Sample.productA) by reflexivity.
  assert (H3 : seller_id Sample.productA = 1) by reflexivity.
  assert (H4 : form_get "price" (form MoreSample.rename_lamp) = None /\
               Sample.hundredths 1000 = price Sample.productA \/
               exists v, form_get "price" (form MoreSample.rename_lamp) = Some v /\
                         float_of_str (Runtime := Demo.runtime) v =
                           Some (Sample.hundredths 1000) /\
                         num_le0 (Sample.hundredths 1000) = false)
    by (left; split; reflexivity).
  assert (H5 : commit_ok Sample.alice_env = true) by reflexivity.
  destruct (update_product_spec Sample.alice_env 1 MoreSample.rename_lamp
              Sample.shop 1 H1) as (_ & Hfound).
  destruct (Hfound _ H2) as (_ & Hseller).
  destruct (Hseller _ H3 eq_refl eq_refl) as (_ & Hprice).
  destruct (Hprice _ H4) as (_ & Hok).
  destruct (Hok H5)
    as (updated & Hresp & _ & _ & _ & _ & Hx & Htitle & Hdesc & _).
  exact (conj H1 (conj H2 (conj H3 (conj H4 (conj H5
           (ex_intro _ updated
              (conj Hresp (conj Hx (conj Htitle Hdesc))))))))).
Defined.

Lemma delete_product_spec_witness :
  current_user_id (RT := Demo.runtime) Sample.alice_env = inr 1 /\
  get_product Sample.shop 1 = Some Sample.productA /\
  seller_id Sample.productA = 1 /\
  commit_ok Sample.alice_env = true /\
  status (snd (delete_product Sample.alice_env 1 Sample.shop)) = 200 /\
  get_product (fst (delete_product Sample.alice_env 1 Sample.shop)) 1 = None.
Proof.
  assert (H1 : current_user_id (RT := Demo.runtime) Sample.alice_env = inr 1)
    by reflexivity.
  assert (H2 : get_product Sample.shop 1 = Some Sample.productA) by reflexivity.
  assert (H3 : seller_id Sample.productA = 1) by reflexivity.
  assert (H4 : commit_ok Sample.alice_env = true) by reflexivity.
  destruct (delete_product_spec Sample.alice_env 1 Sample.shop 1 H1)
    as (_ & Hfound).
  destruct (Hfound _ H2) as (_ & _ & Hok).
  destruct (Hok H3 H4) as (H200 & Hgone & _).
  exact (conj H1 (conj H2 (conj H3 (conj H4 (conj H200 Hgone))))).
Defined.

Lemma get_my_listings_spec_witness :
  current_user_id (RT := Demo.runtime) Sample.alice_env = inr 1 /\
  exists listing,
    get_my_listings Sample.alice_env Sample.shop =
      (Sample.shop, respond 200 (PProducts listing)) /\
    Permutation listing
      (filter (fun p => seller_id p =? 1) (products Sample.shop)).
Proof.
  assert (H1 : current_user_id (RT := Demo.runtime) Sample.alice_env = inr 1)
    by reflexivity.
  destruct (get_my_listings_spec Sample.alice_env Sample.shop 1 H1)
    as (listing & Hget & Hperm & _).
  exact (conj H1 (ex_intro _ listing (conj Hget Hperm))).
Defined.

(** ** Users *)

Section UsersMore.
Context {RT : Runtime}.

Ltac users_kept :=
  simpl; try (split; reflexivity);
  repeat (destruct_match; simpl; try (split; reflexivity)).

(** Only registration and the profile update write to the users. *)
Lemma users_kept_by_others (e : Env) (r : Request) (s : State) :
  (forall data, r <> Register data) ->
  (forall data, r <> UpdateProfile data) ->
  users (fst (handle e r s)) = users s /\
  next_user_id (fst (handle e r s)) = next_user_id s.
Proof.
  intros Hreg Hupd.
  destruct r; try (now elim (Hreg data)); try (now elim (Hupd data)); simpl;
    unfold get_me, create_product, update_product, get_product_detail_route,
      delete_product, get_products, get_my_listings, get_cart_items,
      add_to_cart, add_to_cart_row, update_cart_item_quantity,
      remove_from_cart, checkout, get_purchase_history, get_wishlist,
      add_to_wishlist, remove_from_wishlist;
    users_kept.
Qed.

(** What a profile update leaves of the users. *)
Lemma update_profile_users (e : Env) (data : option dict) (s : State) :
  users (fst (update_profile e data s)) = users s \/
  exists uid name image,
    current_user_id e = inr uid /\
    fst (update_profile e data s) =
      with_users s
        (update_first (fun u => user_id u =? uid) (set_profile name image)
           (users s))
        (next_user_id s).
Proof.
  unfold update_profile.
  destruct (current_user_id e) as [r|uid] eqn:Hc; [now left|].
  destruct (get_user s uid); [|now left].
  destruct (body_missing data); [now left|].
  destruct (requested_username s u (body_dict data)) as [r|name]; [now left|].
  destruct (requested_profile_image u (body_dict data)) as [r|image];
    [now left|].
  destruct (commit_ok e); [|now left].
  right. now exists uid, name, image.
Qed.

(** X16.  A profile update, whatever its outcome, changes nothing but the
    username and the profile image of the token's user: the ids, emails and
    password hashes of all users stay as they were and in the same order,
    every other user's row is untouched, no user is added or removed, and no
    other table is written. *)
Theorem update_profile_frame (e : Env) (data : option dict) (s : State) :
  map user_id (users (fst (update_profile e data s))) = map user_id (users s) /\
  map email (users (fst (update_profile e data s))) = map email (users s) /\
  map password_hash (users (fst (update_profile e data s))) =
    map password_hash (users s) /\
  (forall uid, current_user_id e = inr uid ->
     filter (fun u => negb (user_id u =? uid))
       (users (fst (update_profile e data s))) =
     filter (fun u => negb (user_id u =? uid)) (users s)) /\
  products (fst (update_profile e data s)) = products s /\
  cart_items (fst (update_profile e data s)) = cart_items s /\
  wishlist_items (fst (update_profile e data s)) = wishlist_items s /\
  purchases (fst (update_profile e data s)) = purchases s /\
  purchase_items (fst (update_profile e data s)) = purchase_items s.
Proof.
  assert (Hrest :
    products (fst (update_profile e data s)) = products s /\
    cart_items (fst (update_profile e data s)) = cart_items s /\
    wishlist_items (fst (update_profile e data s)) = wishlist_items s /\
    purchases (fst (update_profile e data s)) = purchases s /\
    purchase_items (fst (update_profile e data s)) = purchase_items s).
  { unfold update_profile.
    repeat (destruct_match; simpl; try (repeat split; reflexivity)). }
  destruct (update_profile_users e data s)
    as [Hsame|(uid & name & image & Hc & Hs)].
  - rewrite Hsame. repeat split; try reflexivity; apply Hrest.
  - rewrite Hs in *. simpl in *. repeat split; try apply Hrest.
    + now apply ids_update_first.
    + now apply ids_update_first.
    + now apply ids_update_first.
    + intros uid' Hc'. assert (uid' = uid) by congruence. subst uid'.
      apply others_update_first. intros x Hx. exact Hx.
Qed.

Lemma register_emails_unique (e : Env) (data : option json) (s : State) :
  emails_unique s -> emails_unique (fst (register e data s)).
Proof.
  intros Hu. unfold emails_unique in *. unfold register.
  repeat (destruct_match; simpl; try exact Hu).
  rewrite map_app. simpl. apply NoDup_snoc; [exact Hu|].
  match goal with
  | H : email_taken _ _ = false |- _ =>
      exact (existsb_false_not_in email String.eqb String.eqb_eq _ _ H)
  end.
Qed.

Lemma handle_emails_unique (e : Env) (r : Request) (s : State) :
  emails_unique s -> emails_unique (fst (handle e r s)).
Proof.
  intros Hu.
  destruct r;
    try (unfold emails_unique;
         match goal with
         | |- context [handle e ?r s] =>
             destruct (users_kept_by_others e r s
                         ltac:(intros; discriminate) ltac:(intros; discriminate))
               as [-> _]
         end;
         exact Hu);
    cbn [handle].
  - now apply register_emails_unique.
  - unfold emails_unique.
    match goal with
    | |- context [update_profile ?e ?d ?s] =>
        destruct (update_profile_frame e d s) as (_ & -> & _)
    end.
    exact Hu.
Qed.

Lemma register_user_ids_fresh (e : Env) (data : option json) (s : State) :
  user_ids_fresh s -> user_ids_fresh (fst (register e data s)).
Proof.
  intros [Hnd Hlt]. unfold user_ids_fresh, register.
  repeat (destruct_match; simpl; try (now split)).
  split.
  - rewrite map_app. simpl. apply NoDup_snoc; [exact Hnd|].
    intros Hin. apply in_map_iff in Hin as (u & Hid & Hin).
    specialize (Hlt u Hin). lia.
  - intros u Hin. apply in_app_or in Hin as [Hin|[<-|[]]];
      [specialize (Hlt u Hin)|simpl]; lia.
Qed.

Lemma update_profile_user_ids_fresh (e : Env) (data : option dict) (s : State) :
  user_ids_fresh s -> user_ids_fresh (fst (update_profile e data s)).
Proof.
  intros [Hnd Hlt]. unfold user_ids_fresh.
  destruct (update_profile_users e data s)
    as [Hsame|(uid & name & image & _ & Hs)].
  - assert (Hnext : next_user_id (fst (update_profile e data s))
                    = next_user_id s).
    { unfold update_profile. repeat (destruct_match; simpl; try reflexivity). }
    rewrite Hsame, Hnext. now split.
  - rewrite Hs. simpl. split.
    + now rewrite ids_update_first.
    + intros u Hin. apply in_update_first in Hin as [Hin|(y & Hy & _ & ->)];
        [now apply Hlt | simpl; now apply Hlt].
Qed.

Lemma handle_user_ids_fresh (e : Env) (r : Request) (s : State) :
  user_ids_fresh s -> user_ids_fresh (fst (handle e r s)).
Proof.
  intros Hu.
  destruct r;
    try (unfold user_ids_fresh;
         match goal with
         | |- context [handle e ?r s] =>
             destruct (users_kept_by_others e r s
                         ltac:(intros; discriminate) ltac:(intros; discriminate))
               as [-> ->]
         end;
         exact Hu);
    cbn [handle].
  - now apply register_user_ids_fresh.
  - now apply update_profile_user_ids_fresh.
Qed.

(** X17.  Every request keeps the emails of the users distinct and their
    ids distinct and below the counter, so it is so in every store reachable
    from the empty one (usernames are not in this list: a profile update can
    make two of them equal). *)
Theorem emails_and_ids_unique :
  (forall e r s, emails_unique s -> emails_unique (fst (handle e r s))) /\
  (forall e r s, user_ids_fresh s -> user_ids_fresh (fst (handle e r s))) /\
  (forall s, reachable s -> emails_unique s /\ user_ids_fresh s).
Proof.
  split; [exact handle_emails_unique|]. split; [exact handle_user_ids_fresh|].
  induction 1 as [|e r s Hr [IHe IHi]].
  - split; [constructor|]. split; [constructor | intros ? []].
  - split; [now apply handle_emails_unique | now apply handle_user_ids_fresh].
Qed.

Lemma find_user_none_below (l : list User) (n : Z) :
  (forall u, In u l -> user_id u < n) ->
  find (fun u => user_id u =? n) l = None.
Proof.
  intros H. induction l as [|u l IH]; simpl; [reflexivity|].
  assert (Hu : (user_id u =? n) = false).
  { apply Z.eqb_neq. specialize (H u (or_introl eq_refl)). lia. }
  rewrite Hu. apply IH. intros v Hv. apply H. now right.
Qed.

(** X18.  The tokens issued at registration name the new user: where user
    ids in use lie below the counter and the id's decimal text reads back as
    the id, a registration that answered 201 returns an access and a refresh
    token with the same identity, good for 1 hour and 30 days, and a request
    for the current user made with that identity answers 200 with exactly the
    user of the registration answer. *)
Theorem register_then_get_me (e : Env) (data : option json) (s : State) :
  user_ids_fresh s ->
  int_of_str (str_of_int (next_user_id s)) = Some (next_user_id s) ->
  status (snd (register e data s)) = 201 ->
  exists access refresh user,
    body (snd (register e data s)) = PAuth access refresh user /\
    tok_identity refresh = tok_identity access /\
    tok_refresh access = false /\ tok_refresh refresh = true /\
    tok_expires_seconds access = 3600 /\
    tok_expires_seconds refresh = 2592000 /\
    In user (users (fst (register e data s))) /\
    forall e',
      jwt_identity e' = Some (tok_identity access) ->
      get_me e' (fst (register e data s)) =
        (fst (register e data s), respond 200 (PUser user)).
Proof.
  intros [_ Hlt] Hread. unfold register.
  repeat (destruct_match; simpl; try discriminate). intros _.
  eexists. eexists. eexists. split; [reflexivity|]. simpl.
  repeat split.
  - apply in_or_app. right. now left.
  - intros e' Hid. unfold get_me, current_user_id. rewrite Hid. simpl.
    rewrite Hread. unfold get_user. simpl.
    rewrite find_app_none; [reflexivity | | simpl; apply Z.eqb_refl].
    now apply find_user_none_below.
Qed.

End UsersMore.

Lemma emails_and_ids_unique_witness :
  emails_unique Sample.one_user /\
  user_ids_fresh Sample.one_user /\
  emails_unique
    (fst (handle Sample.bob_env
            (Register (Some (JObj [("email", JStr "bob@example.org");
                                   ("username", JStr "bob");
                                   ("password", JStr "builder")])))
            Sample.one_user)) /\
  reachable (fst (handle Sample.alice_env (Register Sample.alice_data)
                    empty_state)) /\
  user_ids_fresh (fst (handle Sample.alice_env (Register Sample.alice_data)
                         empty_state)).
Proof.
  assert (H1 : emails_unique Sample.one_user).
  { unfold emails_unique. simpl. constructor; [simpl; tauto | constructor]. }
  assert (H2 : user_ids_fresh Sample.one_user).
  { split.
    - simpl. constructor; [simpl; tauto | constructor].
    - intros u [<-|[]]. simpl. lia. }
  assert (H3 : reachable (fst (handle Sample.alice_env
                                 (Register Sample.alice_data) empty_state)))
    by apply reachable_step, reachable_empty.
  destruct (emails_and_ids_unique (RT := Demo.runtime))
    as (Hemails & _ & Hreach).
  exact (conj H1 (conj H2 (conj (Hemails _ _ _ H1)
           (conj H3 (proj2 (Hreach _ H3)))))).
Defined.

Lemma register_then_get_me_witness :
  let data : option (@json Demo.runtime) :=
    Some (JObj [("email", JStr "bob@example.org"); ("username", JStr "bob");
                ("password", JStr "builder")]) in
  user_ids_fresh Sample.one_user /\
  int_of_str (Runtime := Demo.runtime)
    (str_of_int (Runtime := Demo.runtime) (next_user_id Sample.one_user)) =
    Some (next_user_id Sample.one_user) /\
  status (snd (register Sample.bob_env data Sample.one_user)) = 201 /\
  exists access refresh user,
    body (snd (register Sample.bob_env data Sample.one_user)) =
      PAuth access refresh user /\
    forall e',
      jwt_identity e' = Some (tok_identity access) ->
      get_me e' (fst (register Sample.bob_env data Sample.one_user)) =
        (fst (register Sample.bob_env data Sample.one_user),
         respond 200 (PUser user)).
Proof.
  intros data.
  assert (H1 : user_ids_fresh Sample.one_user).
  { split.
    - simpl. constructor; [simpl; tauto | constructor].
    - intros u [<-|[]]. simpl. lia. }
  assert (H2 : int_of_str (Runtime := Demo.runtime)
                 (str_of_int (Runtime := Demo.runtime)
                    (next_user_id Sample.one_user)) =
               Some (next_user_id Sample.one_user)) by reflexivity.
  assert (H3 : status (snd (register Sample.bob_env data Sample.one_user)) = 201)
    by reflexivity.
  destruct (register_then_get_me Sample.bob_env data Sample.one_user H1 H2 H3)
    as (access & refresh & user & Hbody & _ & _ & _ & _ & _ & _ & Hme).
  split; [exact H1|]. split; [exact H2|]. split; [exact H3|].
  exists access, refresh, user. exact (conj Hbody Hme).
Defined.

Lemma update_profile_frame_witness :
  let data : option (@dict Demo.runtime) := Some [("username", JStr "robert")] in
  current_user_id (RT := Demo.runtime) Sample.bob_env = inr 2 /\
  map username (users (fst (update_profile Sample.bob_env data Sample.shop))) =
    ["alice"; "robert"] /\
  filter (fun u => negb (user_id u =? 2))
    (users (fst (update_profile Sample.bob_env data Sample.shop))) =
  filter (fun u => negb (user_id u =? 2)) (users Sample.shop).
Proof.
  intros data.
  assert (H1 : current_user_id (RT := Demo.runtime) Sample.bob_env = inr 2)
    by reflexivity.
  destruct (update_profile_frame Sample.bob_env data Sample.shop)
    as (_ & _ & _ & Hothers & _).
  exact (conj H1 (conj eq_refl (Hothers 2 H1))).
Defined.

(** ** Listing, filtering and searching *)

Section Paging.
Context {RT : Runtime}.

(** X19.  The product listing with page [p] and page size [n], where a
    requested page below 1 counts as page 1 and a requested page size below 1
    as 20: the answer is 200 and holds the products at positions [(p-1)*n]
    to [p*n - 1] of the matches, newest first, so never more than [n]; a page
    past the last one is answered with no products, not with an error; there
    is a next page exactly when matches lie beyond this page and a previous
    one exactly when [p] is above 1; the page number reported is [p]. *)
Theorem get_products_paging (a : ListArgs) (s : State) :
  exists page,
    get_products a s = (s, respond 200 (PPage page)) /\
    forall p n,
      (1 <= int_arg (arg_page a) 1 /\ p = int_arg (arg_page a) 1 \/
       int_arg (arg_page a) 1 < 1 /\ p = 1) ->
      (1 <= int_arg (arg_per_page a) 8 /\ n = int_arg (arg_per_page a) 8 \/
       int_arg (arg_per_page a) 8 < 1 /\ n = 20) ->
      pg_products page =
        firstn (Z.to_nat n)
          (skipn (Z.to_nat ((p - 1) * n))
             (order_by_desc created_at (matching_products a s))) /\
      (List.length (pg_products page) <= Z.to_nat n)%nat /\
      (Z.of_nat (List.length (matching_products a s)) <= (p - 1) * n ->
         pg_products page = []) /\
      (has_next page = true <->
         p * n < Z.of_nat (List.length (matching_products a s))) /\
      (has_prev page = true <-> 1 < p) /\
      current_page page = p.
Proof.
  eexists. split; [reflexivity|]. unfold paginate.
  set (rows := order_by_desc created_at (matching_products a s)).
  assert (Hlen : List.length rows = List.length (matching_products a s)).
  { symmetry. apply Permutation_length, order_by_desc_perm. }
  cbn [pg_products has_next has_prev current_page].
  intros p n Hp Hn.
  assert (Hp' : (if int_arg (arg_page a) 1 <? 1 then 1
                 else int_arg (arg_page a) 1) = p /\ 1 <= p).
  { destruct Hp as [[H ->]|[H ->]].
    - apply Z.ltb_ge in H as H'. now rewrite H'.
    - apply Z.ltb_lt in H. rewrite H. split; [reflexivity | lia]. }
  assert (Hn' : (if int_arg (arg_per_page a) 8 <? 1 then 20
                 else int_arg (arg_per_page a) 8) = n /\ 1 <= n).
  { destruct Hn as [[H ->]|[H ->]].
    - apply Z.ltb_ge in H as H'. now rewrite H'.
    - apply Z.ltb_lt in H. rewrite H. split; [reflexivity | lia]. }
  destruct Hp' as [-> Hp1]. destruct Hn' as [-> Hn1].
  split; [reflexivity|].
  split; [rewrite length_firstn; apply Nat.le_min_l|].
  split.
  { intros Hpast. rewrite skipn_all2; [apply firstn_nil|]. rewrite Hlen. lia. }
  split.
  { rewrite Hlen.
    destruct (Z.of_nat (List.length (matching_products a s)) =? 0) eqn:Hz.
    - apply Z.eqb_eq in Hz. rewrite Z.ltb_lt. lia.
    - rewrite Z.ltb_lt. apply ceil_div_lt; lia. }
  split; [|reflexivity].
  rewrite Z.gtb_ltb, Z.ltb_lt. reflexivity.
Qed.

End Paging.

Lemma get_products_paging_witness :
  (1 <= int_arg (RT := Demo.runtime) (arg_page MoreSample.below_one) 1 /\
   1 = int_arg (RT := Demo.runtime) (arg_page MoreSample.below_one) 1 \/
   int_arg (RT := Demo.runtime) (arg_page MoreSample.below_one) 1 < 1 /\ 1 = 1) /\
  (1 <= int_arg (RT := Demo.runtime) (arg_per_page MoreSample.below_one) 8 /\
   20 = int_arg (RT := Demo.runtime) (arg_per_page MoreSample.below_one) 8 \/
   int_arg (RT := Demo.runtime) (arg_per_page MoreSample.below_one) 8 < 1 /\
   20 = 20) /\
  exists page,
    get_products MoreSample.below_one Sample.catalog =
      (Sample.catalog, respond 200 (PPage page)) /\
    pg_products page =
      firstn 20
        (skipn 0
           (order_by_desc created_at
              (matching_products MoreSample.below_one Sample.catalog))) /\
    current_page page = 1 /\
    (has_next page = true <->
       1 * 20 <
       Z.of_nat (List.length
                   (matching_products MoreSample.below_one Sample.catalog))).
Proof.
  assert (H1 : 1 <= int_arg (RT := Demo.runtime)
                      (arg_page MoreSample.below_one) 1 /\
               1 = int_arg (RT := Demo.runtime)
                     (arg_page MoreSample.below_one) 1 \/
               int_arg (RT := Demo.runtime)
                 (arg_page MoreSample.below_one) 1 < 1 /\ 1 = 1)
    by (right; split; reflexivity).
  assert (H2 : 1 <= int_arg (RT := Demo.runtime)
                      (arg_per_page MoreSample.below_one) 8 /\
               20 = int_arg (RT := Demo.runtime)
                      (arg_per_page MoreSample.below_one) 8 \/
               int_arg (RT := Demo.runtime)
                 (arg_per_page MoreSample.below_one) 8 < 1 /\ 20 = 20)
    by (right; split; reflexivity).
  destruct (get_products_paging MoreSample.below_one Sample.catalog)
    as (page & Hget & Hpaged).
  destruct (Hpaged 1 20 H1 H2) as (Hrows & _ & _ & Hnext & _ & Hcurrent).
  exact (conj H1 (conj H2
           (ex_intro _ page (conj Hget (conj Hrows (conj Hcurrent Hnext)))))).
Defined.

(** Page 0 with a page size of -5 over the ten chairs: all ten, as page 1
    of 20. *)
Example get_products_below_one :
  exists page,
    snd (get_products MoreSample.below_one Sample.catalog) =
      respond 200 (PPage page) /\
    map product_id (pg_products page) = [10; 9; 8; 7; 6; 5; 4; 3; 2; 1] /\
    (total_products page, current_page page, total_pages page,
     has_next page, has_prev page) = (10, 1, 1, false, false).
Proof. eexists. repeat split. Qed.

Section Filters.
Context {RT : Runtime}.

(** X20.  The category filter of the listing: no filter, an empty one, or
    the word "all" in any letter case lets every product through; any other
    filter free of [%] and [_] lets through exactly the products whose
    category equals it up to letter case; the filter [%] lets every product
    through, for it is read as a pattern. *)
Theorem category_filter_spec (p : Product) :
  category_matches None p = true /\
  category_matches (Some "") p = true /\
  (forall c, PyStr.lower c = "all" -> category_matches (Some c) p = true) /\
  (forall c, c <> "" -> PyStr.lower c <> "all" -> Plain.plain c = true ->
     (category_matches (Some c) p = true <->
      PyStr.lower (category p) = PyStr.lower c)) /\
  category_matches (Some "%") p = true.
Proof.
  split; [reflexivity|]. split; [reflexivity|]. split; [|split].
  - intros c Hc. unfold category_matches. rewrite Hc. simpl.
    now rewrite andb_false_r.
  - intros c Hne Hall Hplain. unfold category_matches.
    apply String.eqb_neq in Hne, Hall. rewrite Hne, Hall. simpl.
    unfold PyStr.ilike. rewrite like_literal.
    + split; [intros H; symmetry; now apply chars_inj | intros ->; reflexivity].
    + now rewrite <- plain_chars, plain_lower.
  - unfold category_matches. simpl. unfold PyStr.ilike. simpl PyStr.lower.
    apply like_only_percent.
Qed.

(** X21.  The text search of the listing: no query or an empty one lets
    every product through; a query free of [%] and [_] lets through exactly
    the products in whose title or description the query occurs, letter case
    aside; the query [%] lets every product through, for the query is read
    as a pattern. *)
Theorem search_filter_spec (p : Product) :
  search_matches None p = true /\
  search_matches (Some "") p = true /\
  (forall q, q <> "" -> Plain.plain q = true ->
     (search_matches (Some q) p = true <->
      Plain.occurs_in (PyStr.lower q) (PyStr.lower (title p)) \/
      Plain.occurs_in (PyStr.lower q) (PyStr.lower (description p)))) /\
  search_matches (Some "%") p = true.
Proof.
  split; [reflexivity|]. split; [reflexivity|]. split.
  - intros q Hne Hplain. unfold search_matches.
    apply String.eqb_neq in Hne. rewrite Hne. simpl negb. cbv iota.
    rewrite orb_true_iff, !(ilike_search_term _ q Hplain). reflexivity.
  - unfold search_matches. simpl. apply orb_true_iff. left.
    unfold PyStr.ilike. simpl PyStr.lower.
    apply like_percent. exists (list_ascii_of_string (PyStr.lower (title p))), [].
    split; [now rewrite app_nil_r|].
    apply like_percent. exists [], []. split; [reflexivity|].
    apply like_only_percent.
Qed.

End Filters.

Lemma category_filter_spec_witness :
  "HOME" <> "" /\ PyStr.lower "HOME" <> "all" /\ Plain.plain "HOME" = true /\
  PyStr.lower (category Sample.productA) = PyStr.lower "HOME" /\
  category_matches (Some "HOME") Sample.productA = true.
Proof.
  assert (H1 : "HOME" <> "") by discriminate.
  assert (H2 : PyStr.lower "HOME" <> "all") by (vm_compute; discriminate).
  assert (H3 : Plain.plain "HOME" = true) by reflexivity.
  assert (H4 : PyStr.lower (category Sample.productA) = PyStr.lower "HOME")
    by reflexivity.
  destruct (category_filter_spec Sample.productA) as (_ & _ & _ & Hexact & _).
  exact (conj H1 (conj H2 (conj H3 (conj H4
           (proj2 (Hexact "HOME" H1 H2 H3) H4))))).
Defined.

Lemma search_filter_spec_witness :
  "K LA" <> "" /\ Plain.plain "K LA" = true /\
  Plain.occurs_in (PyStr.lower "K LA")
    (PyStr.lower (description Sample.productA)) /\
  search_matches (Some "K LA") Sample.productA = true.
Proof.
  assert (H1 : "K LA" <> "") by discriminate.
  assert (H2 : Plain.plain "K LA" = true) by reflexivity.
  assert (H3 : Plain.occurs_in (PyStr.lower "K LA")
                 (PyStr.lower (description Sample.productA)))
    by (exists "des", "mp"; reflexivity).
  destruct (search_filter_spec Sample.productA) as (_ & _ & Hplain & _).
  exact (conj H1 (conj H2 (conj H3
           (proj2 (Hplain "K LA" H1 H2) (or_intror H3))))).
Defined.

(** ** Uploaded files *)

Section FileNames.

Lemma prefix_dot (c : ascii) (s : string) :
  prefix "." (String c s) = Ascii.eqb c ".".
Proof.
  change (prefix "." (String c s))
    with (if ascii_dec "." c then prefix "" s else false).
  destruct (ascii_dec "." c) as [<-|Hne].
  - destruct s; reflexivity.
  - symmetry. apply Ascii.eqb_neq. congruence.
Qed.

Lemma no_dot_iff (s : string) :
  Files.after_last_dot s = None <-> PyStr.contains "." s = false.
Proof.
  induction s as [|c s IH].
  - simpl. tauto.
  - cbn [Files.after_last_dot PyStr.contains]. rewrite prefix_dot.
    destruct (Files.after_last_dot s) as [ext|].
    + split; [discriminate|]. intros H. apply orb_false_iff in H as [_ H].
      apply IH in H. discriminate.
    + rewrite (proj1 IH eq_refl), orb_false_r.
      destruct (Ascii.eqb c "."); split; intros H; try reflexivity;
        discriminate.
Qed.

Lemma after_last_dot_append (base ext : string) :
  Files.after_last_dot ext = None ->
  Files.after_last_dot (String.append base (String.append "." ext)) = Some ext.
Proof.
  intros Hext. induction base as [|c base IH]; simpl in *.
  - now rewrite Hext.
  - now rewrite IH.
Qed.

Lemma listed_iff (names : list string) (fn : string) :
  Files.listed names fn = true <-> In fn names.
Proof.
  unfold Files.listed. rewrite existsb_exists. split.
  - intros (x & Hin & Hx). apply String.eqb_eq in Hx. now subst.
  - intros Hin. exists fn. split; [exact Hin | apply String.eqb_refl].
Qed.

(** X22.  Whether an upload's filename is allowed: a name without a dot
    never is; otherwise only the text after the last dot counts, and it
    counts in lower case: [base.ext] is allowed exactly when the lower-cased
    [ext] is one of the allowed extensions, whatever [base] is (dots in it
    included). *)
Theorem allowed_file_spec (P : Platform) :
  (forall name,
     PyStr.contains "." name = false -> Files.allowed_file P name = false) /\
  (forall base ext,
     PyStr.contains "." ext = false ->
     (Files.allowed_file P (String.append base (String.append "." ext)) = true
      <-> In (PyStr.lower ext) (allowed_extensions P))).
Proof.
  split.
  - intros name Hname. apply no_dot_iff in Hname.
    unfold Files.allowed_file. now rewrite Hname.
  - intros base ext Hext. apply no_dot_iff in Hext.
    unfold Files.allowed_file. rewrite (after_last_dot_append base ext Hext).
    apply listed_iff.
Qed.

Lemma append_dot_inj (h1 h2 e1 e2 : string) :
  PyStr.contains "." h1 = false ->
  PyStr.contains "." h2 = false ->
  String.append h1 (String.append "." e1) =
  String.append h2 (String.append "." e2) ->
  h1 = h2.
Proof.
  revert h2. induction h1 as [|c h1 IH]; intros h2 H1 H2 Heq.
  - destruct h2 as [|c2 h2]; [reflexivity|]. simpl in Heq.
    injection Heq as <- _. cbn [PyStr.contains] in H2.
    rewrite prefix_dot in H2. simpl in H2. discriminate.
  - destruct h2 as [|c2 h2].
    + simpl in Heq. injection Heq as -> _. cbn [PyStr.contains] in H1.
      rewrite prefix_dot in H1. simpl in H1. discriminate.
    + simpl in Heq. injection Heq as -> Heq. f_equal.
      cbn [PyStr.contains] in H1, H2.
      apply orb_false_iff in H1 as [_ H1]. apply orb_false_iff in H2 as [_ H2].
      now apply (IH h2).
Qed.

Lemma unique_filename_shape (P : Platform) (f : FileStorage) (name : string) :
  Files.unique_filename P f = Some name ->
  exists x,
    Files.after_last_dot (secure_filename P (fs_filename f)) = Some x /\
    PyStr.lower x <> "" /\
    name = String.append (fs_uuid_hex f) (String.append "." (PyStr.lower x)) /\
    fs_filename f <> "" /\
    Files.allowed_file P (fs_filename f) = true /\
    fs_save_ok f = true.
Proof.
  unfold Files.unique_filename.
  destruct (String.eqb (fs_filename f) "") eqn:Hname; [discriminate|].
  destruct (Files.allowed_file P (fs_filename f)) eqn:Hallowed; [|discriminate].
  simpl.
  destruct (Files.after_last_dot (secure_filename P (fs_filename f))) as [x|];
    [|discriminate].
  destruct (String.eqb (PyStr.lower x) "") eqn:Hext; [discriminate|].
  destruct (fs_save_ok f); [|discriminate].
  intros H. injection H as <-. exists x.
  apply String.eqb_neq in Hname, Hext. repeat split; assumption.
Qed.

(** X23.  What [save_files_from_request] returns: nothing at all when the
    upload folder is not configured or does not exist; otherwise at most one
    name per upload, and each name is the uuid hex drawn for an upload that
    has a filename, passed [allowed_file] and was saved, followed by a dot
    and the non-empty, lower-cased extension of its sanitized filename.
    When the uuid hexes are distinct and free of dots, the names are distinct
    too. *)
Theorem save_files_from_request_spec (P : Platform) (d : Disk)
    (files : list FileStorage) :
  (folder_ready d = false -> Files.save_files_from_request P d files = []) /\
  (List.length (Files.save_files_from_request P d files) <= List.length files)%nat /\
  (forall name,
     In name (Files.save_files_from_request P d files) ->
     folder_ready d = true /\
     exists f x,
       In f files /\
       Files.after_last_dot (secure_filename P (fs_filename f)) = Some x /\
       PyStr.lower x <> "" /\
       name = String.append (fs_uuid_hex f)
                (String.append "." (PyStr.lower x)) /\
       fs_filename f <> "" /\
       Files.allowed_file P (fs_filename f) = true /\
       fs_save_ok f = true) /\
  (NoDup (map fs_uuid_hex files) ->
   (forall f, In f files -> PyStr.contains "." (fs_uuid_hex f) = false) ->
   NoDup (Files.save_files_from_request P d files)).
Proof.
  unfold Files.save_files_from_request. repeat apply conj.
  - now intros ->.
  - destruct (folder_ready d); simpl; [|lia].
    induction files as [|f files IH]; simpl; [lia|].
    rewrite length_app. destruct (Files.unique_filename P f); simpl; lia.
  - intros name. destruct (folder_ready d); simpl; [|tauto].
    intros Hin. split; [reflexivity|].
    apply in_flat_map in Hin as (f & Hf & Hname).
    destruct (Files.unique_filename P f) as [n|] eqn:Hu; [|destruct Hname].
    destruct Hname as [Heq|[]]. rewrite Heq in Hu.
    destruct (unique_filename_shape P f name Hu)
      as (x & H1 & H2 & H3 & H4 & H5 & H6).
    exists f, x. repeat split; assumption.
  - intros Hnd Hdots. destruct (folder_ready d); simpl; [|constructor].
    induction files as [|f files IH]; simpl; [constructor|].
    inversion Hnd as [|h hs Hnotin Hnd']; subst.
    assert (IH' := IH Hnd' (fun g Hg => Hdots g (or_intror Hg))).
    destruct (Files.unique_filename P f) as [n|] eqn:Hu; simpl; [|exact IH'].
    constructor; [|exact IH'].
    intros Hin. apply in_flat_map in Hin as (g & Hg & Hname).
    destruct (Files.unique_filename P g) as [m|] eqn:Hm; [|destruct Hname].
    destruct Hname as [Heq|[]]. rewrite Heq in Hm.
    destruct (unique_filename_shape P f n Hu) as (x & _ & _ & Hn & _).
    destruct (unique_filename_shape P g n Hm) as (y & _ & _ & Hn' & _).
    apply Hnotin. apply in_map_iff. exists g. split; [|exact Hg].
    apply (append_dot_inj _ _ (PyStr.lower y) (PyStr.lower x)).
    + apply Hdots. now right.
    + apply Hdots. now left.
    + congruence.
Qed.

End FileNames.

Lemma allowed_file_spec_witness :
  PyStr.contains "." "PNG" = false /\
  In (PyStr.lower "PNG") (allowed_extensions FileSample.platform) /\
  Files.allowed_file FileSample.platform "Holiday.Photo.PNG" = true.
Proof.
  assert (H1 : PyStr.contains "." "PNG" = false) by reflexivity.
  assert (H2 : In (PyStr.lower "PNG") (allowed_extensions FileSample.platform))
    by (left; reflexivity).
  destruct (allowed_file_spec FileSample.platform) as (_ & Hext).
  exact (conj H1 (conj H2 (proj2 (Hext "Holiday.Photo" "PNG" H1) H2))).
Defined.

Lemma save_files_from_request_spec_witness :
  NoDup (map fs_uuid_hex [FileSample.photo; FileSample.notes]) /\
  (forall f, In f [FileSample.photo; FileSample.notes] ->
             PyStr.contains "." (fs_uuid_hex f) = false) /\
  Files.save_files_from_request FileSample.platform FileSample.disk
    [FileSample.photo; FileSample.notes] = ["0f3c.png"] /\
  NoDup (Files.save_files_from_request FileSample.platform FileSample.disk
           [FileSample.photo; FileSample.notes]).
Proof.
  assert (H1 : NoDup (map fs_uuid_hex [FileSample.photo; FileSample.notes])).
  { simpl. constructor; [intros [H|[]]; discriminate H|].
    constructor; [simpl; tauto | constructor]. }
  assert (H2 : forall f, In f [FileSample.photo; FileSample.notes] ->
                 PyStr.contains "." (fs_uuid_hex f) = false).
  { intros f [<-|[<-|[]]]; reflexivity. }
  destruct (save_files_from_request_spec FileSample.platform FileSample.disk
              [FileSample.photo; FileSample.notes]) as (_ & _ & _ & Hdistinct).
  exact (conj H1 (conj H2 (conj eq_refl (Hdistinct H1 H2)))).
Defined.

Section ImageFiles.
Context {RT : Runtime}.
Variable P : Platform.
Variable json_loads : string -> option json.

Lemma update_product_not_reached (e : Env) (pid : Z) (req : Multipart)
    (s : State) :
  product_to_update e pid (content_type req) (form req) s = None ->
  fst (update_product e pid req s) = s.
Proof.
  unfold product_to_update, update_product.
  repeat (destruct_match; simpl; try reflexivity); discriminate.
Qed.

Lemma update_product_reached (e : Env) (pid : Z) (req : Multipart)
    (s : State) (product : Product) :
  product_to_update e pid (content_type req) (form req) s = Some product ->
  get_product s pid = Some product /\
  (commit_ok e = false ->
     fst (update_product e pid req s) = s /\
     fails_with Internal (snd (update_product e pid req s))) /\
  (commit_ok e = true ->
     status (snd (update_product e pid req s)) = 200 /\
     exists updated,
       get_product (fst (update_product e pid req s)) pid = Some updated /\
       image_filenames_list updated =
         kept_filenames req ++ saved_filenames req).
Proof.
  unfold product_to_update, update_product.
  destruct (current_user_id e) as [r|uid]; [discriminate|].
  destruct (get_product s pid) as [p|] eqn:Hp; [|discriminate].
  destruct (negb (seller_id p =? uid)); [discriminate|].
  destruct (content_type req) as [ct|]; [|discriminate].
  destruct (negb (PyStr.contains "multipart/form-data" ct)); [discriminate|].
  destruct (requested_price (form req) (price p)) as [r|x]; [discriminate|].
  intros H. injection H as <-. split; [reflexivity|]. split.
  - intros ->. split; reflexivity.
  - intros ->. simpl. split; [reflexivity|]. eexists. split.
    + unfold get_product in *. simpl.
      match goal with
      | |- find _ (update_first _ ?f _) = _ =>
          apply (find_update_first _ f _ p Hp)
      end.
      simpl. rewrite (get_product_id s pid p Hp). apply Z.eqb_refl.
    + reflexivity.
Qed.

Lemma in_remove_files (local : string -> bool) (names : list string)
    (d : Disk) (fn : string) :
  In fn (disk_files (Files.remove_files local names d)) <->
  In fn (disk_files d) /\
  ~ (folder_ready d = true /\ In fn names /\ fn <> "" /\ local fn = true /\
     can_remove d fn = true).
Proof.
  unfold Files.remove_files. simpl. rewrite filter_In. split.
  - intros [Hin Hkeep]. split; [exact Hin|].
    intros (Hready & Hnames & Hne & Hlocal & Hrm).
    apply listed_iff in Hnames. apply String.eqb_neq in Hne.
    rewrite Hready, Hnames, Hne, Hlocal, Hrm in Hkeep. discriminate.
  - intros [Hin Hnot]. split; [exact Hin|]. apply negb_true_iff.
    destruct (folder_ready d) eqn:Hready; [|reflexivity].
    destruct (Files.listed names fn) eqn:Hnames; [|reflexivity].
    destruct (String.eqb fn "") eqn:Hne; [reflexivity|].
    destruct (local fn) eqn:Hlocal; [|reflexivity].
    destruct (can_remove d fn) eqn:Hrm; [|reflexivity].
    exfalso. apply Hnot. apply listed_iff in Hnames.
    apply String.eqb_neq in Hne. auto.
Qed.

Lemma in_files_to_delete (current final : list string) (fn : string) :
  In fn (files_to_delete_from_storage current final) <->
  In fn current /\ ~ In fn final.
Proof.
  unfold files_to_delete_from_storage. rewrite filter_In, negb_true_iff.
  split; intros [H1 H2]; split; try exact H1.
  - intros Hin. apply listed_iff in Hin. congruence.
  - destruct (Files.listed final fn) eqn:Hl; [|reflexivity].
    apply listed_iff in Hl. contradiction.
Qed.

(** X24.  The images of an updated product.  Where the update returns
    before it handles the images, neither the store nor the upload folder
    changes.  Otherwise the new image list is the kept names followed by the
    saved uploads and, whether or not the commit is then accepted, the folder
    afterwards holds the files it held and the saved uploads, less the files
    the product listed before that are not in the new list (a name that is
    empty or that cannot be removed stays, and so does everything when the
    folder is missing): a file of the new list and a file the product never
    listed are not deleted.  With the commit rejected the store is unchanged,
    so it still lists files that are already gone.  Without an
    [existingImages] field nothing is kept. *)
Theorem update_product_images (e : Env) (pid : Z) (ct : option string)
    (f : list (string * string)) (uploads : list FileStorage) (s : State)
    (d : Disk) :
  (product_to_update e pid ct f s = None ->
     fst (update_product_files P json_loads e pid ct f uploads s d) = (s, d)) /\
  (forall product, product_to_update e pid ct f s = Some product ->
     (forall fn,
        In fn (disk_files
                 (snd (fst (update_product_files P json_loads e pid ct f
                              uploads s d)))) <->
        (In fn (disk_files d) \/ In fn (Files.saved_uploads P d uploads)) /\
        ~ (folder_ready d = true /\
           In fn (image_filenames_list product) /\
           ~ In fn (final_filenames_to_keep P json_loads
                      (form_get "existingImages" f)
                    ++ Files.saved_uploads P d uploads) /\
           fn <> "" /\ can_remove d fn = true)) /\
     (commit_ok e = true ->
        status (snd (update_product_files P json_loads e pid ct f uploads s d))
          = 200 /\
        exists updated,
          get_product
            (fst (fst (update_product_files P json_loads e pid ct f uploads s d)))
            pid = Some updated /\
          image_filenames_list updated =
            final_filenames_to_keep P json_loads (form_get "existingImages" f)
            ++ Files.saved_uploads P d uploads) /\
     (commit_ok e = false ->
        fst (fst (update_product_files P json_loads e pid ct f uploads s d)) = s /\
        fails_with Internal
          (snd (update_product_files P json_loads e pid ct f uploads s d)))) /\
  (form_get "existingImages" f = None ->
     final_filenames_to_keep P json_loads (form_get "existingImages" f) = []).
Proof.
  unfold update_product_files. split; [|split].
  - intros Hnone. rewrite Hnone. simpl.
    now rewrite (update_product_not_reached e pid
                   (update_request P json_loads d ct f uploads) s Hnone).
  - intros product Hsome. rewrite Hsome. cbn [fst snd].
    destruct (update_product_reached e pid
                (update_request P json_loads d ct f uploads) s product Hsome)
      as (_ & Hfail & Hok).
    split; [|split; [exact Hok | exact Hfail]].
    intros fn. rewrite in_remove_files, in_files_to_delete.
    unfold update_request, Files.with_saved.
    cbn [kept_filenames saved_filenames disk_files folder_ready can_remove].
    rewrite (in_app_iff (disk_files d)).
    assert (Htrue : true = true <-> True) by tauto.
    tauto.
  - now intros ->.
Qed.

End ImageFiles.

Section DeleteFiles.
Context {RT : Runtime}.

Lemma delete_product_not_reached (e : Env) (pid : Z) (s : State) :
  product_to_delete e pid s = None -> fst (delete_product e pid s) = s.
Proof.
  unfold product_to_delete, delete_product.
  repeat (destruct_match; simpl; try reflexivity); discriminate.
Qed.

Lemma delete_product_reached (e : Env) (pid : Z) (s : State)
    (product : Product) :
  product_to_delete e pid s = Some product ->
  get_product s pid = Some product /\
  delete_product e pid s =
    if commit_ok e then
      (with_products s
         (filter (fun q => negb (product_id q =? pid)) (products s))
         (next_product_id s),
       message 200 "Product deleted successfully")
    else (s, message 500 "Failed to delete product due to a server error").
Proof.
  unfold product_to_delete, delete_product.
  destruct (current_user_id e) as [r|uid]; [discriminate|].
  destruct (get_product s pid) as [p|]; [|discriminate].
  destruct (negb (seller_id p =? uid)); [discriminate|].
  intros H. injection H as <-. split; reflexivity.
Qed.

(** X25.  The image files of a deleted product.  Where the delete returns
    before it handles the files (no token, no such product, not the seller),
    neither the store nor the upload folder changes.  Otherwise, whether or
    not the commit is then accepted, the folder afterwards holds the files it
    held less those the product lists, names that are empty or begin with
    http:// or https:// and files that cannot be removed being left (and
    everything, when the folder is missing): a file the product does not list
    is never deleted.  With the commit rejected the product stays in the
    store although its files are already gone. *)
Theorem delete_product_images (e : Env) (pid : Z) (s : State) (d : Disk) :
  (product_to_delete e pid s = None ->
     fst (delete_product_files e pid s d) = (s, d)) /\
  (forall product, product_to_delete e pid s = Some product ->
     (forall fn,
        In fn (disk_files (snd (fst (delete_product_files e pid s d)))) <->
        In fn (disk_files d) /\
        ~ (folder_ready d = true /\ In fn (image_filenames_list product) /\
           fn <> "" /\ Files.is_http fn = false /\ can_remove d fn = true)) /\
     (commit_ok e = true ->
        status (snd (delete_product_files e pid s d)) = 200 /\
        get_product (fst (fst (delete_product_files e pid s d))) pid = None) /\
     (commit_ok e = false ->
        fails_with Internal (snd (delete_product_files e pid s d)) /\
        fst (fst (delete_product_files e pid s d)) = s /\
        get_product (fst (fst (delete_product_files e pid s d))) pid =
          Some product)).
Proof.
  unfold delete_product_files. split.
  - intros Hnone. rewrite Hnone. cbn [fst snd].
    now rewrite (delete_product_not_reached e pid s Hnone).
  - intros product Hsome. rewrite Hsome. cbn [fst snd].
    destruct (delete_product_reached e pid s product Hsome) as (Hp & ->).
    split; [|split].
    + intros fn. rewrite in_remove_files.
      rewrite negb_true_iff. tauto.
    + intros ->. cbn [fst snd]. split; [reflexivity|].
      apply find_after_delete.
    + intros ->. cbn [fst snd]. split; [reflexivity|]. split; [reflexivity|].
      exact Hp.
Qed.

End DeleteFiles.

Section KeptNames.
Context {RT : Runtime}.
Variable P : Platform.
Variable json_loads : string -> option json.

(** X26.  A file name sent in [existingImages] is kept on the product
    whether or not the product listed it before: when the seller of a
    product updates it with [existingImages] holding one safe local name and
    then deletes the product, both calls answer 200 and that file is gone
    from the upload folder, although the product never had it and another
    product, found unchanged in the store, may still list it. *)
Theorem kept_name_deleted_with_product (e : Env) (pid : Z)
    (ct : option string) (f : list (string * string)) (s : State) (d : Disk)
    (product : Product) (text url fn : string) :
  product_to_update e pid ct f s = Some product ->
  form_get "existingImages" f = Some text ->
  text <> "" ->
  json_loads text = Some (JArr [JStr fn]) ->
  uploads_url P = Some url ->
  PyStr.contains url fn = false ->
  Files.is_http fn = false ->
  secure_filename P fn = fn ->
  fn <> "" ->
  folder_ready d = true ->
  can_remove d fn = true ->
  commit_ok e = true ->
  let after_update := update_product_files P json_loads e pid ct f [] s d in
  let after_delete :=
    delete_product_files e pid (fst (fst after_update)) (snd (fst after_update)) in
  status (snd after_update) = 200 /\
  status (snd after_delete) = 200 /\
  ~ In fn (disk_files (snd (fst after_delete))) /\
  (forall pid' other,
     pid' <> pid -> get_product s pid' = Some other ->
     get_product (fst (fst after_delete)) pid' = Some other).
Proof.
  intros Hsome Hform Htext Hloads Hurl Hcontains Hhttp Hsecure Hfn Hready Hrm Hok.
  assert (Hkept : final_filenames_to_keep P json_loads
                    (form_get "existingImages" f) = [fn]).
  { unfold final_filenames_to_keep. rewrite Hform.
    apply String.eqb_neq in Htext. rewrite Htext, Hloads, Hurl. simpl.
    now rewrite Hcontains, Hhttp, Hsecure. }
  pose proof Hsome as Hguard. unfold product_to_update in Hguard.
  destruct (current_user_id e) as [r|uid] eqn:Hc; [discriminate|].
  destruct (get_product s pid) as [p|] eqn:Hp; [|discriminate].
  destruct (negb (seller_id p =? uid)) eqn:Hseller; [discriminate|].
  destruct ct as [c|]; [|discriminate].
  destruct (negb (PyStr.contains "multipart/form-data" c)) eqn:Hct;
    [discriminate|].
  destruct (requested_price f (price p)) as [r|x] eqn:Hprice; [discriminate|].
  injection Hguard as ->.
  intros after_update after_delete.
  assert (Hupd : after_update =
            (with_products s
               (update_first (fun q => product_id q =? pid)
                  (fun _ =>
                     {| product_id := product_id product;
                        title := form_text "title" f (title product);
                        description :=
                          form_text "description" f (description product);
                        category := form_text "category" f (category product);
                        price := x;
                        seller_id := seller_id product;
                        image_filenames_list := [fn];
                        created_at := created_at product |})
                  (products s))
               (next_product_id s),
             Files.remove_files (fun _ => true)
               (files_to_delete_from_storage (image_filenames_list product) [fn])
               (Files.with_saved d []),
             respond 200
               (PProduct
                  {| product_id := product_id product;
                     title := form_text "title" f (title product);
                     description :=
                       form_text "description" f (description product);
                     category := form_text "category" f (category product);
                     price := x;
                     seller_id := seller_id product;
                     image_filenames_list := [fn];
                     created_at := created_at product |}))).
  { unfold after_update, update_product_files. rewrite Hsome.
    unfold update_product, update_request. cbn [content_type form kept_filenames
      saved_filenames Files.saved_uploads].
    rewrite Hc, Hp, Hseller, Hct, Hprice, Hok, Hkept. reflexivity. }
  pose proof (get_product_id s pid product Hp) as Hid.
  set (updated := {| product_id := product_id product;
                     title := form_text "title" f (title product);
                     description :=
                       form_text "description" f (description product);
                     category := form_text "category" f (category product);
                     price := x;
                     seller_id := seller_id product;
                     image_filenames_list := [fn];
                     created_at := created_at product |}) in *.
  assert (Hfound : get_product (fst (fst after_update)) pid = Some updated).
  { rewrite Hupd. unfold get_product in *. cbn [fst products with_products].
    apply (find_update_first _ (fun _ => updated) _ product Hp).
    unfold updated. simpl. rewrite Hid. apply Z.eqb_refl. }
  assert (Hdel : product_to_delete e pid (fst (fst after_update)) = Some updated).
  { unfold product_to_delete. rewrite Hc, Hfound. unfold updated at 1.
    cbn [seller_id]. now rewrite Hseller. }
  destruct (delete_product_reached e pid _ updated Hdel) as (_ & Hdeleted).
  rewrite Hok in Hdeleted.
  split; [now rewrite Hupd|]. split.
  { unfold after_delete, delete_product_files. cbn [snd]. now rewrite Hdeleted. }
  split.
  - unfold after_delete, delete_product_files. rewrite Hdel. cbn [fst snd].
    rewrite in_remove_files. intros [Hin Hnot]. apply Hnot.
    rewrite Hupd. cbn [fst snd Files.remove_files Files.with_saved
      folder_ready can_remove]. unfold updated. cbn [image_filenames_list].
    rewrite Hhttp. repeat split; try assumption; try reflexivity. now left.
  - intros pid' other Hne Hother.
    unfold after_delete, delete_product_files. cbn [fst].
    rewrite Hdeleted. cbn [fst]. unfold get_product. cbn [products with_products].
    apply find_kept_after_delete; [exact Hne|].
    rewrite Hupd. cbn [fst products with_products].
    rewrite (find_replaced _ updated pid pid'); [|exact Hid].
    unfold get_product in Hother. rewrite Hother.
    apply Z.eqb_neq in Hne. now rewrite Hne.
Qed.

End KeptNames.

Lemma update_product_images_witness :
  product_to_update (RT := Demo.runtime) Sample.alice_env 1
    FileSample.multipart [("existingImages", "[1]")] FileSample.gallery =
    Some FileSample.lamp /\
  commit_ok Sample.alice_env = true /\
  (exists updated,
     get_product
       (fst (fst (update_product_files FileSample.platform FileSample.loads
                    Sample.alice_env 1 FileSample.multipart
                    [("existingImages", "[1]")] [FileSample.photo]
                    FileSample.gallery FileSample.disk))) 1 = Some updated /\
     image_filenames_list updated = ["a.png"; "0f3c.png"]) /\
  (In "b.png"
     (disk_files
        (snd (fst (update_product_files FileSample.platform FileSample.loads
                     Sample.alice_env 1 FileSample.multipart
                     [("existingImages", "[1]")] [FileSample.photo]
                     FileSample.gallery FileSample.disk)))) <->
   (In "b.png" (disk_files FileSample.disk) \/
    In "b.png" (Files.saved_uploads FileSample.platform FileSample.disk
                  [FileSample.photo])) /\
   ~ (folder_ready FileSample.disk = true /\
      In "b.png" (image_filenames_list FileSample.lamp) /\
      ~ In "b.png"
          (final_filenames_to_keep FileSample.platform FileSample.loads
             (form_get "existingImages" [("existingImages", "[1]")])
           ++ Files.saved_uploads FileSample.platform FileSample.disk
                [FileSample.photo]) /\
      "b.png" <> "" /\ can_remove FileSample.disk "b.png" = true)).
Proof.
  assert (H1 : product_to_update (RT := Demo.runtime) Sample.alice_env 1
                 FileSample.multipart [("existingImages", "[1]")]
                 FileSample.gallery = Some FileSample.lamp) by reflexivity.
  assert (H2 : commit_ok Sample.alice_env = true) by reflexivity.
  destruct (update_product_images FileSample.platform FileSample.loads
              Sample.alice_env 1 FileSample.multipart
              [("existingImages", "[1]")] [FileSample.photo]
              FileSample.gallery FileSample.disk) as (_ & Hreached & _).
  destruct (Hreached _ H1) as (Hdisk & Hok & _).
  destruct (Hok H2) as (_ & updated & Hfound & Himages).
  exact (conj H1 (conj H2
           (conj (ex_intro _ updated (conj Hfound Himages))
                 (Hdisk "b.png")))).
Defined.

Lemma delete_product_images_witness :
  product_to_delete (RT := Demo.runtime) Sample.alice_env 1 FileSample.gallery =
    Some FileSample.lamp /\
  commit_ok Sample.alice_env = true /\
  status (snd (delete_product_files Sample.alice_env 1 FileSample.gallery
                 FileSample.disk)) = 200 /\
  get_product
    (fst (fst (delete_product_files Sample.alice_env 1 FileSample.gallery
                 FileSample.disk))) 1 = None /\
  (In "a.png"
     (disk_files
        (snd (fst (delete_product_files Sample.alice_env 1 FileSample.gallery
                     FileSample.disk)))) <->
   In "a.png" (disk_files FileSample.disk) /\
   ~ (folder_ready FileSample.disk = true /\
      In "a.png" (image_filenames_list FileSample.lamp) /\
      "a.png" <> "" /\ Files.is_http "a.png" = false /\
      can_remove FileSample.disk "a.png" = true)).
Proof.
  assert (H1 : product_to_delete (RT := Demo.runtime) Sample.alice_env 1
                 FileSample.gallery = Some FileSample.lamp) by reflexivity.
  assert (H2 : commit_ok Sample.alice_env = true) by reflexivity.
  destruct (delete_product_images Sample.alice_env 1 FileSample.gallery
              FileSample.disk) as (_ & Hreached).
  destruct (Hreached _ H1) as (Hdisk & Hok & _).
  destruct (Hok H2) as (Hstatus & Hgone).
  exact (conj H1 (conj H2 (conj Hstatus (conj Hgone (Hdisk "a.png"))))).
Defined.

Lemma kept_name_deleted_with_product_witness :
  product_to_update (RT := Demo.runtime) Sample.alice_env 1
    FileSample.multipart [("existingImages", "[2]")] FileSample.gallery =
    Some FileSample.lamp /\
  form_get "existingImages" [("existingImages", "[2]")] = Some "[2]" /\
  "[2]" <> "" /\
  FileSample.loads "[2]" = Some (JArr [JStr "z.png"]) /\
  uploads_url FileSample.platform = Some "/uploads" /\
  PyStr.contains "/uploads" "z.png" = false /\
  Files.is_http "z.png" = false /\
  secure_filename FileSample.platform "z.png" = "z.png" /\
  "z.png" <> "" /\
  folder_ready FileSample.disk = true /\
  can_remove FileSample.disk "z.png" = true /\
  commit_ok Sample.alice_env = true /\
  ~ In "z.png" (image_filenames_list FileSample.lamp) /\
  In "z.png" (disk_files FileSample.disk) /\
  let after_update :=
    update_product_files FileSample.platform FileSample.loads
      Sample.alice_env 1 FileSample.multipart [("existingImages", "[2]")] []
      FileSample.gallery FileSample.disk in
  let after_delete :=
    delete_product_files Sample.alice_env 1 (fst (fst after_update))
      (snd (fst after_update)) in
  status (snd after_update) = 200 /\
  status (snd after_delete) = 200 /\
  ~ In "z.png" (disk_files (snd (fst after_delete))).
Proof.
  assert (H1 : product_to_update (RT := Demo.runtime) Sample.alice_env 1
                 FileSample.multipart [("existingImages", "[2]")]
                 FileSample.gallery = Some FileSample.lamp) by reflexivity.
  assert (H2 : form_get "existingImages" [("existingImages", "[2]")] =
               Some "[2]") by reflexivity.
  assert (H3 : "[2]" <> "") by discriminate.
  assert (H4 : FileSample.loads "[2]" = Some (JArr [JStr "z.png"]))
    by reflexivity.
  assert (H5 : uploads_url FileSample.platform = Some "/uploads")
    by reflexivity.
  assert (H6 : PyStr.contains "/uploads" "z.png" = false) by reflexivity.
  assert (H7 : Files.is_http "z.png" = false) by reflexivity.
  assert (H8 : secure_filename FileSample.platform "z.png" = "z.png")
    by reflexivity.
  assert (H9 : "z.png" <> "") by discriminate.
  assert (H10 : folder_ready FileSample.disk = true) by reflexivity.
  assert (H11 : can_remove FileSample.disk "z.png" = true) by reflexivity.
  assert (H12 : commit_ok Sample.alice_env = true) by reflexivity.
  assert (H13 : ~ In "z.png" (image_filenames_list FileSample.lamp))
    by (intros [H|[H|[]]]; discriminate H).
  assert (H14 : In "z.png" (disk_files FileSample.disk))
    by (right; right; left; reflexivity).
  destruct (kept_name_deleted_with_product FileSample.platform
              FileSample.loads Sample.alice_env 1 FileSample.multipart
              [("existingImages", "[2]")] FileSample.gallery FileSample.disk
              FileSample.lamp "[2]" "/uploads" "z.png"
              H1 H2 H3 H4 H5 H6 H7 H8 H9 H10 H11 H12)
    as (Hup & Hdel & Hgone & _).
  exact (conj H1 (conj H2 (conj H3 (conj H4 (conj H5 (conj H6 (conj H7
          (conj H8 (conj H9 (conj H10 (conj H11 (conj H12 (conj H13
          (conj H14 (conj Hup (conj Hdel Hgone)))))))))))))))).
Defined.
